(** * Clinic receptionist agent: dialogue engine, field extractor and slot calendar

    A shallow embedding of [app/agent/clinic_agent.py], [app/agent/tools.py],
    [app/agent/prompts.py], the tables of [app/database/models.py] and the
    status update of [app/api/routes.py].

    Conventions of the embedding.
    - A Python [str] is a [string]; a character is an [ascii].  Utterances are
      taken to be ASCII text: code points 128..255 belong to no character
      class and have no case.  Reply templates that contain emoji are written
      with their UTF-8 bytes.
    - A Python [int] is a [Z].
    - [conversation_states], a dictionary keyed by phone number, is a
      [gmap string _]; the [context] dictionary, which only ever holds eight
      fixed keys, is a record of optional fields.
    - Code that can raise returns an [outcome].
    - The tools decorated with [@tool] are embedded as the functions they
      wrap.
    - What a turn reads from outside (the day of the clock, whether the
      database answers) is passed in as an [env]. *)

From Stdlib Require Import ZArith Ascii String List Bool Lia Sorted.
From stdpp Require Import base option list gmap strings.

Local Open Scope string_scope.
Local Open Scope Z_scope.

(** ** Python exceptions *)

Inductive exn := ValueError | IndexError | KeyError | OperationalError.

Inductive outcome (A : Type) :=
| Returns (a : A)
| Raises (e : exn).
Arguments Returns {A} a.
Arguments Raises {A} e.

(** ** The fragment of Python's [str] used by the agent *)

Module Py.

Definition code (c : ascii) : nat := nat_of_ascii c.

Definition between (lo hi : nat) (c : ascii) : bool :=
  (lo <=? code c)%nat && (code c <=? hi)%nat.

(** [\d] restricted to ASCII. *)
Definition is_digit : ascii -> bool := between 48 57.
Definition is_upper : ascii -> bool := between 65 90.
Definition is_lower : ascii -> bool := between 97 122.
Definition is_alpha (c : ascii) : bool := is_upper c || is_lower c.

(** [\w] restricted to ASCII: letters, digits and the underscore. *)
Definition is_word (c : ascii) : bool :=
  is_alpha c || is_digit c || (code c =? 95)%nat.

(** [\s] and [str.isspace] restricted to ASCII: TAB, LF, VT, FF, CR, the
    separators 0x1c..0x1f and the space. *)
Definition is_space (c : ascii) : bool :=
  between 9 13 c || between 28 32 c.

(** [s.isascii()]: every character is below U+0080.  The texts of the
    embedding are strings of such characters; on them [\d] is [[0-9]] and
    [\s] is [is_space]. *)
Fixpoint isascii (s : string) : bool :=
  match s with
  | EmptyString => true
  | String c s' => (code c <? 128)%nat && isascii s'
  end.

Definition lower_char (c : ascii) : ascii :=
  if is_upper c then ascii_of_nat (code c + 32) else c.
Definition upper_char (c : ascii) : ascii :=
  if is_lower c then ascii_of_nat (code c - 32) else c.

(** [s.lower()] *)
Fixpoint lower (s : string) : string :=
  match s with
  | EmptyString => EmptyString
  | String c s' => String (lower_char c) (lower s')
  end.

(** [needle in hay] *)
Fixpoint contains (needle hay : string) : bool :=
  String.prefix needle hay ||
  match hay with
  | EmptyString => false
  | String _ hay' => contains needle hay'
  end.

(** [any(k in hay for k in keys)] *)
Definition any_in (keys : list string) (hay : string) : bool :=
  existsb (fun k => contains k hay) keys.

(** [any(is_digit)]: what [re.search(r'\d', s)] decides. *)
Fixpoint has_digit (s : string) : bool :=
  match s with
  | EmptyString => false
  | String c s' => is_digit c || has_digit s'
  end.

(** [s.replace(old, '')] for a one-character [old]. *)
Fixpoint remove_char (old : ascii) (s : string) : string :=
  match s with
  | EmptyString => EmptyString
  | String c s' =>
      if Ascii.eqb c old then remove_char old s' else String c (remove_char old s')
  end.

(** [s.split()]: maximal runs of non-space characters. *)
Fixpoint split_go (cur : option string) (s : string) : list string :=
  match s with
  | EmptyString => match cur with Some w => [String.rev w] | None => [] end
  | String c s' =>
      if is_space c
      then match cur with
           | Some w => String.rev w :: split_go None s'
           | None => split_go None s'
           end
      else split_go (Some (String c (default EmptyString cur))) s'
  end.
Definition split : string -> list string := split_go None.

(** [sep.join(ws)] *)
Fixpoint join (sep : string) (ws : list string) : string :=
  match ws with
  | [] => EmptyString
  | [w] => w
  | w :: ws' => w ++ sep ++ join sep ws'
  end.

(** [w.capitalize()] *)
Definition capitalize (w : string) : string :=
  match w with
  | EmptyString => EmptyString
  | String c w' => String (upper_char c) (lower w')
  end.

(** [s.title()]: a cased character is upper-cased when the character before
    it is not cased, and lower-cased otherwise. *)
Fixpoint title_go (prev_cased : bool) (s : string) : string :=
  match s with
  | EmptyString => EmptyString
  | String c s' =>
      String (if prev_cased then lower_char c else upper_char c)
             (title_go (is_alpha c) s')
  end.
Definition title : string -> string := title_go false.

Definition digit_val (c : ascii) : Z := Z.of_nat (code c - 48).

Fixpoint int_go (acc : Z) (s : string) : outcome Z :=
  match s with
  | EmptyString => Returns acc
  | String c s' =>
      if is_digit c then int_go (10 * acc + digit_val c) s' else Raises ValueError
  end.

Fixpoint lstrip (s : string) : string :=
  match s with
  | EmptyString => EmptyString
  | String c s' => if is_space c then lstrip s' else s
  end.

Fixpoint rstrip (s : string) : string :=
  match s with
  | EmptyString => EmptyString
  | String c s' =>
      match rstrip s' with
      | EmptyString => if is_space c then EmptyString else String c EmptyString
      | t => String c t
      end
  end.

(** [s.strip()] *)
Definition strip (s : string) : string := rstrip (lstrip s).

(** [int(s)] on the strings the agent passes to it, which are regex
    captures: surrounding white space is dropped, a non-empty run of digits
    is read in base ten, anything else raises [ValueError] (signs and
    underscores do not occur in those captures). *)
Definition int (s : string) : outcome Z :=
  match strip s with
  | EmptyString => Raises ValueError
  | s' => int_go 0 s'
  end.

Definition digit_char (d : Z) : ascii := ascii_of_nat (48 + Z.to_nat d).

Fixpoint digits_go (fuel : nat) (n : Z) (acc : string) : string :=
  match fuel with
  | O => acc
  | S fuel' =>
      let acc' := String (digit_char (n mod 10)) acc in
      if n <? 10 then acc' else digits_go fuel' (n / 10) acc'
  end.

(** [str(n)] for a non-negative [n]. *)
Definition str_nat (n : Z) : string :=
  digits_go (S (Z.to_nat (Z.log2 n))) n EmptyString.

(** [str(n)] *)
Definition str_int (n : Z) : string :=
  if n <? 0 then String "-" (str_nat (- n)) else str_nat n.

Fixpoint zeros (k : nat) : string :=
  match k with
  | O => EmptyString
  | S k' => String "0" (zeros k')
  end.

(** [f"{n:0wd}"] for a non-negative [n]. *)
Definition zfill (w : nat) (n : Z) : string :=
  let s := str_nat n in
  zeros (w - String.length s) ++ s.

End Py.

(** ** A backtracking matcher for the fragment of [re] used by the agent

    The matcher explores alternatives in the order of Python's engine:
    the left branch of [|] first, one more iteration of a greedy repetition
    before fewer.  The first complete match found is the one returned. *)

Module Re.

Inductive regex :=
| Eps
| Sym (p : ascii -> bool)                     (* one character of a class *)
| Cat (r1 r2 : regex)
| Alt (r1 r2 : regex)
| Rep (r : regex) (lo : nat) (hi : option nat) (* greedy r{lo,hi}; no [hi]: unbounded *)
| Grp (i : nat) (r : regex)                   (* capturing group number i *)
| Bol                                         (* ^ *)
| Eol                                         (* $ *)
| WordB.                                      (* \b *)

(** A position in the subject: its index, the character before it and the
    text from it on. *)
Record cursor := Cursor { c_pos : nat; c_prev : option ascii; c_rest : string }.

Definition caps := list (nat * string).

Definition advance (c : cursor) : cursor :=
  match c_rest c with
  | EmptyString => c
  | String a s' => Cursor (S (c_pos c)) (Some a) s'
  end.

Definition is_word_opt (o : option ascii) : bool :=
  match o with Some a => Py.is_word a | None => false end.

Definition peek (c : cursor) : option ascii :=
  match c_rest c with
  | EmptyString => None
  | String a _ => Some a
  end.

Section Matcher.
Context {A : Type}.

Definition cont := cursor -> caps -> option A.

(** Greedy repetition of the matcher [m]: at least [lo] and at most [n]
    more iterations.  Every repeated expression of the agent consumes at
    least one character per iteration, so for an unbounded repetition the
    length of the remaining text bounds [n]. *)
Fixpoint rep_loop (m : cursor -> caps -> cont -> option A)
    (lo n : nat) (c : cursor) (g : caps) (k : cont) : option A :=
  match n with
  | O => match lo with O => k c g | S _ => None end
  | S n' =>
      match m c g (fun c' g' => rep_loop m (Nat.pred lo) n' c' g' k) with
      | Some a => Some a
      | None => match lo with O => k c g | S _ => None end
      end
  end.

Fixpoint rmatch (r : regex) (c : cursor) (g : caps) (k : cont) : option A :=
  match r with
  | Eps => k c g
  | Sym p =>
      match c_rest c with
      | EmptyString => None
      | String a _ => if p a then k (advance c) g else None
      end
  | Cat r1 r2 => rmatch r1 c g (fun c' g' => rmatch r2 c' g' k)
  | Alt r1 r2 =>
      match rmatch r1 c g k with
      | Some a => Some a
      | None => rmatch r2 c g k
      end
  | Rep r' lo hi =>
      rep_loop (rmatch r') lo
        (match hi with Some h => h | None => String.length (c_rest c) end) c g k
  | Grp i r' =>
      rmatch r' c g (fun c' g' =>
        k c' ((i, substring 0 (c_pos c' - c_pos c) (c_rest c)) :: g'))
  | Bol => match c_pos c with O => k c g | S _ => None end
  | Eol =>
      match c_rest c with
      | EmptyString => k c g
      | String a EmptyString => if Ascii.eqb a "010" then k c g else None
      | _ => None
      end
  | WordB =>
      if xorb (is_word_opt (c_prev c)) (is_word_opt (peek c)) then k c g else None
  end.
End Matcher.

(** A match object: the captured groups (group 0 is the whole match) and
    the index at which the match ends. *)
Record match_obj := MatchObj { m_caps : caps; m_end : nat }.

Definition match_at (r : regex) (c : cursor) : option match_obj :=
  rmatch (Grp 0 r) c [] (fun c' g => Some (MatchObj g (c_pos c'))).

Fixpoint search_go (r : regex) (pos : nat) (prev : option ascii) (s : string)
    : option match_obj :=
  match match_at r (Cursor pos prev s) with
  | Some m => Some m
  | None =>
      match s with
      | EmptyString => None
      | String a s' => search_go r (S pos) (Some a) s'
      end
  end.

(** [re.search(r, s)]: the leftmost match. *)
Definition search (r : regex) (s : string) : option match_obj :=
  search_go r 0 None s.

(** [re.match(r, s)]: a match at the start of [s]. *)
Definition match_start (r : regex) (s : string) : option match_obj :=
  match_at r (Cursor 0 None s).

(** [m.group(i)]: [None] when the group took no part in the match. *)
Fixpoint lookup_cap (i : nat) (g : caps) : option string :=
  match g with
  | [] => None
  | (j, s) :: g' => if (i =? j)%nat then Some s else lookup_cap i g'
  end.
Definition group (m : match_obj) (i : nat) : option string :=
  lookup_cap i (m_caps m).

(** Pattern syntax. *)
Definition chr (a : ascii) : regex := Sym (Ascii.eqb a).
Definition chr_i (a : ascii) : regex :=
  Sym (fun b => Ascii.eqb (Py.lower_char b) (Py.lower_char a)).
Fixpoint lit_with (f : ascii -> regex) (s : string) : regex :=
  match s with
  | EmptyString => Eps
  | String a EmptyString => f a
  | String a s' => Cat (f a) (lit_with f s')
  end.
(** A literal, and a literal under [re.IGNORECASE]. *)
Definition lit : string -> regex := lit_with chr.
Definition lit_i : string -> regex := lit_with chr_i.

Fixpoint seq (rs : list regex) : regex :=
  match rs with
  | [] => Eps
  | [r] => r
  | r :: rs' => Cat r (seq rs')
  end.
Fixpoint alts (rs : list regex) : regex :=
  match rs with
  | [] => Sym (fun _ => false)
  | [r] => r
  | r :: rs' => Alt r (alts rs')
  end.

Definition digit : regex := Sym Py.is_digit.             (* \d *)
Definition space : regex := Sym Py.is_space.             (* \s *)
Definition range (lo hi : ascii) : regex :=              (* [lo-hi] *)
  Sym (Py.between (nat_of_ascii lo) (nat_of_ascii hi)).
Definition opt (r : regex) : regex := Rep r 0 (Some 1%nat).  (* r? *)
Definition star (r : regex) : regex := Rep r 0 None.         (* r* *)
Definition plus (r : regex) : regex := Rep r 1 None.         (* r+ *)
Definition times (r : regex) (lo hi : nat) : regex := Rep r lo (Some hi). (* r{lo,hi} *)

End Re.

(** ** [datetime.date], [datetime.time], [strptime] and [strftime] *)

Module Dt.
Import Re.

Record date := MkDate { d_year : Z; d_month : Z; d_day : Z }.
Record time := MkTime { t_hour : Z; t_minute : Z }.

Definition date_eqb (a b : date) : bool :=
  (d_year a =? d_year b) && (d_month a =? d_month b) && (d_day a =? d_day b).
Definition time_eqb (a b : time) : bool :=
  (t_hour a =? t_hour b) && (t_minute a =? t_minute b).

(** [a < b] on dates: by year, then month, then day. *)
Definition date_ltb (a b : date) : bool :=
  (d_year a <? d_year b)
  || ((d_year a =? d_year b)
      && ((d_month a <? d_month b)
          || ((d_month a =? d_month b) && (d_day a <? d_day b)))).

Definition is_leap (y : Z) : bool :=
  (y mod 4 =? 0) && (negb (y mod 100 =? 0) || (y mod 400 =? 0)).

Definition days_in_month (y m : Z) : Z :=
  if m =? 2 then (if is_leap y then 29 else 28)
  else if (m =? 4) || (m =? 6) || (m =? 9) || (m =? 11) then 30
  else 31.

(** [date(y, m, d)] raises [ValueError] outside the calendar. *)
Definition mk_date (y m d : Z) : outcome date :=
  if (1 <=? y) && (y <=? 9999) && (1 <=? m) && (m <=? 12)
     && (1 <=? d) && (d <=? days_in_month y m)
  then Returns (MkDate y m d) else Raises ValueError.

(** [time(hour=h, minute=m)] raises [ValueError] outside 0..23 and 0..59. *)
Definition mk_time (h m : Z) : outcome time :=
  if (0 <=? h) && (h <=? 23) && (0 <=? m) && (m <=? 59)
  then Returns (MkTime h m) else Raises ValueError.

(** [d + timedelta(days=1)].  On 9999-12-31 Python raises [OverflowError];
    the clock of the embedding stays below that day. *)
Definition next_day (d : date) : date :=
  if d_day d <? days_in_month (d_year d) (d_month d)
  then MkDate (d_year d) (d_month d) (d_day d + 1)
  else if d_month d <? 12 then MkDate (d_year d) (d_month d + 1) 1
  else MkDate (d_year d + 1) 1 1.

(** The regular expressions [_strptime] builds for the directives. *)
Definition re_Y : regex := seq [digit; digit; digit; digit].
Definition re_m : regex :=
  alts [Cat (chr "1") (range "0" "2"); Cat (chr "0") (range "1" "9"); range "1" "9"].
Definition re_d : regex :=
  alts [Cat (chr "3") (range "0" "1"); Cat (range "1" "2") digit;
        Cat (chr "0") (range "1" "9"); range "1" "9"; Cat (chr " ") (range "1" "9")].
Definition re_H : regex :=
  alts [Cat (chr "2") (range "0" "3"); Cat (range "0" "1") digit; digit].
Definition re_M : regex := alts [Cat (range "0" "5") digit; digit].

(** [_strptime]: the format's expression must match at the start of the
    text and leave nothing unconverted. *)
Definition strptime_groups (r : regex) (s : string) : outcome match_obj :=
  match match_start r s with
  | None => Raises ValueError
  | Some m =>
      if (m_end m =? String.length s)%nat then Returns m else Raises ValueError
  end.

Definition group_int (m : match_obj) (i : nat) : outcome Z :=
  match group m i with
  | Some s => Py.int s
  | None => Raises IndexError
  end.

(** [datetime.strptime(s, "%Y-%m-%d").date()] *)
Definition strptime_date (s : string) : outcome date :=
  match strptime_groups
          (seq [Grp 1 re_Y; chr "-"; Grp 2 re_m; chr "-"; Grp 3 re_d]) s with
  | Raises e => Raises e
  | Returns m =>
      match group_int m 1, group_int m 2, group_int m 3 with
      | Returns y, Returns mo, Returns d => mk_date y mo d
      | _, _, _ => Raises ValueError
      end
  end.

(** [datetime.strptime(s, "%H:%M").time()] *)
Definition strptime_time (s : string) : outcome time :=
  match strptime_groups (seq [Grp 1 re_H; chr ":"; Grp 2 re_M]) s with
  | Raises e => Raises e
  | Returns m =>
      match group_int m 1, group_int m 2 with
      | Returns h, Returns mi => mk_time h mi
      | _, _ => Raises ValueError
      end
  end.

(** [d.strftime("%Y-%m-%d")], for years of four digits. *)
Definition strftime_iso (d : date) : string :=
  Py.zfill 4 (d_year d) ++ "-" ++ Py.zfill 2 (d_month d) ++ "-" ++ Py.zfill 2 (d_day d).

(** [t.strftime("%I:%M %p")] *)
Definition strftime_12h (t : time) : string :=
  let h12 := if t_hour t mod 12 =? 0 then 12 else t_hour t mod 12 in
  Py.zfill 2 h12 ++ ":" ++ Py.zfill 2 (t_minute t) ++ " "
    ++ (if t_hour t <? 12 then "AM" else "PM").

Definition days_before_year (y : Z) : Z :=
  (y - 1) * 365 + (y - 1) / 4 - (y - 1) / 100 + (y - 1) / 400.

Fixpoint days_before_month_go (y : Z) (k : nat) : Z :=
  match k with
  | O => 0
  | S k' => days_before_month_go y k' + days_in_month y (Z.of_nat k)
  end.
Definition days_before_month (y m : Z) : Z :=
  days_before_month_go y (Z.to_nat (m - 1)).

(** [d.toordinal()] and [d.weekday()] (Monday is 0). *)
Definition toordinal (d : date) : Z :=
  days_before_year (d_year d) + days_before_month (d_year d) (d_month d) + d_day d.
Definition weekday (d : date) : Z := (toordinal d + 6) mod 7.

Definition day_name (w : Z) : string :=
  nth (Z.to_nat w)
    ["Monday"; "Tuesday"; "Wednesday"; "Thursday"; "Friday"; "Saturday"; "Sunday"] EmptyString.
Definition month_name (m : Z) : string :=
  nth (Z.to_nat (m - 1))
    ["January"; "February"; "March"; "April"; "May"; "June"; "July";
     "August"; "September"; "October"; "November"; "December"] EmptyString.

(** [d.strftime("%A, %B %d, %Y")] *)
Definition strftime_long (d : date) : string :=
  day_name (weekday d) ++ ", " ++ month_name (d_month d) ++ " "
    ++ Py.zfill 2 (d_day d) ++ ", " ++ Py.zfill 4 (d_year d).

End Dt.

Definition nl : string := String "010" EmptyString.

(** ** The tables of [app/database/models.py]

    The time stamps [created_at] and [reminder_sent] are left out: no
    operation of the agent reads them. *)

Module Models.
Import Dt.

Record Patient := MkPatient {
  patient_id : Z;
  patient_name : string;
  patient_phone : string;
  patient_age : Z
}.

Record Appointment := MkAppointment {
  apt_id : Z;
  apt_patient_id : Z;
  apt_date : date;
  apt_time : time;
  apt_reason : string;
  apt_status : string     (* pending, confirmed, completed, cancelled *)
}.

Record Conversation := MkConversation {
  conv_patient_id : option Z;
  conv_phone : string;
  conv_transcript : string
}.

(** The committed content of the database, rows in insertion order. *)
Record database := MkDatabase {
  patients : list Patient;
  appointments : list Appointment;
  conversations : list Conversation
}.

Definition empty_db : database := MkDatabase [] [] [].

(** The integer primary key given to the next row of a table. *)
Definition next_id {A : Type} (rows : list A) : Z := Z.of_nat (List.length rows) + 1.

(** [db.query(Patient).filter(Patient.phone == phone).first()] *)
Definition find_patient (phone : string) (ps : list Patient) : option Patient :=
  List.find (fun p => String.eqb (patient_phone p) phone) ps.

(** [Appointment.status.in_(["pending", "confirmed"])] *)
Definition is_active (a : Appointment) : bool :=
  String.eqb (apt_status a) "pending" || String.eqb (apt_status a) "confirmed".

End Models.

(** ** [app/agent/prompts.py] *)

Module Prompts.

Definition URGENCY_KEYWORDS : list string :=
  [ "chest pain"; "heart attack"; "can't breathe"; "difficulty breathing";
    "severe bleeding"; "unconscious"; "seizure"; "stroke";
    "severe pain"; "emergency"; "urgent";
    "seene mein dard"; "dil ka daura"; "sans nahi aa rahi";
    "khoon beh raha"; "behosh"; "bohot dard"; "emergency" ].

Definition is_urgent (text : string) : bool :=
  let text_lower := Py.lower text in
  Py.any_in URGENCY_KEYWORDS text_lower.

Definition URGENT_REPLY : string :=
  "⚠️ URGENT: Based on your symptoms, this may be an emergency. "
  ++ "Please call emergency services (115) or go to the nearest hospital immediately. "
  ++ "Do not wait for an appointment.".

End Prompts.

(** ** [app/agent/tools.py] *)

Module Tools.
Import Dt Models Prompts.

(** The clinic settings read from the environment when the module is
    loaded.  The module reads any integers; a configuration is a setting with
    a positive [SLOT_DURATION_MINUTES], on which the loop of
    [generate_time_slots] terminates.  The loop for any integer is
    [slots_run]: with a negative duration it raises [ValueError], with 0 it
    does not terminate. *)
Record config := MkConfig {
  CLINIC_START_HOUR : Z;
  CLINIC_END_HOUR : Z;
  SLOT_DURATION_MINUTES : positive
}.

Definition default_config : config := MkConfig 10 20 30.

(** What a turn reads from outside the program: the calendar day of the
    clock and whether the database answers. *)
Record env := MkEnv { today : date; db_up : bool }.

Section WithConfig.
Variable cfg : config.

(** The [while current_hour < CLINIC_END_HOUR] loop.  [fuel] bounds the
    iterations; [generate_time_slots] passes enough. *)
Fixpoint slots_loop (fuel : nat) (current_hour current_minute : Z)
    : outcome (list time) :=
  match fuel with
  | O => Returns []
  | S fuel' =>
      if current_hour <? CLINIC_END_HOUR cfg then
        match mk_time current_hour current_minute with
        | Raises e => Raises e
        | Returns slot =>
            let current_minute' := current_minute + Z.pos (SLOT_DURATION_MINUTES cfg) in
            let rest :=
              if current_minute' >=? 60
              then slots_loop fuel' (current_hour + 1) 0
              else slots_loop fuel' current_hour current_minute' in
            match rest with
            | Raises e => Raises e
            | Returns slots => Returns (slot :: slots)
            end
        end
      else Returns []
  end.

Definition slots_fuel : nat :=
  S (Z.to_nat (60 * (CLINIC_END_HOUR cfg - CLINIC_START_HOUR cfg))).

Definition generate_time_slots : outcome (list time) :=
  slots_loop slots_fuel (CLINIC_START_HOUR cfg) 0.

Definition PAST_DATE_REPLY : string :=
  "Sorry, I cannot book appointments for past dates. Please choose today or a future date.".
Definition no_slots_reply (appointment_date : string) : string :=
  "Sorry, no slots available on " ++ appointment_date ++ ". Please try another date.".
Definition slots_reply (appointment_date : string) (slot_strings : list string) : string :=
  "Available slots on " ++ appointment_date ++ ": " ++ Py.join ", " slot_strings.
Definition INVALID_DATE_REPLY : string :=
  "Invalid date format. Please use YYYY-MM-DD format (e.g., 2024-01-15)".
Definition SLOTS_ERROR_REPLY : string :=
  "Sorry, I encountered an error checking availability. Please try again.".

(** [{apt.time for apt in booked_appointments}], for the appointments of
    [target_date] whose status is pending or confirmed. *)
Definition booked_times (db : database) (target_date : date) : list time :=
  map apt_time
    (List.filter (fun a => date_eqb (apt_date a) target_date && is_active a)
            (appointments db)).

(** [[slot for slot in all_slots if slot not in booked_times]] *)
Definition available (all_slots booked : list time) : list time :=
  List.filter (fun slot => negb (existsb (time_eqb slot) booked)) all_slots.

Definition get_available_slots (e : env) (db : database) (appointment_date : string)
    : string :=
  match strptime_date appointment_date with
  | Raises _ => INVALID_DATE_REPLY
  | Returns target_date =>
      if date_ltb target_date (today e) then PAST_DATE_REPLY
      else
        match generate_time_slots with
        | Raises ValueError => INVALID_DATE_REPLY
        | Raises _ => SLOTS_ERROR_REPLY
        | Returns all_slots =>
            if db_up e then
              match available all_slots (booked_times db target_date) with
              | [] => no_slots_reply appointment_date
              | avail => slots_reply appointment_date (map strftime_12h avail)
              end
            else SLOTS_ERROR_REPLY
        end
  end.

Definition slot_taken_reply (appointment_time appointment_date : string) : string :=
  "Sorry, the slot at " ++ appointment_time ++ " on " ++ appointment_date
  ++ " was just booked. Please choose another time.".
Definition INVALID_BOOKING_REPLY : string :=
  "Invalid date or time format. Please provide date as YYYY-MM-DD and time as HH:MM".
Definition BOOKING_ERROR_REPLY : string :=
  "Sorry, I encountered an error while booking. Please try again or contact the clinic directly.".
Definition booked_reply (name phone : string) (d : date) (t : time) : string :=
  "✅ Appointment confirmed!" ++ nl ++ nl
  ++ "Patient: " ++ name ++ nl
  ++ "Date: " ++ strftime_long d ++ nl
  ++ "Time: " ++ strftime_12h t ++ nl
  ++ "Phone: " ++ phone.

(** The patient row for [phone]: the stored one, or a new one that is
    added to the table when the transaction commits. *)
Definition patient_for (db : database) (name phone : string) (age : Z)
    : Patient * list Patient :=
  match find_patient phone (patients db) with
  | Some p => (p, patients db)
  | None =>
      let p := MkPatient (next_id (patients db)) name phone age in
      (p, (patients db ++ [p])%list)
  end.

(** [existing]: an active appointment at the date and time. *)
Definition slot_taken (db : database) (d : date) (t : time) : bool :=
  existsb (fun a => date_eqb (apt_date a) d && time_eqb (apt_time a) t && is_active a)
          (appointments db).

(** [db.add(appointment); db.commit()] with status confirmed. *)
Definition commit_appointment (db : database) (ps : list Patient) (p : Patient)
    (d : date) (t : time) (reason : string) : database :=
  MkDatabase ps
    (appointments db
       ++ [MkAppointment (next_id (appointments db)) (patient_id p) d t reason "confirmed"])%list
    (conversations db).

(** The tool [book_appointment]: the reply and the database afterwards.
    Nothing is kept of a transaction that is closed without a commit. *)
Definition book_appointment (e : env) (db : database)
    (name phone : string) (age : Z)
    (appointment_date appointment_time reason : string) : string * database :=
  if is_urgent reason then (URGENT_REPLY, db)
  else
    match strptime_date appointment_date with
    | Raises _ => (INVALID_BOOKING_REPLY, db)
    | Returns target_date =>
        match strptime_time appointment_time with
        | Raises _ => (INVALID_BOOKING_REPLY, db)
        | Returns target_time =>
            if db_up e then
              let '(patient, ps) := patient_for db name phone age in
              if slot_taken db target_date target_time
              then (slot_taken_reply appointment_time appointment_date, db)
              else
                (booked_reply name phone target_date target_time ++ nl ++ nl
                   ++ "You will receive a reminder message before your appointment. "
                   ++ "Please arrive 10 minutes early. Thank you!",
                 commit_appointment db ps patient target_date target_time reason)
            else (BOOKING_ERROR_REPLY, db)
        end
    end.

End WithConfig.
End Tools.

(** ** [app/agent/clinic_agent.py] *)

Module Agent.
Import Re Dt Models Prompts Tools.

(** One entry of [state["messages"]]. *)
Record message := MkMessage { role : string; content : string }.

(** The [context] dictionary.  The agent only ever uses these eight keys,
    each with values of one type; an absent key is [None]. *)
Record context := MkContext {
  ctx_name : option string;
  ctx_age : option Z;
  ctx_phone : option string;
  ctx_reason : option string;
  ctx_date : option string;
  ctx_time : option string;
  ctx_stage : option string;
  ctx_shown_slots : option bool
}.

Definition empty_context : context :=
  MkContext None None None None None None None None.

Definition set_name (v : string) (c : context) : context :=
  MkContext (Some v) (ctx_age c) (ctx_phone c) (ctx_reason c) (ctx_date c)
            (ctx_time c) (ctx_stage c) (ctx_shown_slots c).
Definition set_age (v : Z) (c : context) : context :=
  MkContext (ctx_name c) (Some v) (ctx_phone c) (ctx_reason c) (ctx_date c)
            (ctx_time c) (ctx_stage c) (ctx_shown_slots c).
Definition set_phone (v : string) (c : context) : context :=
  MkContext (ctx_name c) (ctx_age c) (Some v) (ctx_reason c) (ctx_date c)
            (ctx_time c) (ctx_stage c) (ctx_shown_slots c).
Definition set_reason (v : string) (c : context) : context :=
  MkContext (ctx_name c) (ctx_age c) (ctx_phone c) (Some v) (ctx_date c)
            (ctx_time c) (ctx_stage c) (ctx_shown_slots c).
Definition set_date (v : string) (c : context) : context :=
  MkContext (ctx_name c) (ctx_age c) (ctx_phone c) (ctx_reason c) (Some v)
            (ctx_time c) (ctx_stage c) (ctx_shown_slots c).
Definition set_time (v : string) (c : context) : context :=
  MkContext (ctx_name c) (ctx_age c) (ctx_phone c) (ctx_reason c) (ctx_date c)
            (Some v) (ctx_stage c) (ctx_shown_slots c).
Definition set_stage (v : string) (c : context) : context :=
  MkContext (ctx_name c) (ctx_age c) (ctx_phone c) (ctx_reason c) (ctx_date c)
            (ctx_time c) (Some v) (ctx_shown_slots c).
Definition set_shown_slots (v : bool) (c : context) : context :=
  MkContext (ctx_name c) (ctx_age c) (ctx_phone c) (ctx_reason c) (ctx_date c)
            (ctx_time c) (ctx_stage c) (Some v).

(** The keys of the dictionary and the value stored under a key. *)
Inductive field :=
  FName | FAge | FPhone | FReason | FDate | FTime | FStage | FShownSlots.

Inductive value := VStr (s : string) | VInt (z : Z) | VBool (b : bool).

(** [context.get(f)] *)
Definition get (f : field) (c : context) : option value :=
  match f with
  | FName => VStr <$> ctx_name c
  | FAge => VInt <$> ctx_age c
  | FPhone => VStr <$> ctx_phone c
  | FReason => VStr <$> ctx_reason c
  | FDate => VStr <$> ctx_date c
  | FTime => VStr <$> ctx_time c
  | FStage => VStr <$> ctx_stage c
  | FShownSlots => VBool <$> ctx_shown_slots c
  end.

(** [state]: one entry of [conversation_states]. *)
Record session := MkSession { messages : list message; context_of : context }.

Definition new_session : session := MkSession [] empty_context.

(** The payload handed to [send_doctor_notification]. *)
Record notification := MkNotification {
  n_patient_name : string;
  n_patient_phone : string;
  n_patient_age : Z;
  n_appointment_date : string;
  n_appointment_time : string;
  n_reason : string
}.

(** Everything a turn can change: [conversation_states], the database and
    the messages sent to the doctor. *)
Record world := MkWorld {
  conversation_states : gmap string session;
  db : database;
  outbox : list notification
}.

Definition initial_world : world := MkWorld ∅ empty_db [].

(** *** [extract_patient_info] *)

(** [(\d{1,3})\s*(?:years?|saal|sal|old)] *)
Definition age_pattern : regex :=
  seq [Grp 1 (times digit 1 3); star space;
       alts [Cat (lit "year") (opt (chr "s")); lit "saal"; lit "sal"; lit "old"]].

(** [\b(\d{1,3})\b] *)
Definition number_pattern : regex :=
  seq [WordB; Grp 1 (times digit 1 3); WordB].

(** [03\d{2}[- ]?\d{7}] *)
Definition phone_pattern : regex :=
  seq [lit "03"; times digit 2 2;
       opt (Sym (fun c => Ascii.eqb c "-" || Ascii.eqb c " ")); times digit 7 7].

(** Under [re.IGNORECASE] both [[A-Z]] and [[a-z]] accept any letter. *)
Definition letter : regex := Sym Py.is_alpha.

(** [[A-Z][a-z]+(?:\s+[A-Z][a-z]+){lo,hi}] *)
Definition name_words (lo hi : nat) : regex :=
  seq [letter; plus letter; times (seq [plus space; letter; plus letter]) lo hi].

Definition name_patterns : list regex :=
  [ (* (?:my name is|i am|this is|naam hai|mera naam)\s+([A-Z][a-z]+(?:\s+[A-Z][a-z]+){0,3}) *)
    seq [alts [lit_i "my name is"; lit_i "i am"; lit_i "this is";
               lit_i "naam hai"; lit_i "mera naam"];
         plus space; Grp 1 (name_words 0 3)];
    (* ^([A-Z][a-z]+(?:\s+[A-Z][a-z]+){1,3})$ *)
    seq [Bol; Grp 1 (name_words 1 3); Eol] ].

(** The [for pattern in name_patterns] loop: the first pattern that matches
    gives the name. *)
Fixpoint first_match (patterns : list regex) (s : string) : option match_obj :=
  match patterns with
  | [] => None
  | pattern :: patterns' =>
      match search pattern s with
      | Some m => Some m
      | None => first_match patterns' s
      end
  end.

Definition question_words : list string :=
  ["what"; "when"; "where"; "how"; "why"; "need"; "want"; "appointment";
   "doctor"; "help"; "please"].

Definition symptom_keywords : list string :=
  ["pain"; "dard"; "fever"; "bukhar"; "cough"; "khansi"; "headache";
   "sar dard"; "checkup"; "sick"; "bimar"; "body pain"].

(** The age step.  [int] is the one call of the function that can raise. *)
Definition extract_age (msg : string) (c : context) : outcome context :=
  let message_lower := Py.lower msg in
  match search age_pattern message_lower, ctx_age c with
  | Some age_match, None =>
      match group_int age_match 1 with
      | Returns v => Returns (set_age v c)
      | Raises e => Raises e
      end
  | _, _ =>
      match ctx_age c, ctx_name c with
      | None, Some _ =>
          match search number_pattern msg with
          | Some num_match =>
              match group_int num_match 1 with
              | Returns age_val =>
                  if (1 <=? age_val) && (age_val <=? 120)
                  then Returns (set_age age_val c) else Returns c
              | Raises e => Raises e
              end
          | None => Returns c
          end
      | _, _ => Returns c
      end
  end.

Definition extract_phone (msg : string) (c : context) : context :=
  match search phone_pattern msg, ctx_phone c with
  | Some phone_match, None =>
      set_phone
        (Py.remove_char "-" (Py.remove_char " " (default EmptyString (group phone_match 0))))
        c
  | _, _ => c
  end.

Definition extract_name (msg : string) (c : context) : context :=
  let message_lower := Py.lower msg in
  match ctx_name c with
  | Some _ => c
  | None =>
      match first_match name_patterns msg with
      | Some m => set_name (Py.title (default EmptyString (group m 1))) c
      | None =>
          let words := Py.split msg in
          if (2 <=? List.length words)%nat && (List.length words <=? 4)%nat
             && negb (Py.has_digit msg)
          then
            if negb (Py.any_in question_words message_lower)
            then set_name (Py.join " " (map Py.capitalize words)) c
            else c
          else c
      end
  end.

Definition extract_reason (msg : string) (c : context) : context :=
  let message_lower := Py.lower msg in
  match ctx_reason c with
  | None => if Py.any_in symptom_keywords message_lower then set_reason msg c else c
  | Some _ => c
  end.

Definition extract_date (e : env) (msg : string) (c : context) : context :=
  let message_lower := Py.lower msg in
  if Py.contains "tomorrow" message_lower || Py.contains "kal" message_lower
  then set_date (strftime_iso (next_day (today e))) c
  else if Py.contains "today" message_lower || Py.contains "aaj" message_lower
  then set_date (strftime_iso (today e)) c
  else c.

(** [extract_patient_info(message, context)]: the dictionary after the call
    when it returns.  It can only raise in its first step, before anything
    has been written. *)
Definition extract_patient_info (e : env) (msg : string) (c : context)
    : outcome context :=
  match extract_age msg c with
  | Raises ex => Raises ex
  | Returns c1 =>
      Returns (extract_date e msg
                 (extract_reason msg (extract_name msg (extract_phone msg c1))))
  end.

(** *** [generate_response] *)

(** What a call of [generate_response] leaves behind: the reply or the
    exception, the [context] dictionary (which the caller's [state] still
    refers to), the database, the notifications sent, and whether
    [conversation_states[phone]] was replaced by a new empty state. *)
Record response := MkResponse {
  r_reply : outcome string;
  r_context : context;
  r_db : database;
  r_sent : list notification;
  r_reset : bool
}.

(** A reply that touches neither the database nor the session table. *)
Definition reply_with (text : string) (c : context) (d : database) : response :=
  MkResponse (Returns text) c d [] false.

Definition greeting_words : list string := ["hello"; "hi"; "assalam"; "salam"; "hey"].
Definition positive_words : list string := ["good"; "fine"; "great"; "okay"; "theek"; "acha"].
Definition negative_words : list string := ["not good"; "sick"; "unwell"; "pain"; "bad"; "bimar"].

Definition ASK_NAME : string := "May I have your name please?".
Definition ask_age (name : string) : string :=
  "Thank you, " ++ name ++ "! What is your age?".
Definition ASK_PHONE : string := "Great! What is your phone number?".
Definition ASK_REASON : string :=
  "I understand. What is the main health concern you'd like to see the doctor for?".
Definition ASK_DATE : string :=
  "Got it. Which date would you prefer for your appointment?".
Definition ASK_TIME : string :=
  "Please let me know which time slot you'd like. For example, say '2:00 PM' or '10:30 AM'".
Definition DEFAULT_REPLY : string :=
  "I'd be happy to help! Could you please provide the information I asked for?".
Definition INLINE_BOOKING_ERROR : string :=
  "Sorry, there was an error booking your appointment.".
Definition goodbye (booking_result : string) : string :=
  nl ++ nl ++ booking_result ++ nl ++ nl
  ++ "Thank you for choosing our clinic! We look forward to seeing you. "
  ++ "If you have any questions before your appointment, feel free to reach out. "
  ++ "Take care and get well soon! 🏥😊" ++ nl ++ nl
  ++ "Have a great day!".

(** [(am|pm|AM|PM)] *)
Definition meridiems : regex := alts [lit "am"; lit "pm"; lit "AM"; lit "PM"].

(** [(\d{1,2}):?(\d{2})?\s*(am|pm|AM|PM)?] and [(\d{1,2})\s*(am|pm|AM|PM)] *)
Definition time_patterns : list regex :=
  [ seq [Grp 1 (times digit 1 2); opt (chr ":"); opt (Grp 2 (times digit 2 2));
         star space; opt (Grp 3 meridiems)];
    seq [Grp 1 (times digit 1 2); star space; Grp 2 meridiems] ].

(** The conversion to the 24-hour clock. *)
Definition to_24h (hour : Z) (meridiem : option string) : Z :=
  match meridiem with
  | Some mer =>
      if String.eqb mer "pm" && (hour <? 12) then hour + 12
      else if String.eqb mer "am" && (hour =? 12) then 0
      else hour
  | None => hour
  end.

(** Lines 225-235: the groups of the match read as a time of day, written
    [HH:MM].  In the second pattern group 2 is the marker, on which [int]
    raises [ValueError]. *)
Definition parse_time (m : match_obj) : outcome string :=
  match group_int m 1 with
  | Raises e => Raises e
  | Returns hour =>
      match (match group m 2 with
             | Some g2 => if String.eqb g2 EmptyString then Returns 0 else Py.int g2
             | None => Returns 0
             end) with
      | Raises e => Raises e
      | Returns minute =>
          let meridiem := Py.lower <$> group m 3 in
          let hour := to_24h hour meridiem in
          Returns (Py.zfill 2 hour ++ ":" ++ Py.zfill 2 minute)
      end
  end.

(** The inline booking of lines 239-282: the text of [booking_result] and
    the database afterwards.  Every exception is caught; nothing is checked
    against the appointments already stored. *)
Definition inline_booking (e : env) (phone : string) (c : context) (time_str : string)
    (d : database) : string * database :=
  match ctx_date c with
  | None => (INLINE_BOOKING_ERROR, d)
  | Some date_str =>
      match strptime_date date_str, strptime_time time_str with
      | Returns target_date, Returns target_time =>
          if db_up e then
            let who := default phone (ctx_phone c) in
            let '(patient, ps) :=
              patient_for d (default "Unknown" (ctx_name c)) who (default 0 (ctx_age c)) in
            (booked_reply (default "None" (ctx_name c)) who target_date target_time,
             commit_appointment d ps patient target_date target_time
               (default "General consultation" (ctx_reason c)))
          else (INLINE_BOOKING_ERROR, d)
      | _, _ => (INLINE_BOOKING_ERROR, d)
      end
  end.

(** The body of the [for pattern in time_patterns] loop for a match found
    while no time is recorded (lines 224-304). *)
Definition select_time (e : env) (phone : string) (c : context) (m : match_obj)
    (d : database) : response :=
  match parse_time m with
  | Raises ex => MkResponse (Raises ex) c d [] false
  | Returns time_str =>
      let c := set_time time_str c in
      let '(booking_result, d') := inline_booking e phone c time_str d in
      match ctx_date c with
      | None => MkResponse (Raises KeyError) c d' [] false
      | Some date_str =>
          let note :=
            MkNotification (default "Unknown" (ctx_name c)) (default phone (ctx_phone c))
              (default 0 (ctx_age c)) date_str time_str
              (default "General consultation" (ctx_reason c)) in
          MkResponse (Returns (goodbye booking_result)) c d' [note] true
      end
  end.

Fixpoint time_loop (e : env) (phone : string) (c : context) (msg : string)
    (d : database) (patterns : list regex) : option response :=
  match patterns with
  | [] => None
  | pattern :: patterns' =>
      match search pattern msg, ctx_time c with
      | Some m, None => Some (select_time e phone c m d)
      | _, _ => time_loop e phone c msg d patterns'
      end
  end.

(** [not context.get('shown_slots')] is false only for a stored [True]. *)
Definition shown (c : context) : bool := default false (ctx_shown_slots c).

Section WithConfig.
Variable cfg : config.

(** Stage 4 and the two closing replies (lines 213-311). *)
Definition time_selection (e : env) (phone : string) (c : context) (msg : string)
    (d : database) : response :=
  match time_loop e phone c msg d time_patterns with
  | Some r => r
  | None =>
      match ctx_time c with
      | None => if shown c then reply_with ASK_TIME c d else reply_with DEFAULT_REPLY c d
      | Some _ => reply_with DEFAULT_REPLY c d
      end
  end.

(** Stage 3 (lines 178-211), falling through to stage 4. *)
Definition booking_stage (e : env) (phone : string) (c : context) (msg : string)
    (d : database) : response :=
  match ctx_name c, ctx_age c, ctx_phone c, ctx_reason c, ctx_date c with
  | None, _, _, _, _ => reply_with ASK_NAME c d
  | Some name, None, _, _, _ => reply_with (ask_age name) c d
  | Some _, Some _, None, _, _ => reply_with ASK_PHONE c d
  | Some _, Some _, Some _, None, _ => reply_with ASK_REASON c d
  | Some _, Some _, Some _, Some _, None => reply_with ASK_DATE c d
  | Some _, Some _, Some _, Some _, Some date_str =>
      match ctx_time c with
      | None =>
          if shown c then time_selection e phone c msg d
          else
            let slots_result := get_available_slots cfg e d date_str in
            reply_with (slots_result ++ nl ++ nl ++ "Which time works best for you?")
                       (set_shown_slots true c) d
      | Some _ => time_selection e phone c msg d
      end
  end.

Definition generate_response (e : env) (phone : string) (c : context) (msg : string)
    (history : list message) (d : database) : response :=
  let conversation_stage := default "greeting" (ctx_stage c) in
  if String.eqb conversation_stage "greeting" || (List.length history <=? 2)%nat then
    if Py.any_in greeting_words (Py.lower msg)
    then reply_with ("Hello! Welcome to our clinic. It's great to hear from you! 😊"
                       ++ nl ++ nl ++ "How are you doing today?")
                    (set_stage "small_talk" c) d
    else reply_with "Hello! Welcome to our clinic. How are you doing today?"
                    (set_stage "small_talk" c) d
  else if String.eqb conversation_stage "small_talk" then
    let response :=
      if Py.any_in positive_words (Py.lower msg)
      then "That's wonderful! I'm glad you're doing well. 😊" ++ nl ++ nl
      else if Py.any_in negative_words (Py.lower msg)
      then "I'm sorry to hear you're not feeling well. We're here to help you! 🏥" ++ nl ++ nl
      else "Thank you for reaching out to us! 😊" ++ nl ++ nl in
    reply_with (response
                  ++ "I can help you book an appointment with our doctor. May I have your name please?")
               (set_stage "booking" c) d
  else if String.eqb conversation_stage "booking" then booking_stage e phone c msg d
  else time_selection e phone c msg d.

(** *** [save_conversation] and [chat_with_agent] *)

(** A failure to store the transcript is logged and dropped. *)
Definition save_conversation (e : env) (d : database) (phone transcript : string)
    : database :=
  if db_up e then
    MkDatabase (patients d) (appointments d)
      (conversations d
         ++ [MkConversation (patient_id <$> find_patient phone (patients d))
               phone transcript])%list
  else d.

(** [f"Patient: {message}\\nAgent: {response}"]: a backslash and an n. *)
Definition transcript (msg reply : string) : string :=
  "Patient: " ++ msg ++ "\nAgent: " ++ reply.

Definition ERROR_REPLY : string :=
  "I'm sorry, I encountered an error. Please try again or contact the clinic directly.".

Definition user_says (msg : string) : message := MkMessage "user" msg.
Definition assistant_says (msg : string) : message := MkMessage "assistant" msg.

(** [get_conversation_state(phone)] *)
Definition get_conversation_state (w : world) (phone : string) : session :=
  default new_session (conversation_states w !! phone).

(** One turn: the reply, and the world after it.  [state] is the
    dictionary that was stored under [phone] when the turn began; once
    [generate_response] has put a new one in its place, what the turn
    still appends to [state] is not seen again. *)
Definition chat_with_agent (e : env) (w : world) (phone msg : string)
    : string * world :=
  let state := get_conversation_state w phone in
  let history := (messages state ++ [user_says msg])%list in
  if is_urgent msg then
    let reply := URGENT_REPLY in
    (reply,
     MkWorld
       (<[phone := MkSession (history ++ [assistant_says reply])%list (context_of state)]>
          (conversation_states w))
       (save_conversation e (db w) phone (transcript msg reply))
       (outbox w))
  else
    match extract_patient_info e msg (context_of state) with
    | Raises _ =>
        (ERROR_REPLY,
         MkWorld (<[phone := MkSession history (context_of state)]> (conversation_states w))
                 (db w) (outbox w))
    | Returns c =>
        let r := generate_response e phone c msg history (db w) in
        let stored (now : list message) : gmap string session :=
          if r_reset r
          then <[phone := new_session]> (conversation_states w)
          else <[phone := MkSession now (r_context r)]> (conversation_states w) in
        match r_reply r with
        | Raises _ =>
            (ERROR_REPLY, MkWorld (stored history) (r_db r) (outbox w ++ r_sent r)%list)
        | Returns reply =>
            (reply,
             MkWorld (stored (history ++ [assistant_says reply])%list)
                     (save_conversation e (r_db r) phone (transcript msg reply))
                     (outbox w ++ r_sent r)%list)
        end
    end.

End WithConfig.
End Agent.

(** ** The staff dashboard's status update, [app/api/routes.py] *)

Module Routes.
Import Models.

(** [update_appointment(appointment_id, update)]: the row with that id gets
    the new status; an unknown id changes nothing. *)
Definition update_appointment (d : database) (appointment_id : Z) (status : string)
    : database :=
  MkDatabase (patients d)
    (map (fun a =>
            if apt_id a =? appointment_id
            then MkAppointment (apt_id a) (apt_patient_id a) (apt_date a) (apt_time a)
                   (apt_reason a) status
            else a)
         (appointments d))
    (conversations d).

End Routes.

(** ** Runs of the system and the properties stated about them *)

Module Runs.
Import Dt Models Prompts Tools Agent.

Section WithConfig.
Variable cfg : config.

(** The party [phone] sends the utterances one after the other. *)
Definition converse (e : env) (w : world) (phone : string) (msgs : list string) : world :=
  fold_left (fun w msg => snd (chat_with_agent cfg e w phone msg)) msgs w.

(** One event: a turn of some party, a call of the booking tool, or a
    status update by the staff. *)
Inductive step : world -> world -> Prop :=
| step_chat e w phone msg :
    step w (snd (chat_with_agent cfg e w phone msg))
| step_tool e w name phone age appointment_date appointment_time reason :
    step w (MkWorld (conversation_states w)
              (snd (book_appointment e (db w) name phone age
                      appointment_date appointment_time reason))
              (outbox w))
| step_staff w appointment_id status :
    step w (MkWorld (conversation_states w)
              (Routes.update_appointment (db w) appointment_id status)
              (outbox w)).

Definition reachable (w : world) : Prop := rtc step initial_world w.

End WithConfig.

(** The active appointments stored for a date and time. *)
Definition active_at (d : database) (day : date) (t : time) : list Appointment :=
  List.filter (fun a => date_eqb (apt_date a) day && time_eqb (apt_time a) t && is_active a)
         (appointments d).

(** No double booking. *)
Definition slots_unique (d : database) : Prop :=
  forall day t, (List.length (active_at d day t) <= 1)%nat.

(** The stages [generate_response] writes, and the absent key it reads as
    the greeting stage. *)
Definition known_stage (c : context) : Prop :=
  ctx_stage c = None \/ ctx_stage c = Some "small_talk" \/ ctx_stage c = Some "booking".

(** What holds of every stored session between turns. *)
Definition session_ok (s : session) : Prop :=
  ctx_time (context_of s) = None /\ known_stage (context_of s).

Definition sessions_ok (w : world) : Prop :=
  map_Forall (fun _ s => session_ok s) (conversation_states w).

(** The fields [extract_patient_info] can write. *)
Definition extractable (f : field) : bool :=
  match f with
  | FName | FAge | FPhone | FReason | FDate => true
  | _ => false
  end.

(** The two parties of the examples, the day of the examples, and the
    utterances of the demonstration script up to the choice of a date. *)
Definition day0 : date := MkDate 2026 11 3.
Definition up : env := MkEnv day0 true.
Definition down : env := MkEnv day0 false.
Definition ahmed : string := "03001234567".
Definition bilal : string := "03117654321".
Definition script (phone_text : string) : list string :=
  ["Hello"; "Fine"; "Ahmed Khan"; "35"; phone_text;
   "Fever and headache for 3 days"; "Tomorrow"].

(** The world once [ahmed] has been shown the slots of the next day. *)
Definition slots_offered : world :=
  converse default_config up initial_world ahmed (script "0300-1234567").

(** The world after two parties have each been shown the slots of the next
    day and have each answered with the same time. *)
Definition both_offered : world :=
  converse default_config up slots_offered bilal (script "0311-7654321").
Definition both_booked : world :=
  converse default_config up
    (converse default_config up both_offered ahmed ["2:30 PM"]) bilal ["2:30 PM"].

(** A database in which every slot of 2026-11-04 is taken. *)
Definition fully_booked : database :=
  MkDatabase []
    (map (fun t => MkAppointment (60 * t_hour t + t_minute t) 1 (MkDate 2026 11 4) t
                     "checkup" "confirmed")
         (match generate_time_slots default_config with
          | Returns grid => grid
          | Raises _ => []
          end))
    [].

(** The database after [ahmed] has booked 10:00 on 2026-11-04 and the staff
    has marked the visit completed. *)
Definition visit_completed : database :=
  Routes.update_appointment
    (db (snd (chat_with_agent default_config up slots_offered ahmed "10 am")))
    1 "completed".

(** The availability rule in the words of the specification: the grid less
    the times of all appointments of the day that are not cancelled. *)
Definition available_per_spec (grid : list time) (d : database) (day : date)
    : list time :=
  List.filter
    (fun slot =>
       negb (existsb (fun a => date_eqb (apt_date a) day && time_eqb (apt_time a) slot
                               && negb (String.eqb (apt_status a) "cancelled"))
                     (appointments d)))
    grid.

(** The conversion to the 24-hour clock in the words of the specification:
    a PM marker adds 12 unless the hour is 12, an AM marker maps 12 to 0. *)
Definition to_24h_per_spec (hour : Z) (meridiem : option string) : Z :=
  match meridiem with
  | Some mer =>
      if String.eqb mer "pm" then (if hour =? 12 then hour else hour + 12)
      else if String.eqb mer "am" then (if hour =? 12 then 0 else hour)
      else hour
  | None => hour
  end.

End Runs.

(** * Properties *)

Import Dt Models Prompts Tools Agent Runs.

(** ** The urgency short-circuit *)

Section Urgency.
Variable cfg : config.

Lemma state_after_insert (m : gmap string session) (phone : string) (s : session)
    (d : database) (o : list notification) :
  get_conversation_state (MkWorld (<[phone := s]> m) d o) phone = s.
Proof. unfold get_conversation_state. cbn. by rewrite lookup_insert_eq. Qed.

(** C2, as the code has it: a turn whose utterance contains an urgency
    keyword returns the fixed advisory, records the two messages, and
    leaves the context of the session, the patients, the appointments and
    the notifications exactly as they were: nothing is extracted, nothing
    is booked, and the context is not cleared. *)
Theorem urgent_turn_short_circuits (e : env) (w : world) (phone msg : string) :
  is_urgent msg = true ->
  let state := get_conversation_state w phone in
  let turn := chat_with_agent cfg e w phone msg in
  let state' := get_conversation_state (snd turn) phone in
  fst turn = URGENT_REPLY
  /\ context_of state' = context_of state
  /\ messages state'
     = (messages state ++ [user_says msg; assistant_says URGENT_REPLY])%list
  /\ patients (db (snd turn)) = patients (db w)
  /\ appointments (db (snd turn)) = appointments (db w)
  /\ outbox (snd turn) = outbox w.
Proof.
  intros Hurgent. cbv zeta. unfold chat_with_agent. rewrite Hurgent. cbn [fst snd].
  rewrite !state_after_insert. cbn [context_of messages db outbox].
  repeat split.
  - by rewrite <- app_assoc.
  - unfold save_conversation. by destruct (db_up e).
  - unfold save_conversation. by destruct (db_up e).
Qed.

End Urgency.

Lemma urgent_turn_short_circuits_witness :
  is_urgent "I have chest pain" = true
  /\ fst (chat_with_agent default_config up slots_offered ahmed "I have chest pain")
     = URGENT_REPLY.
Proof.
  split; [reflexivity |].
  apply (urgent_turn_short_circuits default_config up slots_offered ahmed
           "I have chest pain").
  reflexivity.
Defined.

(** C2, as stated, fails: after the advisory the context of the session still
    holds the fields collected before; it is not empty. *)
Lemma urgent_turn_context_not_cleared :
  let turn := chat_with_agent default_config up slots_offered ahmed "I have chest pain" in
  is_urgent "I have chest pain" = true
  /\ fst turn = URGENT_REPLY
  /\ ctx_name (context_of (get_conversation_state (snd turn) ahmed)) = Some "Ahmed Khan"
  /\ context_of (get_conversation_state (snd turn) ahmed) <> empty_context.
Proof.
  cbv zeta. split; [reflexivity |]. split; [reflexivity |].
  assert (Hname :
    ctx_name (context_of (get_conversation_state
      (snd (chat_with_agent default_config up slots_offered ahmed "I have chest pain"))
      ahmed)) = Some "Ahmed Khan") by (vm_compute; reflexivity).
  split; [exact Hname |].
  intros Heq. rewrite Heq in Hname. discriminate Hname.
Qed.

(** ** Equality tests on dates and times *)

Lemma date_eqb_eq (a b : date) : date_eqb a b = true <-> a = b.
Proof.
  destruct a, b. unfold date_eqb. cbn.
  rewrite !andb_true_iff, !Z.eqb_eq. split.
  - intros [[-> ->] ->]. reflexivity.
  - intros [= -> -> ->]. auto.
Qed.

Lemma time_eqb_eq (a b : time) : time_eqb a b = true <-> a = b.
Proof.
  destruct a, b. unfold time_eqb. cbn.
  rewrite !andb_true_iff, !Z.eqb_eq. split.
  - intros [-> ->]. reflexivity.
  - intros [= -> ->]. auto.
Qed.

Lemma filter_none {A : Type} (p : A -> bool) (l : list A) :
  existsb p l = false -> List.filter p l = [].
Proof.
  induction l as [|a l IH]; cbn; [reflexivity |].
  intros H. apply orb_false_iff in H as [Ha Hl]. rewrite Ha. auto.
Qed.

(** ** Double booking *)

Section Reachability.
Variable cfg : config.

Lemma reachable_step (w w' : world) :
  reachable cfg w -> step cfg w w' -> reachable cfg w'.
Proof. intros Hw Hs. eapply rtc_r; eassumption. Qed.

Lemma converse_reachable (e : env) (phone : string) (msgs : list string) (w : world) :
  reachable cfg w -> reachable cfg (converse cfg e w phone msgs).
Proof.
  revert w. induction msgs as [|msg msgs IH]; intros w Hw; [exact Hw |].
  cbn. apply IH. eapply reachable_step; [exact Hw | constructor].
Qed.

End Reachability.

(** X10: The booking tool looks for an active appointment at the date and time
    before it inserts: a call of [book_appointment] never creates a second
    active appointment for a slot. *)
Lemma book_appointment_keeps_slots_unique (e : env) (d : database)
    (name phone : string) (age : Z) (appointment_date appointment_time reason : string) :
  slots_unique d ->
  slots_unique (snd (book_appointment e d name phone age
                       appointment_date appointment_time reason)).
Proof.
  intros Huniq. unfold book_appointment.
  destruct (is_urgent reason); [exact Huniq |].
  destruct (strptime_date appointment_date) as [target_date|]; [| exact Huniq].
  destruct (strptime_time appointment_time) as [target_time|]; [| exact Huniq].
  destruct (db_up e); [| exact Huniq].
  destruct (patient_for d name phone age) as [patient ps].
  destruct (slot_taken d target_date target_time) eqn:Htaken; [exact Huniq |].
  cbn [snd]. intros day t. unfold active_at, commit_appointment. cbn [appointments].
  rewrite List.filter_app, length_app. cbn [List.filter apt_date apt_time].
  destruct (date_eqb target_date day && time_eqb target_time t) eqn:Hsame.
  - apply andb_true_iff in Hsame as [Hd Ht].
    apply date_eqb_eq in Hd as <-. apply time_eqb_eq in Ht as <-.
    rewrite (filter_none _ _ Htaken). cbn. lia.
  - cbn. rewrite Nat.add_0_r. apply Huniq.
Qed.

Lemma book_appointment_keeps_slots_unique_witness :
  slots_unique empty_db
  /\ slots_unique (snd (book_appointment up empty_db "Ahmed Khan" ahmed 35
                          "2026-11-04" "14:30" "fever")).
Proof.
  assert (H0 : slots_unique empty_db) by (intros day t; cbn; lia).
  split; [exact H0 |].
  apply (book_appointment_keeps_slots_unique up empty_db "Ahmed Khan" ahmed 35
           "2026-11-04" "14:30" "fever" H0).
Defined.

(** C1 at the failing input: the slot-selection step of the dialogue engine
    inserts without looking at the stored appointments, so after the two
    conversations two confirmed appointments stand at the same date and
    time. *)
Theorem dialogue_double_booking :
  reachable default_config both_booked
  /\ List.length (active_at (db both_booked) (MkDate 2026 11 4) (MkTime 14 30)) = 2%nat
  /\ map apt_status (active_at (db both_booked) (MkDate 2026 11 4) (MkTime 14 30))
     = ["confirmed"; "confirmed"]
  /\ ~ slots_unique (db both_booked).
Proof.
  assert (Hlen :
    List.length (active_at (db both_booked) (MkDate 2026 11 4) (MkTime 14 30)) = 2%nat)
    by (vm_compute; reflexivity).
  split; [| split; [exact Hlen | split]].
  - unfold both_booked, both_offered, slots_offered.
    repeat apply converse_reachable. apply rtc_refl.
  - vm_compute. reflexivity.
  - intros Huniq. specialize (Huniq (MkDate 2026 11 4) (MkTime 14 30)).
    rewrite Hlen in Huniq. lia.
Qed.

(** ** A failed commit *)

(** C3 at the failing input: the database does not answer while the party
    chooses a time.  No appointment is stored, yet the reply closes the
    conversation, the doctor is notified, and the session is replaced by an
    empty one: the fields collected before are gone. *)
Theorem failed_commit_resets_session :
  let before := get_conversation_state slots_offered ahmed in
  let turn := chat_with_agent default_config down slots_offered ahmed "2:30 PM" in
  ctx_name (context_of before) = Some "Ahmed Khan"
  /\ ctx_date (context_of before) = Some "2026-11-04"
  /\ fst turn = goodbye INLINE_BOOKING_ERROR
  /\ appointments (db (snd turn)) = []
  /\ get_conversation_state (snd turn) ahmed = new_session
  /\ List.length (outbox (snd turn)) = 1%nat.
Proof. cbv zeta. repeat split; vm_compute; reflexivity. Qed.

(** ** First write wins *)

(** C4 at the failing input: a context whose date was set by "Today" has it
    replaced by a later "Tomorrow". *)
Theorem date_is_overwritten :
  exists c1 c2,
    extract_patient_info up "Today" empty_context = Returns c1
    /\ ctx_date c1 = Some "2026-11-03"
    /\ extract_patient_info up "Tomorrow" c1 = Returns c2
    /\ ctx_date c2 = Some "2026-11-04"
    /\ get FDate c2 <> get FDate c1.
Proof.
  eexists _, _. split; [vm_compute; reflexivity |].
  split; [reflexivity |]. split; [vm_compute; reflexivity |].
  split; [reflexivity |]. cbn. discriminate.
Qed.

(** ** Bookings outside the offered slots *)

(** C10: for the utterance "9 pm", sent after the slots of the next day were
    offered, a confirmed appointment is stored at 21:00, a time that is not
    on the clinic's grid and was not in the list of slots shown. *)
Theorem booking_outside_offered_slots :
  exists msg grid a,
    let turn := chat_with_agent default_config up slots_offered ahmed msg in
    generate_time_slots default_config = Returns grid
    /\ appointments (db slots_offered) = []
    /\ appointments (db (snd turn)) = [a]
    /\ apt_status a = "confirmed"
    /\ apt_date a = MkDate 2026 11 4
    /\ apt_time a = MkTime 21 0
    /\ ~ In (apt_time a) grid
    /\ Py.contains (strftime_12h (apt_time a))
         (get_available_slots default_config up (db slots_offered) "2026-11-04") = false.
Proof.
  exists "9 pm". eexists. eexists. cbv zeta.
  split; [vm_compute; reflexivity |].
  split; [vm_compute; reflexivity |].
  split; [vm_compute; reflexivity |].
  split; [reflexivity |]. split; [reflexivity |]. split; [reflexivity |].
  split; [| vm_compute; reflexivity].
  cbn. intros H. repeat (destruct H as [H | H]; [discriminate H |]). exact H.
Qed.

(** ** The slot calendar *)

Section Calendar.
Variable cfg : config.

(** C6: every date before the current one gets the past-date reply,
    whatever the database holds, whether or not it answers, and whatever the
    clinic settings are.  That reply differs from the no-slots reply that a
    date which is not past gets when every slot of the grid is taken, in any
    database, and from every other reply of [get_available_slots] as well:
    a caller can tell the two apart. *)
Theorem past_date_is_distinct_outcome (e : env) (d : database) (s : string) (day : date) :
  strptime_date s = Returns day -> date_ltb day (today e) = true ->
  get_available_slots cfg e d s = PAST_DATE_REPLY
  /\ (forall (d2 : database) (s2 : string) (day2 : date) (grid : list time),
        strptime_date s2 = Returns day2 -> date_ltb day2 (today e) = false ->
        generate_time_slots cfg = Returns grid -> db_up e = true ->
        available grid (booked_times d2 day2) = [] ->
        get_available_slots cfg e d2 s2 = no_slots_reply s2
        /\ get_available_slots cfg e d s <> get_available_slots cfg e d2 s2)
  /\ (forall s' slot_strings,
        PAST_DATE_REPLY <> no_slots_reply s'
        /\ PAST_DATE_REPLY <> slots_reply s' slot_strings
        /\ PAST_DATE_REPLY <> INVALID_DATE_REPLY
        /\ PAST_DATE_REPLY <> SLOTS_ERROR_REPLY).
Proof.
  intros Hs Hpast.
  assert (H1 : get_available_slots cfg e d s = PAST_DATE_REPLY)
    by (unfold get_available_slots; rewrite Hs, Hpast; reflexivity).
  split; [exact H1 |]. split.
  - intros d2 s2 day2 grid Hs2 Hfuture Hgrid Hup Hfull.
    assert (H2 : get_available_slots cfg e d2 s2 = no_slots_reply s2)
      by (unfold get_available_slots; rewrite Hs2, Hfuture, Hgrid, Hup, Hfull;
          reflexivity).
    split; [exact H2 |].
    rewrite H1, H2. unfold PAST_DATE_REPLY, no_slots_reply. cbn. discriminate.
  - intros s' l. unfold PAST_DATE_REPLY, no_slots_reply, slots_reply,
      INVALID_DATE_REPLY, SLOTS_ERROR_REPLY. cbn. repeat split; discriminate.
Qed.

(** C9, as the code has it: for a date that is not past, the slots offered
    are the slots of the grid, in the order of the grid, at which no pending
    or confirmed appointment of that date stands.  Completed (and cancelled)
    appointments do not take a slot out of the list. *)
Theorem available_slots_exclude_active (e : env) (d : database)
    (s : string) (day : date) (grid : list time) :
  strptime_date s = Returns day -> date_ltb day (today e) = false ->
  generate_time_slots cfg = Returns grid -> db_up e = true ->
  exists avail,
    get_available_slots cfg e d s
    = match avail with
      | [] => no_slots_reply s
      | _ => slots_reply s (map strftime_12h avail)
      end
    /\ sublist avail grid
    /\ forall t, In t avail <->
         In t grid
         /\ ~ exists a, In a (appointments d) /\ apt_date a = day /\ apt_time a = t
                        /\ (apt_status a = "pending" \/ apt_status a = "confirmed").
Proof.
  intros Hs Hfuture Hgrid Hup.
  exists (available grid (booked_times d day)). split; [| split].
  - unfold get_available_slots. rewrite Hs, Hfuture, Hgrid, Hup.
    destruct (available grid (booked_times d day)); reflexivity.
  - unfold available. clear Hgrid.
    induction grid as [|t0 g IH]; cbn; [constructor |].
    destruct (negb _); [apply sublist_skip | apply sublist_cons]; exact IH.
  - intros t. unfold available. rewrite List.filter_In, negb_true_iff.
    apply and_iff_compat_l. rewrite <- not_true_iff_false.
    apply not_iff_compat. rewrite existsb_exists. unfold booked_times. split.
    + intros (t' & Hin & Heq). apply time_eqb_eq in Heq as <-.
      apply in_map_iff in Hin as (a & Ht & Hin).
      apply List.filter_In in Hin as [Hin Hact].
      apply andb_true_iff in Hact as [Hd Hact]. apply date_eqb_eq in Hd.
      exists a. repeat split; try assumption.
      unfold is_active in Hact. apply orb_true_iff in Hact.
      rewrite !String.eqb_eq in Hact. exact Hact.
    + intros (a & Hin & Hd & Ht & Hst). exists t. split; [| by apply time_eqb_eq].
      apply in_map_iff. exists a. split; [exact Ht |].
      apply List.filter_In. split; [exact Hin |].
      apply andb_true_iff. split; [by apply date_eqb_eq |].
      unfold is_active. apply orb_true_iff. rewrite !String.eqb_eq. exact Hst.
Qed.

End Calendar.

Lemma past_date_is_distinct_outcome_witness :
  get_available_slots default_config up empty_db "2026-11-02" = PAST_DATE_REPLY
  /\ get_available_slots default_config down empty_db "2026-11-02" = PAST_DATE_REPLY
  /\ get_available_slots default_config up fully_booked "2026-11-04"
     = no_slots_reply "2026-11-04".
Proof.
  destruct (past_date_is_distinct_outcome default_config up empty_db
              "2026-11-02" (MkDate 2026 11 2)) as (H1 & H2 & _);
    try (vm_compute; reflexivity).
  destruct (past_date_is_distinct_outcome default_config down empty_db
              "2026-11-02" (MkDate 2026 11 2)) as (H3 & _);
    try (vm_compute; reflexivity).
  destruct (H2 fully_booked "2026-11-04" (MkDate 2026 11 4)
              (match generate_time_slots default_config with
               | Returns grid => grid
               | Raises _ => []
               end)) as (H4 & _); try (vm_compute; reflexivity).
  repeat split; assumption.
Defined.

Lemma available_slots_exclude_active_witness :
  exists avail,
    get_available_slots default_config up visit_completed "2026-11-04"
    = slots_reply "2026-11-04" (map strftime_12h avail)
    /\ In (MkTime 10 0) avail.
Proof.
  destruct (available_slots_exclude_active default_config up visit_completed
              "2026-11-04" (MkDate 2026 11 4)
              (match generate_time_slots default_config with
               | Returns grid => grid
               | Raises _ => []
               end)) as (avail & Hreply & _ & Hin); try (vm_compute; reflexivity).
  exists avail.
  assert (H10 : In (MkTime 10 0) avail).
  { apply Hin. split; [vm_compute; auto |].
    intros (a & Ha & _ & _ & Hst). vm_compute in Ha.
    destruct Ha as [<- | []]. cbn in Hst. destruct Hst; discriminate. }
  split; [| exact H10].
  rewrite Hreply. destruct avail; [destruct H10 | reflexivity].
Defined.

(** C9, as stated, fails: the visit at 10:00 on 2026-11-04 is completed, not
    cancelled, and 10:00 is offered all the same, whereas the rule of the
    specification would leave it out. *)
Lemma completed_visit_slot_is_offered :
  exists grid a,
    generate_time_slots default_config = Returns grid
    /\ appointments visit_completed = [a]
    /\ apt_status a = "completed"
    /\ apt_date a = MkDate 2026 11 4 /\ apt_time a = MkTime 10 0
    /\ In (MkTime 10 0) (available grid (booked_times visit_completed (MkDate 2026 11 4)))
    /\ ~ In (MkTime 10 0) (available_per_spec grid visit_completed (MkDate 2026 11 4))
    /\ Py.contains "10:00 AM"
         (get_available_slots default_config up visit_completed "2026-11-04") = true.
Proof.
  eexists. eexists.
  split; [vm_compute; reflexivity |].
  split; [vm_compute; reflexivity |].
  split; [reflexivity |]. split; [reflexivity |]. split; [reflexivity |].
  split; [vm_compute; auto |].
  split; [| vm_compute; reflexivity].
  vm_compute. intros H. repeat (destruct H as [H | H]; [discriminate H |]). exact H.
Qed.

(** ** The control fields of the context *)

Ltac split_matches :=
  repeat match goal with
         | |- context [match ?x with _ => _ end] => destruct x eqn:?
         | |- context [if ?b then _ else _] => destruct b eqn:?
         end.

(** The time, the stage and the slots flag of two contexts agree. *)
Definition same_control (c c' : context) : Prop :=
  ctx_time c' = ctx_time c /\ ctx_stage c' = ctx_stage c
  /\ ctx_shown_slots c' = ctx_shown_slots c.

Lemma extract_age_control (msg : string) (c c' : context) :
  extract_age msg c = Returns c' -> same_control c c'.
Proof.
  unfold extract_age, same_control. split_matches; intros [= <-]; auto.
Qed.

Lemma extract_phone_control (msg : string) (c : context) :
  same_control c (extract_phone msg c).
Proof. unfold extract_phone, same_control. split_matches; auto. Qed.

Lemma extract_name_control (msg : string) (c : context) :
  same_control c (extract_name msg c).
Proof. unfold extract_name, same_control. split_matches; auto. Qed.

Lemma extract_reason_control (msg : string) (c : context) :
  same_control c (extract_reason msg c).
Proof. unfold extract_reason, same_control. split_matches; auto. Qed.

Lemma extract_date_control (e : env) (msg : string) (c : context) :
  same_control c (extract_date e msg c).
Proof. unfold extract_date, same_control. split_matches; auto. Qed.

Lemma same_control_trans (c1 c2 c3 : context) :
  same_control c1 c2 -> same_control c2 c3 -> same_control c1 c3.
Proof. unfold same_control. intros (-> & -> & ->) (-> & -> & ->). auto. Qed.

(** The extractor writes none of the control fields. *)
Lemma extract_keeps_control (e : env) (msg : string) (c c' : context) :
  extract_patient_info e msg c = Returns c' -> same_control c c'.
Proof.
  unfold extract_patient_info.
  destruct (extract_age msg c) as [c1|] eqn:Hage; [| discriminate].
  intros [= <-]. apply extract_age_control in Hage.
  eapply same_control_trans; [exact Hage |].
  eapply same_control_trans; [apply extract_phone_control |].
  eapply same_control_trans; [apply extract_name_control |].
  eapply same_control_trans; [apply extract_reason_control |].
  apply extract_date_control.
Qed.

(** ** Time selection only after the slots were shown *)

Section Stages.
Variable cfg : config.

(** A reply that stays within the conversation: nothing stored, nothing
    sent, no time recorded, a known stage. *)
Definition quiet (d : database) (r : response) : Prop :=
  r_db r = d /\ r_sent r = [] /\ r_reset r = false
  /\ ctx_time (r_context r) = None /\ known_stage (r_context r).

Lemma known_stage_set_small_talk (c : context) : known_stage (set_stage "small_talk" c).
Proof. right. left. reflexivity. Qed.

Lemma known_stage_set_booking (c : context) : known_stage (set_stage "booking" c).
Proof. right. right. reflexivity. Qed.

(** While the slots have not been shown, a turn of [generate_response] from a
    known stage is quiet. *)
Lemma generate_response_before_slots (e : env) (phone msg : string)
    (c : context) (history : list message) (d : database) :
  known_stage c -> ctx_time c = None -> shown c = false ->
  quiet d (generate_response cfg e phone c msg history d).
Proof.
  intros Hstage Htime Hshown. unfold generate_response.
  destruct Hstage as [Hs | [Hs | Hs]]; rewrite Hs; cbn -[Py.any_in Py.lower].
  - split_matches; repeat split; cbn; auto using known_stage_set_small_talk.
  - split_matches; repeat split; cbn;
      auto using known_stage_set_small_talk, known_stage_set_booking.
  - destruct (List.length history <=? 2)%nat.
    + split_matches; repeat split; cbn; auto using known_stage_set_small_talk.
    + unfold booking_stage. rewrite Htime, Hshown.
      split_matches; repeat split; cbn; auto; right; right; exact Hs.
Qed.

(** A time selection made with a date in the context either replaces the
    session or leaves the context as it was. *)
Lemma select_time_resets (e : env) (phone : string) (c : context) (m : Re.match_obj)
    (d : database) :
  is_Some (ctx_date c) ->
  let r := select_time e phone c m d in
  r_reset r = true \/ r_context r = c.
Proof.
  intros [ds Hds]. cbv zeta. unfold select_time.
  destruct (parse_time m) as [time_str|]; [| right; reflexivity].
  destruct (inline_booking e phone (set_time time_str c) time_str d) as [res d'].
  cbn [ctx_date set_time]. rewrite Hds. left. reflexivity.
Qed.

Lemma time_loop_resets (e : env) (phone msg : string) (c : context) (d : database)
    (patterns : list Re.regex) (r : response) :
  is_Some (ctx_date c) ->
  time_loop e phone c msg d patterns = Some r ->
  r_reset r = true \/ r_context r = c.
Proof.
  intros Hdate. induction patterns as [|p ps IH]; cbn; [discriminate |].
  destruct (Re.search p msg) as [m|]; [| exact IH].
  destruct (ctx_time c); [exact IH |].
  intros [= <-]. by apply select_time_resets.
Qed.

Lemma time_selection_resets (e : env) (phone msg : string) (c : context) (d : database) :
  is_Some (ctx_date c) ->
  let r := time_selection e phone c msg d in
  r_reset r = true \/ r_context r = c.
Proof.
  intros Hdate. cbv zeta. unfold time_selection.
  destruct (time_loop e phone c msg d time_patterns) as [r|] eqn:Hloop.
  - eapply time_loop_resets; eassumption.
  - right. split_matches; reflexivity.
Qed.

(** From a known stage with no time recorded, [generate_response] either
    replaces the session or leaves a context with no time and a known
    stage. *)
Lemma generate_response_keeps_sessions (e : env) (phone msg : string)
    (c : context) (history : list message) (d : database) :
  known_stage c -> ctx_time c = None ->
  let r := generate_response cfg e phone c msg history d in
  r_reset r = true \/ (ctx_time (r_context r) = None /\ known_stage (r_context r)).
Proof.
  intros Hstage Htime. cbv zeta.
  destruct (shown c) eqn:Hshown.
  2: { right. eapply generate_response_before_slots in Hshown; try eassumption.
       destruct Hshown as (_ & _ & _ & H1 & H2). split; [exact H1 | exact H2]. }
  unfold generate_response.
  destruct Hstage as [Hs | [Hs | Hs]]; rewrite Hs; cbn -[Py.any_in Py.lower].
  - right. split_matches; cbn; auto using known_stage_set_small_talk.
  - right. split_matches; cbn;
      auto using known_stage_set_small_talk, known_stage_set_booking.
  - destruct (List.length history <=? 2)%nat.
    + right. split_matches; cbn; auto using known_stage_set_small_talk.
    + assert (Hk : known_stage c) by (right; right; exact Hs).
      unfold booking_stage. rewrite Htime, Hshown.
      destruct (ctx_name c); [| right; cbn; auto].
      destruct (ctx_age c); [| right; cbn; auto].
      destruct (ctx_phone c); [| right; cbn; auto].
      destruct (ctx_reason c); [| right; cbn; auto].
      destruct (ctx_date c) as [ds|] eqn:Hds; [| right; cbn; auto].
      destruct (time_selection_resets e phone msg c d) as [Hr | Hr];
        [rewrite Hds; eauto | left; exact Hr | right; rewrite Hr; auto].
Qed.

Lemma new_session_ok : session_ok new_session.
Proof. split; [reflexivity | left; reflexivity]. Qed.

Lemma state_ok (w : world) (phone : string) :
  sessions_ok w -> session_ok (get_conversation_state w phone).
Proof.
  intros Hw. unfold get_conversation_state.
  destruct (conversation_states w !! phone) as [s|] eqn:Hs; cbn.
  - exact (Hw phone s Hs).
  - apply new_session_ok.
Qed.

Lemma sessions_ok_insert (m : gmap string session) (phone : string) (s : session) :
  map_Forall (fun _ s => session_ok s) m -> session_ok s ->
  map_Forall (fun _ s => session_ok s) (<[phone := s]> m).
Proof. intros Hm Hs. by apply map_Forall_insert_2. Qed.

(** Every turn keeps the stored sessions well formed. *)
Lemma chat_keeps_sessions (e : env) (w : world) (phone msg : string) :
  sessions_ok w -> sessions_ok (snd (chat_with_agent cfg e w phone msg)).
Proof.
  intros Hw. pose proof (state_ok w phone Hw) as [Htime Hstage].
  unfold chat_with_agent, sessions_ok.
  destruct (is_urgent msg); cbn [snd conversation_states].
  { apply sessions_ok_insert; [exact Hw | split; assumption]. }
  destruct (extract_patient_info e msg _) as [c|] eqn:Hext; cbn [snd conversation_states].
  2: { apply sessions_ok_insert; [exact Hw | split; assumption]. }
  apply extract_keeps_control in Hext as (Ht & Hs & _).
  assert (Htime' : ctx_time c = None) by congruence.
  assert (Hstage' : known_stage c) by (unfold known_stage in *; rewrite Hs; exact Hstage).
  pose proof (generate_response_keeps_sessions e phone msg c
                (messages (get_conversation_state w phone) ++ [user_says msg])%list
                (db w) Hstage' Htime') as Hr.
  cbv zeta in Hr.
  destruct (r_reply _); cbn [snd conversation_states];
    (destruct (r_reset _) eqn:Hreset;
     [apply sessions_ok_insert; [exact Hw | apply new_session_ok]
     | apply sessions_ok_insert; [exact Hw |];
       destruct Hr as [Hr | Hr]; [discriminate Hr | exact Hr]]).
Qed.

Lemma step_keeps_sessions (w w' : world) :
  step cfg w w' -> sessions_ok w -> sessions_ok w'.
Proof.
  intros Hstep Hw. destruct Hstep; [by apply chat_keeps_sessions | exact Hw | exact Hw].
Qed.

Lemma reachable_sessions_ok (w : world) : reachable cfg w -> sessions_ok w.
Proof.
  unfold reachable. intros Hr.
  apply (rtc_ind_r (R := step cfg) (fun w => sessions_ok w) initial_world);
    [| | exact Hr].
  - unfold sessions_ok. cbn. apply map_Forall_empty.
  - intros y z _ Hstep Hy. eapply step_keeps_sessions; eassumption.
Qed.

(** C8: in a reachable world, a turn of a party whose context does not have
    the slots flag set, whatever the utterance, records no time and stores
    no appointment (nor a patient, nor a notification): a time expression is
    not honoured before the slots have been shown. *)
Theorem no_time_selection_before_slots (e : env) (w : world) (phone msg : string) :
  reachable cfg w ->
  shown (context_of (get_conversation_state w phone)) = false ->
  let turn := chat_with_agent cfg e w phone msg in
  ctx_time (context_of (get_conversation_state (snd turn) phone)) = None
  /\ appointments (db (snd turn)) = appointments (db w)
  /\ patients (db (snd turn)) = patients (db w)
  /\ outbox (snd turn) = outbox w.
Proof.
  intros Hreach Hshown. cbv zeta.
  pose proof (state_ok w phone (reachable_sessions_ok w Hreach)) as [Htime Hstage].
  unfold chat_with_agent.
  destruct (is_urgent msg); cbn [snd].
  { rewrite state_after_insert. cbn.
    repeat split; try assumption; unfold save_conversation; by destruct (db_up e). }
  destruct (extract_patient_info e msg _) as [c|] eqn:Hext; cbn [snd].
  2: { rewrite state_after_insert. cbn. auto. }
  apply extract_keeps_control in Hext as (Ht & Hs & Hsh).
  assert (Htime' : ctx_time c = None) by congruence.
  assert (Hstage' : known_stage c) by (unfold known_stage in *; rewrite Hs; exact Hstage).
  assert (Hshown' : shown c = false) by (unfold shown in *; rewrite Hsh; exact Hshown).
  pose proof (generate_response_before_slots e phone msg c
                (messages (get_conversation_state w phone) ++ [user_says msg])%list
                (db w) Hstage' Htime' Hshown') as (Hdb & Hsent & Hreset & Htime2 & _).
  destruct (r_reply _); cbn [snd]; rewrite Hreset, state_after_insert, Hdb, Hsent;
    cbn; rewrite ?app_nil_r; repeat split; try assumption;
    unfold save_conversation; by destruct (db_up e).
Qed.

End Stages.

Lemma no_time_selection_before_slots_witness :
  let w := converse default_config up initial_world ahmed
             ["Hello"; "Fine"; "Ahmed Khan"; "35"] in
  let turn := chat_with_agent default_config up w ahmed "2:00 PM" in
  ctx_time (context_of (get_conversation_state (snd turn) ahmed)) = None
  /\ appointments (db (snd turn)) = appointments (db w).
Proof.
  cbv zeta.
  destruct (no_time_selection_before_slots default_config up
              (converse default_config up initial_world ahmed
                 ["Hello"; "Fine"; "Ahmed Khan"; "35"])
              ahmed "2:00 PM") as (H1 & H2 & _).
  - apply converse_reachable. apply rtc_refl.
  - vm_compute. reflexivity.
  - split; assumption.
Defined.

(** ** What a match can be: soundness of the matcher *)

(** [n] successive runs of [one]. *)
Fixpoint iter_run (one : Re.cursor -> Re.caps -> Re.cursor -> Re.caps -> Prop)
    (n : nat) (c : Re.cursor) (g : Re.caps) (c' : Re.cursor) (g' : Re.caps) : Prop :=
  match n with
  | O => c' = c /\ g' = g
  | S n' => exists c1 g1, one c g c1 g1 /\ iter_run one n' c1 g1 c' g'
  end.

(** [run r c g c' g']: the expression [r] can take the matcher from the
    position [c] with captures [g] to the position [c'] with captures [g']. *)
Fixpoint run (r : Re.regex) (c : Re.cursor) (g : Re.caps) (c' : Re.cursor) (g' : Re.caps)
    : Prop :=
  match r with
  | Re.Eps => c' = c /\ g' = g
  | Re.Sym p =>
      exists a s, Re.c_rest c = String a s /\ p a = true /\ c' = Re.advance c /\ g' = g
  | Re.Cat r1 r2 => exists c1 g1, run r1 c g c1 g1 /\ run r2 c1 g1 c' g'
  | Re.Alt r1 r2 => run r1 c g c' g' \/ run r2 c g c' g'
  | Re.Rep r' lo _ => exists n, (lo <= n)%nat /\ iter_run (run r') n c g c' g'
  | Re.Grp i r' =>
      exists g1, run r' c g c' g1
                 /\ g' = (i, substring 0 (Re.c_pos c' - Re.c_pos c) (Re.c_rest c)) :: g1
  | Re.Bol | Re.Eol | Re.WordB => c' = c /\ g' = g
  end.

Section Soundness.
Context {A : Type}.

Definition sound (m : Re.cursor -> Re.caps -> Re.cont (A := A) -> option A)
    (one : Re.cursor -> Re.caps -> Re.cursor -> Re.caps -> Prop) : Prop :=
  forall c g k a, m c g k = Some a -> exists c' g', one c g c' g' /\ k c' g' = Some a.

Lemma rep_loop_sound m one :
  sound m one ->
  forall n lo c g k a,
    Re.rep_loop m lo n c g k = Some a ->
    exists j c' g', (lo <= j)%nat /\ iter_run one j c g c' g' /\ k c' g' = Some a.
Proof.
  intros Hm. induction n as [|n IH]; intros lo c g k a; cbn.
  - destruct lo; [| discriminate]. intros Hk. exists 0%nat, c, g. cbn. auto.
  - destruct (m c g _) as [a'|] eqn:Hstep.
    + intros [= ->]. apply Hm in Hstep as (c1 & g1 & Hone & Hrest).
      apply IH in Hrest as (j & c' & g' & Hj & Hiter & Hk).
      exists (S j), c', g'. split; [lia |]. split; [| exact Hk].
      cbn. eauto.
    + destruct lo; [| discriminate]. intros Hk. exists 0%nat, c, g. cbn. auto.
Qed.

Lemma rmatch_sound (r : Re.regex) : sound (Re.rmatch r) (run r).
Proof.
  induction r as [|p|r1 IH1 r2 IH2|r1 IH1 r2 IH2|r IH lo hi|i r IH| | |];
    intros c g k a; cbn.
  - intros Hk. exists c, g. auto.
  - destruct (Re.c_rest c) as [|ch s] eqn:Hrest; [discriminate |].
    destruct (p ch) eqn:Hp; [| discriminate]. intros Hk.
    exists (Re.advance c), g. split; [| exact Hk]. exists ch, s. auto.
  - intros H. apply IH1 in H as (c1 & g1 & H1 & H).
    apply IH2 in H as (c2 & g2 & H2 & H). exists c2, g2.
    split; [exists c1, g1; split; assumption | exact H].
  - destruct (Re.rmatch r1 c g k) as [a'|] eqn:H1.
    + intros [= ->]. apply IH1 in H1 as (c' & g' & H1 & Hk).
      exists c', g'. split; [left; exact H1 | exact Hk].
    + intros H2. apply IH2 in H2 as (c' & g' & H2 & Hk).
      exists c', g'. split; [right; exact H2 | exact Hk].
  - intros H. eapply rep_loop_sound in H as (j & c' & g' & Hj & Hiter & Hk);
      [| exact IH].
    exists c', g'. split; [exists j; split; assumption | exact Hk].
  - intros H. apply IH in H as (c' & g' & Hrun & Hk).
    eexists c', _. split; [exists g'; split; [exact Hrun | reflexivity] | exact Hk].
  - destruct (Re.c_pos c); [| discriminate]. intros Hk. exists c, g. auto.
  - destruct (Re.c_rest c) as [|ch [|]]; try discriminate.
    + intros Hk. exists c, g. auto.
    + destruct (Ascii.eqb ch _); [| discriminate]. intros Hk. exists c, g. auto.
  - destruct (xorb _ _); [| discriminate]. intros Hk. exists c, g. auto.
Qed.

End Soundness.

Lemma search_go_sound (r : Re.regex) (s : string) :
  forall pos prev m,
    Re.search_go r pos prev s = Some m ->
    exists c c' g, run r c [] c' g
                   /\ Re.m_caps m = (0%nat, substring 0 (Re.c_pos c' - Re.c_pos c) (Re.c_rest c)) :: g.
Proof.
  induction s as [|ch s IH]; intros pos prev m; cbn [Re.search_go].
  - destruct (Re.match_at r _) as [m'|] eqn:Hm; [| discriminate].
    intros [= ->]. unfold Re.match_at in Hm.
    apply rmatch_sound in Hm as (c' & g' & (g1 & Hrun & ->) & [= <-]).
    eexists _, c', g1. split; [exact Hrun | reflexivity].
  - destruct (Re.match_at r _) as [m'|] eqn:Hm.
    + intros [= ->]. unfold Re.match_at in Hm.
      apply rmatch_sound in Hm as (c' & g' & (g1 & Hrun & ->) & [= <-]).
      eexists _, c', g1. split; [exact Hrun | reflexivity].
    + apply IH.
Qed.

(** Every character of the text is in the class. *)
Fixpoint all_of (p : ascii -> bool) (s : string) : bool :=
  match s with
  | EmptyString => true
  | String a s' => p a && all_of p s'
  end.

(** The expression has no capturing group. *)
Fixpoint no_group (r : Re.regex) : bool :=
  match r with
  | Re.Cat r1 r2 | Re.Alt r1 r2 => no_group r1 && no_group r2
  | Re.Rep r' _ _ => no_group r'
  | Re.Grp _ _ => false
  | _ => true
  end.

Lemma substring_prefix (w s : string) : substring 0 (String.length w) (w ++ s) = w.
Proof.
  induction w as [|a w IH]; simpl.
  - destruct s; reflexivity.
  - f_equal. exact IH.
Qed.

Lemma iter_sym (p : ascii -> bool) (n : nat) :
  forall c g c' g',
    iter_run (run (Re.Sym p)) n c g c' g' ->
    g' = g
    /\ exists w, Re.c_rest c = w ++ Re.c_rest c'
                 /\ Re.c_pos c' = (Re.c_pos c + String.length w)%nat
                 /\ String.length w = n /\ all_of p w = true.
Proof.
  induction n as [|n IH]; intros c g c' g'; cbn.
  - intros [-> ->]. split; [reflexivity |]. exists EmptyString. cbn.
    repeat split; auto with arith.
  - intros (c1 & g1 & (a & s & Hrest & Hp & -> & ->) & Hiter).
    apply IH in Hiter as (-> & w & Hw & Hpos & Hlen & Hall).
    split; [reflexivity |]. exists (String a w).
    unfold Re.advance in Hw, Hpos. rewrite Hrest in Hw, Hpos. cbn in Hw, Hpos.
    rewrite Hrest. cbn. rewrite Hw, Hpos, Hlen, Hp, Hall.
    repeat split; auto with arith.
Qed.

Lemma iter_keeps_caps (one : Re.cursor -> Re.caps -> Re.cursor -> Re.caps -> Prop) :
  (forall c g c' g', one c g c' g' -> g' = g) ->
  forall n c g c' g', iter_run one n c g c' g' -> g' = g.
Proof.
  intros Hone. induction n as [|n IH]; intros c g c' g'; cbn.
  - intros [_ ->]. reflexivity.
  - intros (c1 & g1 & H1 & Hn). apply Hone in H1 as ->. eapply IH; eassumption.
Qed.

Lemma run_no_group (r : Re.regex) :
  no_group r = true -> forall c g c' g', run r c g c' g' -> g' = g.
Proof.
  induction r as [|p|r1 IH1 r2 IH2|r1 IH1 r2 IH2|r IH lo hi|i r IH| | |];
    cbn; intros Hng c g c' g'.
  - intros [_ ->]. reflexivity.
  - intros (a & s & _ & _ & _ & ->). reflexivity.
  - apply andb_true_iff in Hng as [Hn1 Hn2].
    intros (c1 & g1 & H1 & H2). apply (IH1 Hn1) in H1 as ->. by apply (IH2 Hn2) in H2.
  - apply andb_true_iff in Hng as [Hn1 Hn2].
    intros [H | H]; [by apply (IH1 Hn1) in H | by apply (IH2 Hn2) in H].
  - intros (n & _ & Hiter). eapply iter_keeps_caps; [apply (IH Hng) | exact Hiter].
  - discriminate.
  - intros [_ ->]. reflexivity.
  - intros [_ ->]. reflexivity.
  - intros [_ ->]. reflexivity.
Qed.

(** A group that repeats a character class captures a run of that class. *)
Lemma run_class_group (i : nat) (p : ascii -> bool) (lo : nat) (hi : option nat)
    (c : Re.cursor) (g : Re.caps) (c' : Re.cursor) (g' : Re.caps) :
  run (Re.Grp i (Re.Rep (Re.Sym p) lo hi)) c g c' g' ->
  exists w, g' = (i, w) :: g /\ (lo <= String.length w)%nat /\ all_of p w = true.
Proof.
  cbn. intros (g1 & (n & Hlo & Hiter) & ->).
  apply iter_sym in Hiter as (-> & w & Hrest & Hpos & Hlen & Hall).
  exists w. rewrite Hrest, Hpos.
  replace (Re.c_pos c + String.length w - Re.c_pos c)%nat with (String.length w) by lia.
  rewrite substring_prefix. repeat split; [lia | exact Hall].
Qed.

Lemma digit_not_space (a : ascii) : Py.is_digit a = true -> Py.is_space a = false.
Proof.
  unfold Py.is_digit, Py.is_space, Py.between.
  rewrite andb_true_iff, !Nat.leb_le. intros [H1 H2].
  apply orb_false_iff. split; apply andb_false_iff; rewrite !Nat.leb_gt; lia.
Qed.

Lemma rstrip_digits (w : string) : all_of Py.is_digit w = true -> Py.rstrip w = w.
Proof.
  induction w as [|a w IH]; cbn; [reflexivity |].
  intros H. apply andb_true_iff in H as [Ha Hw]. rewrite (IH Hw).
  destruct w; [| reflexivity]. by rewrite (digit_not_space a Ha).
Qed.

Lemma int_go_digits (w : string) :
  all_of Py.is_digit w = true -> forall acc, exists z, Py.int_go acc w = Returns z.
Proof.
  induction w as [|a w IH]; cbn; intros H acc; [eauto |].
  apply andb_true_iff in H as [Ha Hw]. rewrite Ha. apply IH, Hw.
Qed.

(** [int] does not raise on a non-empty run of digits. *)
Lemma int_digits (w : string) :
  all_of Py.is_digit w = true -> (1 <= String.length w)%nat ->
  exists z, Py.int w = Returns z.
Proof.
  intros Hall Hlen. unfold Py.int, Py.strip.
  destruct w as [|a w]; [cbn in Hlen; lia |].
  assert (Ha : Py.is_digit a = true) by (cbn in Hall; by apply andb_true_iff in Hall as [? _]).
  cbn [Py.lstrip]. rewrite (digit_not_space a Ha), (rstrip_digits _ Hall).
  apply int_go_digits, Hall.
Qed.

Lemma age_pattern_group (s : string) (m : Re.match_obj) :
  Re.search age_pattern s = Some m -> exists z, group_int m 1 = Returns z.
Proof.
  unfold Re.search. intros Hm.
  apply search_go_sound in Hm as (c & c' & g & Hrun & Hcaps).
  unfold age_pattern in Hrun. cbn [Re.seq run] in Hrun.
  destruct Hrun as (c1 & g1 & Hgrp & c2 & g2 & Hsp & Halt).
  apply run_class_group in Hgrp as (w & -> & Hlen & Hall).
  apply (run_no_group (Re.star Re.space)) in Hsp as ->; [| reflexivity].
  apply run_no_group in Halt as ->; [| reflexivity].
  unfold group_int, Re.group. rewrite Hcaps. cbn. by apply int_digits.
Qed.

Lemma number_pattern_group (s : string) (m : Re.match_obj) :
  Re.search number_pattern s = Some m -> exists z, group_int m 1 = Returns z.
Proof.
  unfold Re.search. intros Hm.
  apply search_go_sound in Hm as (c & c' & g & Hrun & Hcaps).
  unfold number_pattern in Hrun. cbn [Re.seq run] in Hrun.
  destruct Hrun as (c1 & g1 & [-> ->] & c2 & g2 & Hgrp & [-> ->]).
  apply run_class_group in Hgrp as (w & -> & Hlen & Hall).
  unfold group_int, Re.group. rewrite Hcaps. cbn. by apply int_digits.
Qed.

(** ** The extractor is total *)

Lemma extract_age_returns (msg : string) (c : context) :
  exists c', extract_age msg c = Returns c'.
Proof.
  unfold extract_age.
  destruct (Re.search age_pattern (Py.lower msg)) as [m|] eqn:Hage.
  - destruct (age_pattern_group _ _ Hage) as [z Hz].
    destruct (ctx_age c) as [v|]; [eauto | rewrite Hz; eauto].
  - destruct (ctx_age c) as [v|]; [eauto |].
    destruct (ctx_name c) as [n|]; [| eauto].
    destruct (Re.search number_pattern msg) as [m|] eqn:Hnum; [| eauto].
    destruct (number_pattern_group _ _ Hnum) as [z Hz]. rewrite Hz.
    destruct (_ && _); eauto.
Qed.

(** [extract_patient_info] never raises. *)
Lemma extract_returns (e : env) (msg : string) (c : context) :
  exists c', extract_patient_info e msg c = Returns c'.
Proof.
  unfold extract_patient_info.
  destruct (extract_age_returns msg c) as [c1 ->]. eauto.
Qed.

(** ** First write wins, and idempotence of the extractor *)

(** [c'] keeps every field other than the date that is set in [c]. *)
Definition keeps_set_fields (c c' : context) : Prop :=
  forall f, f <> FDate -> is_Some (get f c) -> get f c' = get f c.

Ltac field_cases f :=
  destruct f; cbn in *; try congruence;
  repeat match goal with
         | H : is_Some None |- _ => destruct H; discriminate
         | H : ?x = None, H' : is_Some (_ <$> ?x) |- _ => rewrite H in H'; cbn in H'
         end; try reflexivity.

Lemma keeps_refl (c : context) : keeps_set_fields c c.
Proof. intros f _ _. reflexivity. Qed.

Lemma keeps_trans (c1 c2 c3 : context) :
  keeps_set_fields c1 c2 -> keeps_set_fields c2 c3 -> keeps_set_fields c1 c3.
Proof.
  intros H12 H23 f Hf Hset. rewrite <- (H12 f Hf Hset).
  apply H23; [exact Hf |]. rewrite (H12 f Hf Hset). exact Hset.
Qed.

Lemma keeps_set_age (v : Z) (c : context) :
  ctx_age c = None -> keeps_set_fields c (set_age v c).
Proof. intros Hnone f Hf Hset. field_cases f. Qed.

Lemma keeps_set_phone (v : string) (c : context) :
  ctx_phone c = None -> keeps_set_fields c (set_phone v c).
Proof. intros Hnone f Hf Hset. field_cases f. Qed.

Lemma keeps_set_name (v : string) (c : context) :
  ctx_name c = None -> keeps_set_fields c (set_name v c).
Proof. intros Hnone f Hf Hset. field_cases f. Qed.

Lemma keeps_set_reason (v : string) (c : context) :
  ctx_reason c = None -> keeps_set_fields c (set_reason v c).
Proof. intros Hnone f Hf Hset. field_cases f. Qed.

Lemma keeps_set_date (v : string) (c : context) : keeps_set_fields c (set_date v c).
Proof. intros f Hf Hset. field_cases f. Qed.

Lemma extract_age_keeps (msg : string) (c c' : context) :
  extract_age msg c = Returns c' -> keeps_set_fields c c'.
Proof.
  unfold extract_age. split_matches; intros [= <-];
    auto using keeps_refl, keeps_set_age.
Qed.

Lemma extract_phone_keeps (msg : string) (c : context) :
  keeps_set_fields c (extract_phone msg c).
Proof. unfold extract_phone. split_matches; auto using keeps_refl, keeps_set_phone. Qed.

Lemma extract_name_keeps (msg : string) (c : context) :
  keeps_set_fields c (extract_name msg c).
Proof. unfold extract_name. split_matches; auto using keeps_refl, keeps_set_name. Qed.

Lemma extract_reason_keeps (msg : string) (c : context) :
  keeps_set_fields c (extract_reason msg c).
Proof. unfold extract_reason. split_matches; auto using keeps_refl, keeps_set_reason. Qed.

Lemma extract_date_keeps (e : env) (msg : string) (c : context) :
  keeps_set_fields c (extract_date e msg c).
Proof. unfold extract_date. split_matches; auto using keeps_refl, keeps_set_date. Qed.

(** Name, age, phone and reason obey first-write-wins (and the extractor
    never writes the time, the stage or the slots flag): a field other than
    the date that is set before the call has the same value after it. *)
Lemma first_write_wins_but_for_date (e : env) (msg : string) (c c' : context) (f : field) :
  extract_patient_info e msg c = Returns c' ->
  f <> FDate -> is_Some (get f c) -> get f c' = get f c.
Proof.
  unfold extract_patient_info.
  destruct (extract_age msg c) as [c1|] eqn:Hage; [| discriminate].
  intros [= <-]. revert f.
  change (keeps_set_fields c
            (extract_date e msg (extract_reason msg (extract_name msg (extract_phone msg c1))))).
  eapply keeps_trans; [exact (extract_age_keeps _ _ _ Hage) |].
  eapply keeps_trans; [apply extract_phone_keeps |].
  eapply keeps_trans; [apply extract_name_keeps |].
  eapply keeps_trans; [apply extract_reason_keeps |].
  apply extract_date_keeps.
Qed.

Lemma first_write_wins_but_for_date_witness :
  exists c',
    extract_patient_info up "this is Bilal, 03117654321"
      (context_of (get_conversation_state slots_offered ahmed)) = Returns c'
    /\ get FName c' = Some (VStr "Ahmed Khan").
Proof.
  destruct (extract_returns up "this is Bilal, 03117654321"
              (context_of (get_conversation_state slots_offered ahmed))) as [c' Hc'].
  exists c'. split; [exact Hc' |].
  rewrite (first_write_wins_but_for_date up "this is Bilal, 03117654321" _ c' FName Hc').
  - vm_compute. reflexivity.
  - discriminate.
  - vm_compute. eauto.
Defined.

(** The date the extractor leaves, as a function of the date before. *)
Definition date_after (e : env) (msg : string) (before : option string) : option string :=
  ctx_date (extract_date e msg
              (MkContext None None None None before None None None)).

Lemma extract_date_field (e : env) (msg : string) (c : context) :
  ctx_date (extract_date e msg c) = date_after e msg (ctx_date c).
Proof. unfold date_after, extract_date. split_matches; reflexivity. Qed.

Lemma date_after_idempotent (e : env) (msg : string) (before : option string) :
  date_after e msg (date_after e msg before) = date_after e msg before.
Proof. unfold date_after, extract_date. split_matches; reflexivity. Qed.

Lemma extract_date_of (e : env) (msg : string) (c c' : context) :
  extract_patient_info e msg c = Returns c' ->
  ctx_date c' = date_after e msg (ctx_date c).
Proof.
  unfold extract_patient_info.
  destruct (extract_age msg c) as [c1|] eqn:Hage; [| discriminate].
  intros [= <-]. rewrite extract_date_field. f_equal.
  transitivity (ctx_date c1).
  - unfold extract_reason, extract_name, extract_phone. split_matches; reflexivity.
  - unfold extract_age in Hage. revert Hage. split_matches; intros [= <-]; reflexivity.
Qed.

(** C5: the extractor returns on every input, and applying it a second time
    with the same utterance (and the same current date) changes no field that
    was present in the context to begin with. *)
Theorem extract_idempotent_on_present_fields (e : env) (msg : string) (c : context) :
  exists c1 c2,
    extract_patient_info e msg c = Returns c1
    /\ extract_patient_info e msg c1 = Returns c2
    /\ forall f, is_Some (get f c) -> get f c2 = get f c1.
Proof.
  destruct (extract_returns e msg c) as [c1 H1].
  destruct (extract_returns e msg c1) as [c2 H2].
  exists c1, c2. split; [exact H1 |]. split; [exact H2 |].
  intros f Hset.
  assert (Hcase : f = FDate \/ f <> FDate)
    by (destruct f; (left; reflexivity) || (right; discriminate)).
  destruct Hcase as [-> | Hf].
  - cbn. f_equal.
    rewrite (extract_date_of _ _ _ _ H2), (extract_date_of _ _ _ _ H1).
    apply date_after_idempotent.
  - apply (first_write_wins_but_for_date e msg c1 c2 f H2 Hf).
    rewrite (first_write_wins_but_for_date e msg c c1 f H1 Hf Hset). exact Hset.
Qed.

(** ** What the matcher does on a time expression *)

(** The text begins with a character of the class. *)
Definition starts_with_class (p : ascii -> bool) (s : string) : bool :=
  match s with String a _ => p a | EmptyString => false end.

Lemma substring_0_0 (s : string) : substring 0 0 s = EmptyString.
Proof. destruct s; reflexivity. Qed.

Section CapturedRuns.
Context {A : Type}.
Implicit Types (k : Re.cont (A := A)) (g : Re.caps) (c : Re.cursor).

Definition total k : Prop := forall c g, is_Some (k c g).

Lemma first_some (x y : option A) :
  is_Some x -> match x with Some a => Some a | None => y end = x.
Proof. intros [a ->]. reflexivity. Qed.

Lemma rmatch_sym_cons p pos prev a s g k :
  Re.rmatch (Re.Sym p) (Re.Cursor pos prev (String a s)) g k
  = if p a then k (Re.Cursor (S pos) (Some a) s) g else None.
Proof. reflexivity. Qed.

Lemma rmatch_sym_stuck p pos prev s g k :
  starts_with_class p s = false ->
  Re.rmatch (Re.Sym p) (Re.Cursor pos prev s) g k = None.
Proof. destruct s as [|a s]; cbn; [reflexivity |]. intros ->. reflexivity. Qed.

Lemma rmatch_opt r c g k :
  Re.rmatch (Re.opt r) c g k
  = match Re.rmatch r c g k with Some a => Some a | None => k c g end.
Proof. reflexivity. Qed.

Lemma rep_total m n c g k : total k -> is_Some (Re.rep_loop m 0 n c g k).
Proof.
  intros Hk. destruct n; cbn; [apply Hk |].
  destruct (m c g _); [eauto | apply Hk].
Qed.

(** One or two characters of a class, captured. *)
Lemma rmatch_class_upto_two i p pos prev w rest g k :
  total k ->
  all_of p w = true -> (1 <= String.length w <= 2)%nat ->
  (String.length w = 1%nat -> starts_with_class p rest = false) ->
  Re.rmatch (Re.Grp i (Re.times (Re.Sym p) 1 2)) (Re.Cursor pos prev (w ++ rest)) g k
  = k (Re.Cursor (pos + String.length w) (Some (default "000"%char (last (list_ascii_of_string w)))) rest) ((i, w) :: g).
Proof.
  intros Hk Hall Hlen Hnext.
  destruct w as [|d1 [|d2 [|]]]; cbn in Hlen; try lia.
  - cbn in Hall. rewrite andb_true_r in Hall.
    specialize (Hnext eq_refl).
    change (String d1 EmptyString ++ rest) with (String d1 rest).
    destruct rest as [|a rest]; cbn in Hnext;
      unfold Re.times; cbn -[Nat.sub substring Nat.add]; rewrite Hall;
      unfold Re.advance; cbn -[Nat.sub substring Nat.add]; rewrite ?Hnext;
      replace (S pos - pos)%nat with 1%nat by lia;
      replace (pos + 1)%nat with (S pos) by lia; cbn; apply first_some, Hk.
  - cbn in Hall. rewrite andb_true_r in Hall. apply andb_true_iff in Hall as [H1 H2].
    change (String d1 (String d2 EmptyString) ++ rest) with (String d1 (String d2 rest)).
    unfold Re.times; cbn -[Nat.sub substring Nat.add]; rewrite H1;
      unfold Re.advance; cbn -[Nat.sub substring Nat.add]; rewrite H2.
      cbn -[Nat.sub substring Nat.add].
      replace (S (S pos) - pos)%nat with 2%nat by lia;
      replace (pos + 2)%nat with (S (S pos)) by lia. cbn. rewrite !substring_0_0.
      rewrite (first_some (k _ _)) by apply Hk. apply first_some, Hk.
Qed.
End CapturedRuns.

Section OptionalPieces.
Context {A : Type}.
Implicit Types (k : Re.cont (A := A)) (g : Re.caps) (c : Re.cursor).

(** An optional character that is there. *)
Lemma rmatch_opt_sym_taken p pos prev a s g k :
  total k -> p a = true ->
  Re.rmatch (Re.opt (Re.Sym p)) (Re.Cursor pos prev (String a s)) g k
  = k (Re.Cursor (S pos) (Some a) s) g.
Proof.
  intros Hk Hp. rewrite rmatch_opt, rmatch_sym_cons, Hp. apply first_some, Hk.
Qed.

Lemma rmatch_opt_skipped r c g k :
  Re.rmatch r c g k = None -> Re.rmatch (Re.opt r) c g k = k c g.
Proof. intros H. rewrite rmatch_opt, H. reflexivity. Qed.

(** Two characters of a class, captured. *)
Lemma rmatch_pair_stuck i p pos prev s g k :
  starts_with_class p s = false ->
  Re.rmatch (Re.Grp i (Re.times (Re.Sym p) 2 2)) (Re.Cursor pos prev s) g k = None.
Proof.
  intros H. destruct s as [|a s]; cbn in H; cbn; [reflexivity |]. rewrite H. reflexivity.
Qed.

Lemma rmatch_pair_taken i p pos prev a b s g k :
  total k -> p a = true -> p b = true ->
  Re.rmatch (Re.opt (Re.Grp i (Re.times (Re.Sym p) 2 2)))
    (Re.Cursor pos prev (String a (String b s))) g k
  = k (Re.Cursor (S (S pos)) (Some b) s) ((i, String a (String b EmptyString)) :: g).
Proof.
  intros Hk Ha Hb. rewrite rmatch_opt.
  unfold Re.times. cbn -[Nat.sub substring]. rewrite Ha. unfold Re.advance.
  cbn -[Nat.sub substring]. rewrite Hb. cbn -[Nat.sub substring].
  replace (S (S pos) - pos)%nat with 2%nat by lia. cbn. rewrite substring_0_0.
  rewrite !(first_some (k _ _)) by apply Hk. reflexivity.
Qed.

(** The greedy run of a class. *)
Lemma rep_loop_class_run p (w : string) :
  forall n pos prev tail g k,
    total k -> all_of p w = true -> starts_with_class p tail = false ->
    (String.length w <= n)%nat ->
    exists pos' prev',
      Re.rep_loop (Re.rmatch (Re.Sym p)) 0 n (Re.Cursor pos prev (w ++ tail)) g k
      = k (Re.Cursor pos' prev' tail) g.
Proof.
  induction w as [|a w IH]; intros n pos prev tail g k Hk Hall Htail Hn.
  - exists pos, prev. change (EmptyString ++ tail) with tail.
    destruct n; cbn [Re.rep_loop]; [reflexivity |].
    rewrite rmatch_sym_stuck by exact Htail. reflexivity.
  - cbn in Hall. apply andb_true_iff in Hall as [Ha Hw].
    destruct n as [|n]; [cbn in Hn; lia |].
    change (String a w ++ tail) with (String a (w ++ tail)).
    cbn [Re.rep_loop Nat.pred]. rewrite rmatch_sym_cons, Ha.
    destruct (IH n (S pos) (Some a) tail g k Hk Hw Htail) as (pos' & prev' & Heq);
      [cbn in Hn; lia |].
    exists pos', prev'. rewrite Heq. apply first_some, Hk.
Qed.

Lemma app_length (w s : string) :
  String.length (w ++ s) = (String.length w + String.length s)%nat.
Proof.
  induction w as [|a w IH]; [reflexivity |].
  change (String a w ++ s) with (String a (w ++ s)). cbn [String.length].
  by rewrite IH.
Qed.

Lemma rmatch_star_class p w pos prev tail g k :
  total k -> all_of p w = true -> starts_with_class p tail = false ->
  exists pos' prev',
    Re.rmatch (Re.star (Re.Sym p)) (Re.Cursor pos prev (w ++ tail)) g k
    = k (Re.Cursor pos' prev' tail) g.
Proof.
  intros Hk Hall Htail. unfold Re.star. cbn [Re.rmatch Re.c_rest].
  apply rep_loop_class_run; try assumption. rewrite app_length. lia.
Qed.

End OptionalPieces.

Definition meridiem_markers : list string := ["am"; "pm"; "AM"; "PM"].

(** The text begins with the prefix. *)
Fixpoint starts_with (prefix s : string) : bool :=
  match prefix, s with
  | EmptyString, _ => true
  | String a prefix', String b s' => Ascii.eqb a b && starts_with prefix' s'
  | String _ _, EmptyString => false
  end.

Section MeridiemMarker.
Context {A : Type}.
Implicit Types (k : Re.cont (A := A)) (g : Re.caps) (c : Re.cursor).

Lemma rmatch_meridiem_stuck pos prev s g k :
  existsb (fun mk => starts_with mk s) meridiem_markers = false ->
  Re.rmatch (Re.Grp 3 meridiems) (Re.Cursor pos prev s) g k = None.
Proof.
  cbn [existsb meridiem_markers]. rewrite !orb_false_iff.
  intros (H1 & H2 & H3 & H4 & _).
  destruct s as [|a [|b s]]; cbn -[Ascii.eqb] in *.
  - reflexivity.
  - repeat destruct (Ascii.eqb _ a); reflexivity.
  - rewrite andb_true_r in *.
    repeat match goal with
           | H : ?x && ?y = false |- _ =>
               apply andb_false_iff in H; destruct H as [H | H]; rewrite H
           end; repeat destruct (Ascii.eqb _ _); reflexivity.
Qed.
End MeridiemMarker.

(** A time expression as the first pattern reads it: one or two digits of
    hour, optionally a colon, optionally two digits of minutes, white space,
    optionally a meridiem marker. *)
Record time_expression := MkTimeExpression {
  te_hour : string;
  te_colon : bool;
  te_minutes : option string;
  te_space : string;
  te_meridiem : option string
}.

Definition well_formed (te : time_expression) : Prop :=
  all_of Py.is_digit (te_hour te) = true
  /\ (1 <= String.length (te_hour te) <= 2)%nat
  /\ (forall mm, te_minutes te = Some mm ->
        all_of Py.is_digit mm = true /\ String.length mm = 2%nat)
  /\ all_of Py.is_space (te_space te) = true
  /\ (forall mk, te_meridiem te = Some mk -> In mk meridiem_markers).

(** The text from the white space on, from the minutes on and from the
    colon on, followed by [tail]. *)
Definition written_tail (te : time_expression) (tail : string) : string :=
  te_space te ++ (default EmptyString (te_meridiem te) ++ tail).
Definition written_minutes (te : time_expression) (tail : string) : string :=
  default EmptyString (te_minutes te) ++ written_tail te tail.
Definition written_colon (te : time_expression) (tail : string) : string :=
  (if te_colon te then ":" else EmptyString) ++ written_minutes te tail.

(** The expression followed by [tail]. *)
Definition written (te : time_expression) (tail : string) : string :=
  te_hour te ++ written_colon te tail.

(** The text begins with two characters of the class. *)
Definition starts_with_two (p : ascii -> bool) (s : string) : bool :=
  match s with
  | String a (String b _) => p a && p b
  | _ => false
  end.

(** Every piece of the expression is as long as the text allows, as the
    greedy matcher takes it: a one-digit hour is not followed by a digit, an
    absent colon is not there, absent minutes are not two digits, the white
    space is all that is there, and an absent marker is not there. *)
Definition delimited (te : time_expression) (tail : string) : Prop :=
  (String.length (te_hour te) = 1%nat ->
     starts_with_class Py.is_digit (written_colon te tail) = false)
  /\ (te_colon te = false ->
        starts_with_class (Ascii.eqb ":") (written_minutes te tail) = false)
  /\ (te_minutes te = None ->
        starts_with_two Py.is_digit (written_tail te tail) = false)
  /\ (te_meridiem te = None ->
        starts_with_class Py.is_space tail = false
        /\ existsb (fun mk => starts_with mk tail) meridiem_markers = false).

(** The number a run of digits denotes. *)
Fixpoint number (acc : Z) (s : string) : Z :=
  match s with
  | EmptyString => acc
  | String a s' => number (10 * acc + Py.digit_val a) s'
  end.

Definition is_pm (mk : string) : bool := String.eqb mk "pm" || String.eqb mk "PM".
Definition is_am (mk : string) : bool := String.eqb mk "am" || String.eqb mk "AM".

(** The hour on the 24-hour clock: a PM marker adds 12 to an hour below 12,
    an AM marker turns 12 into 0, and the hour is kept as written
    otherwise. *)
Definition hour_on_24h_clock (te : time_expression) : Z :=
  let h := number 0 (te_hour te) in
  match te_meridiem te with
  | Some mk =>
      if is_pm mk then (if h <? 12 then h + 12 else h)
      else if is_am mk then (if h =? 12 then 0 else h)
      else h
  | None => h
  end.

Definition minutes_of (te : time_expression) : Z :=
  match te_minutes te with
  | Some mm => number 0 mm
  | None => 0
  end.

(** The captures of groups 1 to 3 for the expression. *)
Definition captures_of (te : time_expression) : Re.caps :=
  (match te_meridiem te with Some mk => [(3%nat, mk)] | None => [] end
   ++ match te_minutes te with Some mm => [(2%nat, mm)] | None => [] end
   ++ [(1%nat, te_hour te)])%list.

Section TimePattern.
Context {A : Type}.
Implicit Types (k : Re.cont (A := A)) (g : Re.caps) (c : Re.cursor).

Lemma rmatch_cat r1 r2 c g k :
  Re.rmatch (Re.Cat r1 r2) c g k
  = Re.rmatch r1 c g (fun c' g' => Re.rmatch r2 c' g' k).
Proof. reflexivity. Qed.

Lemma rep0_total r hi k :
  total k -> total (fun c g => Re.rmatch (Re.Rep r 0 hi) c g k).
Proof. intros Hk c g. cbn [Re.rmatch]. by apply rep_total. Qed.

Lemma append_cons (a : ascii) (w s : string) : String a w ++ s = String a (w ++ s).
Proof. reflexivity. Qed.

Lemma append_nil (s : string) : EmptyString ++ s = s.
Proof. reflexivity. Qed.

Lemma rmatch_meridiem_taken pos prev mk s g k :
  total k -> In mk meridiem_markers ->
  exists pos' prev',
    Re.rmatch (Re.opt (Re.Grp 3 meridiems)) (Re.Cursor pos prev (mk ++ s)) g k
    = k (Re.Cursor pos' prev' s) ((3%nat, mk) :: g).
Proof.
  intros Hk Hin. rewrite rmatch_opt.
  cbn in Hin. destruct Hin as [<- | [<- | [<- | [<- | []]]]];
    eexists _, _; rewrite !append_cons, append_nil; cbn -[Nat.sub substring];
    replace (S (S pos) - pos)%nat with 2%nat by lia; cbn; rewrite ?substring_0_0;
    rewrite !(first_some (k _ _)) by apply Hk; reflexivity.
Qed.

(** Two characters of a class that are not there. *)
Lemma rmatch_two_stuck i p pos prev s g k :
  starts_with_two p s = false ->
  Re.rmatch (Re.Grp i (Re.times (Re.Sym p) 2 2)) (Re.Cursor pos prev s) g k = None.
Proof.
  intros H. destruct s as [|a [|b s]]; cbn in H; cbn.
  - reflexivity.
  - destruct (p a); reflexivity.
  - destruct (p a); cbn in H |- *; [rewrite H |]; reflexivity.
Qed.

(** From the white space on: the run of white space, then the marker. *)
Lemma rmatch_space_meridiem (te : time_expression) (tail : string) pos prev g k :
  total k -> well_formed te -> delimited te tail ->
  exists pos' prev',
    Re.rmatch (Re.Cat (Re.star Re.space) (Re.opt (Re.Grp 3 meridiems)))
      (Re.Cursor pos prev (written_tail te tail)) g k
    = k (Re.Cursor pos' prev' tail)
        ((match te_meridiem te with Some mk => [(3%nat, mk)] | None => [] end) ++ g)%list.
Proof.
  intros Hk (_ & _ & _ & Hws & Hmk) (_ & _ & _ & Hdel).
  unfold written_tail. rewrite rmatch_cat. unfold Re.space.
  destruct (te_meridiem te) as [mk|] eqn:Hmer; cbn [from_option id].
  - specialize (Hmk mk eq_refl).
    destruct (rmatch_star_class Py.is_space (te_space te) pos prev (mk ++ tail) g
                (fun c' g' => Re.rmatch (Re.opt (Re.Grp 3 meridiems)) c' g' k))
      as (pos1 & prev1 & ->); [by apply rep0_total | exact Hws | |].
    { cbn in Hmk. destruct Hmk as [<- | [<- | [<- | [<- | []]]]]; reflexivity. }
    apply rmatch_meridiem_taken; assumption.
  - destruct (Hdel eq_refl) as [Hsp Hnone].
    change (EmptyString ++ tail) with tail.
    destruct (rmatch_star_class Py.is_space (te_space te) pos prev tail g
                (fun c' g' => Re.rmatch (Re.opt (Re.Grp 3 meridiems)) c' g' k))
      as (pos1 & prev1 & ->); [by apply rep0_total | exact Hws | exact Hsp |].
    exists pos1, prev1. apply rmatch_opt_skipped. by apply rmatch_meridiem_stuck.
Qed.

(** From the minutes on. *)
Lemma rmatch_minutes (te : time_expression) (tail : string) pos prev g k :
  total k -> well_formed te -> delimited te tail ->
  exists pos' prev',
    Re.rmatch (Re.Cat (Re.opt (Re.Grp 2 (Re.times Re.digit 2 2)))
                 (Re.Cat (Re.star Re.space) (Re.opt (Re.Grp 3 meridiems))))
      (Re.Cursor pos prev (written_minutes te tail)) g k
    = k (Re.Cursor pos' prev' tail)
        ((match te_meridiem te with Some mk => [(3%nat, mk)] | None => [] end)
         ++ (match te_minutes te with Some mm => [(2%nat, mm)] | None => [] end)
         ++ g)%list.
Proof.
  intros Hk Hwf Hdel.
  pose proof Hwf as (_ & _ & Hmm & _ & _). pose proof Hdel as (_ & _ & Hnomin & _).
  assert (T45 : total (fun c g => Re.rmatch (Re.Cat (Re.star Re.space)
                                               (Re.opt (Re.Grp 3 meridiems))) c g k)).
  { intros c' g'. rewrite rmatch_cat. apply rep0_total. by apply rep0_total. }
  unfold written_minutes. rewrite rmatch_cat. unfold Re.digit.
  destruct (te_minutes te) as [mm|] eqn:Hmin; cbn [from_option id].
  - destruct (Hmm mm eq_refl) as [Hdig Hl2].
    destruct mm as [|m1 [|m2 [|]]]; try discriminate Hl2.
    cbn in Hdig. rewrite andb_true_r in Hdig. apply andb_true_iff in Hdig as [Hm1 Hm2].
    rewrite !append_cons, append_nil.
    rewrite rmatch_pair_taken; [| exact T45 | exact Hm1 | exact Hm2].
    apply rmatch_space_meridiem; assumption.
  - rewrite append_nil.
    rewrite rmatch_opt_skipped by (apply rmatch_two_stuck, Hnomin; reflexivity).
    cbn [app]. apply rmatch_space_meridiem; assumption.
Qed.

(** From the colon on. *)
Lemma rmatch_colon (te : time_expression) (tail : string) pos prev g k :
  total k -> well_formed te -> delimited te tail ->
  exists pos' prev',
    Re.rmatch (Re.Cat (Re.opt (Re.chr ":"))
                 (Re.Cat (Re.opt (Re.Grp 2 (Re.times Re.digit 2 2)))
                    (Re.Cat (Re.star Re.space) (Re.opt (Re.Grp 3 meridiems)))))
      (Re.Cursor pos prev (written_colon te tail)) g k
    = k (Re.Cursor pos' prev' tail)
        ((match te_meridiem te with Some mk => [(3%nat, mk)] | None => [] end)
         ++ (match te_minutes te with Some mm => [(2%nat, mm)] | None => [] end)
         ++ g)%list.
Proof.
  intros Hk Hwf Hdel. pose proof Hdel as (_ & Hnocolon & _).
  assert (T3 : total (fun c g =>
                        Re.rmatch (Re.Cat (Re.opt (Re.Grp 2 (Re.times Re.digit 2 2)))
                                     (Re.Cat (Re.star Re.space)
                                        (Re.opt (Re.Grp 3 meridiems)))) c g k)).
  { intros c' g'. rewrite rmatch_cat. apply rep0_total.
    intros c2 g2. rewrite rmatch_cat. apply rep0_total. by apply rep0_total. }
  unfold written_colon. rewrite rmatch_cat. unfold Re.chr.
  destruct (te_colon te) eqn:Hcol.
  - rewrite append_cons, append_nil.
    rewrite rmatch_opt_sym_taken; [| exact T3 | reflexivity].
    apply rmatch_minutes; assumption.
  - rewrite append_nil.
    rewrite rmatch_opt_skipped by (apply rmatch_sym_stuck, Hnocolon; reflexivity).
    apply rmatch_minutes; assumption.
Qed.

End TimePattern.

(** The first of the two time patterns. *)
Definition time_pattern_1 : Re.regex :=
  Re.seq [Re.Grp 1 (Re.times Re.digit 1 2); Re.opt (Re.chr ":");
          Re.opt (Re.Grp 2 (Re.times Re.digit 2 2)); Re.star Re.space;
          Re.opt (Re.Grp 3 meridiems)].

Lemma time_patterns_head : exists second, time_patterns = [time_pattern_1; second].
Proof. eexists. reflexivity. Qed.

(** On a well-formed, delimited time expression the first pattern matches at
    once, and its groups are the hour, the minutes and the marker as
    written. *)
Lemma time_pattern_captures (te : time_expression) (tail : string)
    (pos : nat) (prev : option ascii) :
  well_formed te -> delimited te tail ->
  exists whole pos',
    Re.match_at time_pattern_1 (Re.Cursor pos prev (written te tail))
    = Some (Re.MatchObj ((0%nat, whole) :: captures_of te) pos').
Proof.
  intros Hwf Hdel.
  pose proof Hwf as (Hh & Hlen & Hmm & Hws & Hmk).
  pose proof Hdel as (Hone & _).
  unfold Re.match_at. cbn [Re.rmatch].
  set (K := fun (c' : Re.cursor) (g' : Re.caps) =>
              Some (Re.MatchObj
                      ((0%nat, substring 0 (Re.c_pos c' - pos) (written te tail)) :: g')
                      (Re.c_pos c'))).
  change (exists whole pos',
            Re.rmatch time_pattern_1 (Re.Cursor pos prev (written te tail)) [] K
            = Some (Re.MatchObj ((0%nat, whole) :: captures_of te) pos')).
  assert (HK : total K) by (intros c g; unfold K; eauto).
  set (P := Re.Cat (Re.opt (Re.chr ":"))
              (Re.Cat (Re.opt (Re.Grp 2 (Re.times Re.digit 2 2)))
                 (Re.Cat (Re.star Re.space) (Re.opt (Re.Grp 3 meridiems))))).
  assert (TP : total (fun c g => Re.rmatch P c g K)).
  { intros c g. unfold P. rewrite rmatch_cat. apply rep0_total.
    intros c1 g1. rewrite rmatch_cat. apply rep0_total.
    intros c2 g2. rewrite rmatch_cat. apply rep0_total. by apply rep0_total. }
  change time_pattern_1
    with (Re.Cat (Re.Grp 1 (Re.times (Re.Sym Py.is_digit) 1 2)) P).
  rewrite rmatch_cat. unfold written.
  rewrite (rmatch_class_upto_two 1 Py.is_digit pos prev (te_hour te) _ []
             (fun c' g' => Re.rmatch P c' g' K) TP Hh Hlen Hone).
  unfold P.
  destruct (rmatch_colon te tail (pos + String.length (te_hour te))
              (Some (default "000"%char (last (list_ascii_of_string (te_hour te)))))
              [(1%nat, te_hour te)] K HK Hwf Hdel) as (pos' & prev' & ->).
  unfold K, captures_of. cbn [Re.c_pos]. eexists _, _. reflexivity.
Qed.

Lemma time_pattern_needs_digit (pos : nat) (prev : option ascii) (s : string) :
  starts_with_class Py.is_digit s = false ->
  Re.match_at time_pattern_1 (Re.Cursor pos prev s) = None.
Proof.
  intros H. unfold Re.match_at, time_pattern_1, Re.times, Re.digit.
  destruct s as [|a s]; cbn in H; cbn; [reflexivity |]. rewrite H. reflexivity.
Qed.

Lemma search_go_hit (r : Re.regex) (pos : nat) (prev : option ascii) (s : string)
    (m : Re.match_obj) :
  Re.match_at r (Re.Cursor pos prev s) = Some m -> Re.search_go r pos prev s = Some m.
Proof. intros H. destruct s; cbn [Re.search_go]; rewrite H; reflexivity. Qed.

(** The search passes over a prefix without digits. *)
Lemma search_skips_non_digits (pre s : string) :
  Py.has_digit pre = false ->
  forall pos prev, exists pos' prev',
    Re.search_go time_pattern_1 pos prev (pre ++ s)
    = Re.search_go time_pattern_1 pos' prev' s.
Proof.
  induction pre as [|a pre IH]; intros Hpre pos prev.
  - exists pos, prev. reflexivity.
  - cbn in Hpre. apply orb_false_iff in Hpre as [Ha Hpre].
    rewrite append_cons. cbn [Re.search_go].
    rewrite time_pattern_needs_digit by exact Ha.
    apply IH, Hpre.
Qed.

(** Neither pattern matches anywhere in a text without digits. *)
Lemma search_needs_digit (r : Re.regex) (s : string) :
  (forall pos prev t, starts_with_class Py.is_digit t = false ->
                      Re.match_at r (Re.Cursor pos prev t) = None) ->
  Py.has_digit s = false ->
  forall pos prev, Re.search_go r pos prev s = None.
Proof.
  intros Hr. induction s as [|a s IH]; intros Hs pos prev; cbn [Re.search_go].
  - rewrite Hr by reflexivity. reflexivity.
  - cbn in Hs. apply orb_false_iff in Hs as [Ha Hs].
    rewrite Hr by exact Ha. apply IH, Hs.
Qed.

Lemma time_loop_needs_digit (e : env) (phone msg : string) (c : context) (d : database) :
  Py.has_digit msg = false -> time_loop e phone c msg d time_patterns = None.
Proof.
  intros Hmsg.
  change time_patterns with [time_pattern_1; Re.seq [Re.Grp 1 (Re.times Re.digit 1 2);
                                                     Re.star Re.space; Re.Grp 2 meridiems]].
  cbn [time_loop]. unfold Re.search.
  rewrite (search_needs_digit time_pattern_1 msg) by
    (try exact Hmsg; intros; by apply time_pattern_needs_digit).
  rewrite (search_needs_digit _ msg); [reflexivity | | exact Hmsg].
  intros pos prev t Ht. unfold Re.match_at, Re.times, Re.digit.
  destruct t as [|a t]; cbn in Ht; cbn; [reflexivity |]. rewrite Ht. reflexivity.
Qed.

Lemma int_go_number (w : string) :
  all_of Py.is_digit w = true -> forall acc, Py.int_go acc w = Returns (number acc w).
Proof.
  induction w as [|a w IH]; cbn; intros H acc; [reflexivity |].
  apply andb_true_iff in H as [Ha Hw]. rewrite Ha. apply IH, Hw.
Qed.

(** [int] reads a non-empty run of digits as the number it denotes. *)
Lemma int_number (w : string) :
  all_of Py.is_digit w = true -> (1 <= String.length w)%nat ->
  Py.int w = Returns (number 0 w).
Proof.
  intros Hall Hlen. unfold Py.int, Py.strip.
  destruct w as [|a w]; [cbn in Hlen; lia |].
  assert (Ha : Py.is_digit a = true) by (cbn in Hall; by apply andb_true_iff in Hall as [? _]).
  cbn [Py.lstrip]. rewrite (digit_not_space a Ha), (rstrip_digits _ Hall).
  apply int_go_number, Hall.
Qed.

(** Written [HH:MM]. *)
Definition clock (hour minute : Z) : string :=
  Py.zfill 2 hour ++ ":" ++ Py.zfill 2 minute.

Lemma parse_time_of_expression (te : time_expression) (whole : string) (pos : nat) :
  well_formed te ->
  parse_time (Re.MatchObj ((0%nat, whole) :: captures_of te) pos)
  = Returns (clock (hour_on_24h_clock te) (minutes_of te)).
Proof.
  intros (Hh & Hlen & Hmm & _ & Hmk).
  assert (Hhour : Py.int (te_hour te) = Returns (number 0 (te_hour te)))
    by (apply int_number; [exact Hh | lia]).
  unfold parse_time, group_int, Re.group, captures_of, hour_on_24h_clock, minutes_of, clock.
  cbn [Re.m_caps].
  destruct (te_meridiem te) as [mk|] eqn:Hmer;
    destruct (te_minutes te) as [mm|] eqn:Hmin; cbn [app Re.lookup_cap Nat.eqb fmap option_fmap option_map];
    rewrite Hhour.
  1, 3: destruct (Hmm mm eq_refl) as [Hdig Hl2];
        rewrite (int_number mm Hdig) by lia;
        destruct mm as [|m1 mm']; [discriminate Hl2 |]; cbn [String.eqb].
  1, 3: specialize (Hmk mk eq_refl); cbn in Hmk;
        destruct Hmk as [<- | [<- | [<- | [<- | []]]]]; cbn -[Py.zfill Z.add Z.ltb Z.eqb];
        try reflexivity; destruct (_ <? 12); reflexivity.
  all: reflexivity.
Qed.

Lemma select_time_records (e : env) (phone : string) (c : context) (m : Re.match_obj)
    (d : database) (time_str : string) :
  parse_time m = Returns time_str ->
  ctx_time (r_context (select_time e phone c m d)) = Some time_str.
Proof.
  intros Hparse. unfold select_time. rewrite Hparse.
  destruct (inline_booking e phone (set_time time_str c) time_str d) as [res d'].
  destruct (ctx_date (set_time time_str c)); reflexivity.
Qed.

(** The time recorded for an utterance that reads as a time expression from
    its first digit on. *)
Lemma time_loop_of_expression (pre tail : string) (te : time_expression)
    (e : env) (phone : string) (c : context) (d : database) :
  Py.has_digit pre = false -> well_formed te -> delimited te tail ->
  ctx_time c = None ->
  exists r,
    time_loop e phone c (pre ++ written te tail) d time_patterns = Some r
    /\ ctx_time (r_context r)
       = Some (clock (hour_on_24h_clock te) (minutes_of te)).
Proof.
  intros Hpre Hwf Hdel Htime.
  destruct (search_skips_non_digits pre (written te tail) Hpre 0%nat None)
    as (pos & prev & Hskip).
  destruct (time_pattern_captures te tail pos prev Hwf Hdel) as (whole & pos' & Hm).
  apply search_go_hit in Hm.
  change time_patterns with [time_pattern_1; Re.seq [Re.Grp 1 (Re.times Re.digit 1 2);
                                                     Re.star Re.space; Re.Grp 2 meridiems]].
  cbn [time_loop]. unfold Re.search. rewrite Hskip, Hm, Htime.
  eexists. split; [reflexivity |].
  apply select_time_records, parse_time_of_expression, Hwf.
Qed.

(** *** Every utterance with a digit reads as a time expression *)

Lemma first_digit (s : string) :
  Py.has_digit s = true ->
  exists pre a rest,
    s = pre ++ String a rest /\ Py.has_digit pre = false /\ Py.is_digit a = true.
Proof.
  induction s as [|b s IH]; cbn; [discriminate |].
  destruct (Py.is_digit b) eqn:Hb; cbn.
  - intros _. exists EmptyString, b, s. auto.
  - intros Hs. destruct (IH Hs) as (pre & a & rest & -> & Hpre & Ha).
    exists (String b pre), a, rest. cbn. rewrite Hb. auto.
Qed.

(** The longest prefix of a class, and what follows it. *)
Fixpoint take_class (p : ascii -> bool) (s : string) : string :=
  match s with
  | EmptyString => EmptyString
  | String a s' => if p a then String a (take_class p s') else EmptyString
  end.
Fixpoint drop_class (p : ascii -> bool) (s : string) : string :=
  match s with
  | EmptyString => EmptyString
  | String a s' => if p a then drop_class p s' else s
  end.

Lemma take_drop_class (p : ascii -> bool) (s : string) :
  s = take_class p s ++ drop_class p s
  /\ all_of p (take_class p s) = true
  /\ starts_with_class p (drop_class p s) = false.
Proof.
  induction s as [|a s (IH1 & IH2 & IH3)]; cbn; [auto |].
  destruct (p a) eqn:Hp; cbn.
  - rewrite Hp. rewrite append_cons, <- IH1. auto.
  - rewrite Hp. auto.
Qed.

Lemma starts_with_app (prefix s : string) :
  starts_with prefix s = true -> exists t, s = prefix ++ t.
Proof.
  revert s. induction prefix as [|a prefix IH]; intros s; cbn.
  - intros _. exists s. reflexivity.
  - destruct s as [|b s]; [discriminate |].
    intros H. apply andb_true_iff in H as [Hab Hs].
    apply Ascii.eqb_eq in Hab as <-. destruct (IH s Hs) as [t ->].
    exists t. reflexivity.
Qed.

(** The white space and the marker at the start of a text. *)
Lemma reads_space_meridiem (s : string) :
  exists sp mer tail,
    s = sp ++ (default EmptyString mer ++ tail)
    /\ all_of Py.is_space sp = true
    /\ (forall mk, mer = Some mk -> In mk meridiem_markers)
    /\ (mer = None ->
          starts_with_class Py.is_space tail = false
          /\ existsb (fun mk => starts_with mk tail) meridiem_markers = false).
Proof.
  destruct (take_drop_class Py.is_space s) as (Hs & Hsp & Hnext).
  set (sp := take_class Py.is_space s) in *. set (r := drop_class Py.is_space s) in *.
  destruct (existsb (fun mk => starts_with mk r) meridiem_markers) eqn:Hmk.
  - apply existsb_exists in Hmk as (mk & Hin & Hstart).
    apply starts_with_app in Hstart as [tail Hr].
    exists sp, (Some mk), tail. cbn [from_option id]. rewrite <- Hr.
    split; [exact Hs |]. split; [exact Hsp |]. split; [| discriminate].
    intros ? [= <-]. exact Hin.
  - exists sp, None, r. cbn [from_option id]. rewrite append_nil.
    split; [exact Hs |]. split; [exact Hsp |]. split; [discriminate | auto].
Qed.

(** From its first digit on, every text reads as a time expression. *)
Lemma reads_as_expression (a : ascii) (rest : string) :
  Py.is_digit a = true ->
  exists te tail,
    String a rest = written te tail /\ well_formed te /\ delimited te tail.
Proof.
  intros Ha.
  (* the hour *)
  assert (Hhour : exists hour r2,
             String a rest = hour ++ r2
             /\ all_of Py.is_digit hour = true
             /\ (1 <= String.length hour <= 2)%nat
             /\ (String.length hour = 1%nat -> starts_with_class Py.is_digit r2 = false)).
  { destruct rest as [|b rest'].
    - exists (String a EmptyString), EmptyString. cbn. rewrite Ha. repeat split; lia.
    - destruct (Py.is_digit b) eqn:Hb.
      + exists (String a (String b EmptyString)), rest'. cbn. rewrite Ha, Hb.
        repeat split; try lia; try discriminate.
      + exists (String a EmptyString), (String b rest'). cbn. rewrite Ha.
        repeat split; try lia; try (intros _; exact Hb). }
  destruct Hhour as (hour & r2 & Htext & Hdig & Hlen & Hone).
  (* the colon *)
  assert (Hcolon : exists (colon : bool) r3,
             r2 = (if colon then ":" else EmptyString) ++ r3
             /\ (colon = false -> starts_with_class (Ascii.eqb ":") r3 = false)).
  { destruct r2 as [|b r2'].
    - exists false, EmptyString. auto.
    - destruct (Ascii.eqb ":" b) eqn:Hb.
      + apply Ascii.eqb_eq in Hb as <-. exists true, r2'. split; [reflexivity | discriminate].
      + exists false, (String b r2'). cbn. auto. }
  destruct Hcolon as (colon & r3 & Hr2 & Hnocolon).
  (* the minutes *)
  assert (Hminutes : exists minutes r4,
             r3 = default EmptyString minutes ++ r4
             /\ (forall mm, minutes = Some mm ->
                   all_of Py.is_digit mm = true /\ String.length mm = 2%nat)
             /\ (minutes = None -> starts_with_two Py.is_digit r4 = false)).
  { destruct (starts_with_two Py.is_digit r3) eqn:Htwo.
    - destruct r3 as [|m1 [|m2 r4]]; try discriminate Htwo.
      cbn in Htwo. apply andb_true_iff in Htwo as [H1 H2].
      exists (Some (String m1 (String m2 EmptyString))), r4. cbn [from_option id].
      split; [reflexivity |]. split; [| discriminate].
      intros ? [= <-]. cbn. rewrite H1, H2. auto.
    - exists None, r3. cbn [from_option id]. split; [reflexivity |].
      split; [discriminate | auto]. }
  destruct Hminutes as (minutes & r4 & Hr3 & Hmm & Hnomin).
  destruct (reads_space_meridiem r4) as (sp & mer & tail & Hr4 & Hsp & Hmk & Hnomk).
  exists (MkTimeExpression hour colon minutes sp mer), tail.
  assert (Ht : written_tail (MkTimeExpression hour colon minutes sp mer) tail = r4)
    by (unfold written_tail; cbn; symmetry; exact Hr4).
  assert (Hm : written_minutes (MkTimeExpression hour colon minutes sp mer) tail = r3)
    by (unfold written_minutes; rewrite Ht; cbn; symmetry; exact Hr3).
  assert (Hc : written_colon (MkTimeExpression hour colon minutes sp mer) tail = r2)
    by (unfold written_colon; rewrite Hm; cbn; symmetry; exact Hr2).
  split; [unfold written; rewrite Hc; exact Htext |]. split.
  - unfold well_formed. cbn. auto.
  - unfold delimited. rewrite Hc, Hm, Ht. cbn. auto.
Qed.

(** C7, as the code has it.  For an utterance of ASCII characters, sent
    while the context has no time: the slot-selection step reads the time at
    the first digit of the utterance, as far as the expression goes there
    (one or two digits of hour, a colon if there is one, two digits of
    minutes if they are there, white space, one of the markers am, pm, AM,
    PM if it is there), and records it as [HH:MM] on the 24-hour clock: a PM
    marker adds 12 to an hour below 12 (an hour of 12 or more is kept), an
    AM marker turns 12 into 0, and without a marker the hour is kept as
    written.  Every utterance with a digit reads so, and an utterance
    without a digit records no time. *)
Theorem time_expression_is_normalized (msg : string) (e : env) (phone : string)
    (c : context) (d : database) :
  Py.isascii msg = true -> ctx_time c = None ->
  (forall pre te tail,
      msg = pre ++ written te tail ->
      Py.has_digit pre = false -> well_formed te -> delimited te tail ->
      exists r,
        time_loop e phone c msg d time_patterns = Some r
        /\ ctx_time (r_context r)
           = Some (clock (hour_on_24h_clock te) (minutes_of te)))
  /\ (Py.has_digit msg = true ->
      exists pre te tail,
        msg = pre ++ written te tail
        /\ Py.has_digit pre = false /\ well_formed te /\ delimited te tail)
  /\ (Py.has_digit msg = false -> time_loop e phone c msg d time_patterns = None).
Proof.
  intros _ Htime. split; [| split].
  - intros pre te tail -> Hpre Hwf Hdel. by apply time_loop_of_expression.
  - intros Hmsg. destruct (first_digit msg Hmsg) as (pre & a & rest & -> & Hpre & Ha).
    destruct (reads_as_expression a rest Ha) as (te & tail & -> & Hwf & Hdel).
    exists pre, te, tail. auto.
  - apply time_loop_needs_digit.
Qed.

Lemma time_expression_is_normalized_witness :
  exists r,
    time_loop up ahmed (context_of (get_conversation_state slots_offered ahmed))
      "at 2:30 PM please" (db slots_offered) time_patterns = Some r
    /\ ctx_time (r_context r) = Some "14:30".
Proof.
  destruct (time_expression_is_normalized "at 2:30 PM please" up ahmed
              (context_of (get_conversation_state slots_offered ahmed))
              (db slots_offered)) as (H & _).
  - reflexivity.
  - vm_compute. reflexivity.
  - apply (H "at " (MkTimeExpression "2" true (Some "30") " " (Some "PM")) " please").
    + reflexivity.
    + reflexivity.
    + unfold well_formed. cbn.
      split; [reflexivity |]. split; [lia |]. split; [| split; [reflexivity |]].
      * intros ? [= <-]. split; reflexivity.
      * intros ? [= <-]. auto.
    + unfold delimited. cbn. repeat split; discriminate.
Defined.

(** C7, as stated, fails, in three ways.  "Fever for 3 days, 2:30 PM"
    contains the time expression 2:30 PM, which the rule of the claim turns
    into 14:30; the time recorded is 03:00, read at the first digit of the
    utterance.  In "2:30 Pm" the marker is not in one of the four spellings
    of the pattern, although the code lower-cases the marker it has read: the
    time recorded is 02:30, not 14:30.  And outside the 12-hour values, for
    "13 PM" the time recorded is 13:00, whereas "a PM marker adds 12 unless
    the hour is 12" gives hour 25. *)
Lemma time_expression_not_normalized :
  let c := context_of (get_conversation_state slots_offered ahmed) in
  (exists r,
     time_loop up ahmed c "Fever for 3 days, 2:30 PM" (db slots_offered) time_patterns
     = Some r
     /\ ctx_time (r_context r) = Some "03:00"
     /\ "Fever for 3 days, 2:30 PM"
        = "Fever for 3 days, "
          ++ written (MkTimeExpression "2" true (Some "30") " " (Some "PM")) EmptyString
     /\ clock (to_24h_per_spec 2 (Some (Py.lower "PM"))) 30 = "14:30")
  /\ (exists r,
        time_loop up ahmed c "2:30 Pm" (db slots_offered) time_patterns = Some r
        /\ ctx_time (r_context r) = Some "02:30"
        /\ clock (to_24h_per_spec 2 (Some (Py.lower "Pm"))) 30 = "14:30")
  /\ (exists r,
        time_loop up ahmed c "13 PM" (db slots_offered) time_patterns = Some r
        /\ ctx_time (r_context r) = Some "13:00"
        /\ clock (to_24h_per_spec 13 (Some (Py.lower "PM"))) 0 = "25:00").
Proof.
  cbv zeta. split; [| split]; eexists;
    (split; [vm_compute; reflexivity |]); repeat split; vm_compute; reflexivity.
Qed.

(** ** The loop of [generate_time_slots] terminates within its fuel *)

Section SlotGrid.
Variable cfg : config.

(** With the minutes below 60, the loop started at [hour:minute] gives the
    same slots for any two amounts of fuel that cover the minutes left until
    the clinic closes. *)
Lemma slots_loop_fuel (fuel1 : nat) :
  forall fuel2 hour minute,
    0 <= minute < 60 ->
    60 * (CLINIC_END_HOUR cfg - hour) - minute <= Z.of_nat fuel1 ->
    60 * (CLINIC_END_HOUR cfg - hour) - minute <= Z.of_nat fuel2 ->
    slots_loop cfg fuel1 hour minute = slots_loop cfg fuel2 hour minute.
Proof.
  induction fuel1 as [|fuel1 IH]; intros fuel2 hour minute Hmin H1 H2.
  - destruct fuel2 as [|fuel2]; cbn [slots_loop]; [reflexivity |].
    destruct (hour <? CLINIC_END_HOUR cfg) eqn:Hlt; [| reflexivity].
    apply Z.ltb_lt in Hlt. lia.
  - destruct fuel2 as [|fuel2]; cbn [slots_loop];
      destruct (hour <? CLINIC_END_HOUR cfg) eqn:Hlt; try reflexivity;
      apply Z.ltb_lt in Hlt; [lia |].
    destruct (mk_time hour minute) as [slot|]; [| reflexivity].
    pose proof (Pos2Z.is_pos (SLOT_DURATION_MINUTES cfg)) as Hdur.
    destruct (minute + Z.pos (SLOT_DURATION_MINUTES cfg) >=? 60) eqn:Hwrap.
    + rewrite (IH fuel2 (hour + 1) 0); [reflexivity | lia | lia | lia].
    + rewrite Z.geb_leb in Hwrap. apply Z.leb_gt in Hwrap.
      rewrite (IH fuel2 hour (minute + Z.pos (SLOT_DURATION_MINUTES cfg)));
        [reflexivity | lia | lia | lia].
Qed.

(** More fuel than [generate_time_slots] passes changes nothing: the loop
    has left before the fuel runs out. *)
Lemma generate_time_slots_fuel (fuel : nat) :
  (slots_fuel cfg <= fuel)%nat ->
  slots_loop cfg fuel (CLINIC_START_HOUR cfg) 0 = generate_time_slots cfg.
Proof.
  intros Hfuel. unfold generate_time_slots.
  apply slots_loop_fuel; unfold slots_fuel in *; lia.
Qed.

End SlotGrid.

Lemma generate_time_slots_fuel_witness :
  (slots_fuel default_config <= 5000)%nat
  /\ slots_loop default_config 5000 10 0 = generate_time_slots default_config.
Proof.
  assert (H : (slots_fuel default_config <= 5000)%nat) by (vm_compute; lia).
  split; [exact H |].
  apply (generate_time_slots_fuel default_config 5000 H).
Defined.

(** * Further properties of the code *)

(** ** What a turn can do to the database and to the other sessions *)

(** The outcome of the inline booking: nothing stored, or one confirmed
    appointment added for a patient of the table. *)
Definition stores_nothing (d d' : database) : Prop :=
  appointments d' = appointments d /\ patients d' = patients d.

Definition stores_one_confirmed (d d' : database) : Prop :=
  exists a p,
    appointments d' = (appointments d ++ [a])%list
    /\ apt_status a = "confirmed"
    /\ apt_id a = next_id (appointments d)
    /\ In p (patients d') /\ patient_id p = apt_patient_id a.

Lemma patient_for_in (d : database) (name phone : string) (age : Z) :
  In (fst (patient_for d name phone age)) (snd (patient_for d name phone age)).
Proof.
  unfold patient_for. destruct (find_patient phone (patients d)) as [p|] eqn:Hfind; cbn.
  - unfold find_patient in Hfind. by apply List.find_some in Hfind as [? _].
  - apply in_or_app. right. left. reflexivity.
Qed.

Lemma commit_stores_one (d : database) (name phone : string) (age : Z)
    (day : date) (t : time) (reason : string) :
  stores_one_confirmed d
    (commit_appointment d (snd (patient_for d name phone age))
       (fst (patient_for d name phone age)) day t reason).
Proof.
  eexists _, (fst (patient_for d name phone age)). cbn.
  split; [reflexivity |]. repeat split. apply patient_for_in.
Qed.

Lemma inline_booking_outcome (e : env) (phone : string) (c : context) (time_str : string)
    (d : database) :
  let d' := snd (inline_booking e phone c time_str d) in
  d' = d \/ stores_one_confirmed d d'.
Proof.
  cbv zeta. unfold inline_booking.
  destruct (ctx_date c) as [ds|]; [| left; reflexivity].
  destruct (strptime_date ds) as [day|]; [| left; reflexivity].
  destruct (strptime_time time_str) as [t|]; [| left; reflexivity].
  destruct (db_up e); [| left; reflexivity].
  right.
  pose proof (commit_stores_one d (default "Unknown" (ctx_name c))
                (default phone (ctx_phone c)) (default 0 (ctx_age c)) day t
                (default "General consultation" (ctx_reason c))) as H.
  destruct (patient_for d _ _ _) as [p ps]. exact H.
Qed.

(** What [generate_response] leaves: either the database as it was and no
    notification, or (after a time selection) a reset session, one
    notification, and a database that has at most one more appointment. *)
Definition response_effect (d : database) (r : response) : Prop :=
  (r_db r = d /\ r_sent r = [])
  \/ (r_reset r = true /\ List.length (r_sent r) = 1%nat
      /\ (r_db r = d \/ stores_one_confirmed d (r_db r))).

Lemma select_time_effect (e : env) (phone : string) (c : context) (m : Re.match_obj)
    (d : database) :
  response_effect d (select_time e phone c m d).
Proof.
  unfold select_time.
  destruct (parse_time m) as [time_str|]; [| left; split; reflexivity].
  destruct (ctx_date c) as [ds|] eqn:Hds.
  - pose proof (inline_booking_outcome e phone (set_time time_str c) time_str d) as Hout.
    cbv zeta in Hout.
    destruct (inline_booking e phone (set_time time_str c) time_str d) as [res d'].
    cbn [snd] in Hout. cbn [ctx_date set_time]. rewrite Hds. right. cbn. auto.
  - unfold inline_booking. cbn [ctx_date set_time]. rewrite Hds. left. split; reflexivity.
Qed.

Lemma reply_with_effect (text : string) (c : context) (d : database) :
  response_effect d (reply_with text c d).
Proof. left. split; reflexivity. Qed.

Lemma time_selection_effect (cfg : config) (e : env) (phone msg : string) (c : context)
    (d : database) :
  response_effect d (time_selection e phone c msg d).
Proof.
  unfold time_selection.
  assert (Hloop : forall ps r, time_loop e phone c msg d ps = Some r -> response_effect d r).
  { induction ps as [|p ps IH]; cbn; [discriminate |]. intros r.
    destruct (Re.search p msg); [| apply IH].
    destruct (ctx_time c); [apply IH |]. intros [= <-]. apply select_time_effect. }
  destruct (time_loop e phone c msg d time_patterns) as [r|] eqn:Hr; [by eapply Hloop |].
  split_matches; apply reply_with_effect.
Qed.

Lemma generate_response_effect (cfg : config) (e : env) (phone msg : string) (c : context)
    (history : list message) (d : database) :
  response_effect d (generate_response cfg e phone c msg history d).
Proof.
  unfold generate_response, booking_stage.
  split_matches; try apply reply_with_effect; by apply time_selection_effect.
Qed.

Lemma save_conversation_tables (e : env) (d : database) (phone text : string) :
  appointments (save_conversation e d phone text) = appointments d
  /\ patients (save_conversation e d phone text) = patients d.
Proof. unfold save_conversation. destruct (db_up e); split; reflexivity. Qed.

Lemma stores_one_after_save (e : env) (d d' : database) (phone text : string) :
  stores_one_confirmed d d' ->
  stores_one_confirmed d (save_conversation e d' phone text).
Proof.
  intros (a & p & H1 & H2 & H3 & H4 & H5).
  destruct (save_conversation_tables e d' phone text) as [Ha Hp].
  exists a, p. rewrite Ha, Hp. auto.
Qed.

Lemma turn_effect (cfg : config) (e : env) (w : world)
    (phone msg : string) :
  let w' := snd (chat_with_agent cfg e w phone msg) in
  stores_nothing (db w) (db w')
  \/ (stores_one_confirmed (db w) (db w')
      /\ get_conversation_state w' phone = new_session
      /\ List.length (outbox w') = S (List.length (outbox w))).
Proof.
  cbv zeta. unfold chat_with_agent.
  destruct (is_urgent msg); cbn [snd db].
  { left. apply save_conversation_tables. }
  destruct (extract_patient_info e msg _) as [c|]; cbn [snd db];
    [| left; split; reflexivity].
  pose proof (generate_response_effect cfg e phone msg c
                (messages (get_conversation_state w phone) ++ [user_says msg])%list (db w))
    as Heff.
  set (r := generate_response cfg e phone c msg _ (db w)) in *.
  destruct Heff as [[Hdb Hsent] | (Hreset & Hlen & [Hdb | Hone])].
  - left. destruct (r_reply r); cbn [snd db]; rewrite ?Hdb;
      [apply save_conversation_tables | split; reflexivity].
  - left. destruct (r_reply r); cbn [snd db]; rewrite ?Hdb;
      [apply save_conversation_tables | split; reflexivity].
  - right. destruct (r_reply r); cbn [snd db outbox]; rewrite Hreset, state_after_insert;
      (split; [by try apply stores_one_after_save |]); split; try reflexivity;
      rewrite length_app, Hlen; lia.
Qed.

(** X1: A turn stores nothing, or it stores exactly one appointment: that
    appointment is confirmed, gets the next id, belongs to a patient of the
    table, and with it the session of the party is replaced by an empty one
    and one notification is sent to the doctor. *)
Theorem turn_stores_at_most_one_confirmed (cfg : config) (e : env) (w : world)
    (phone msg : string) :
  let w' := snd (chat_with_agent cfg e w phone msg) in
  stores_nothing (db w) (db w')
  \/ (stores_one_confirmed (db w) (db w')
      /\ get_conversation_state w' phone = new_session
      /\ List.length (outbox w') = S (List.length (outbox w))).
Proof. exact (turn_effect cfg e w phone msg). Qed.

(** X2: A turn of one party leaves the sessions of all other parties as they
    were. *)
Theorem turn_leaves_other_sessions (cfg : config) (e : env) (w : world)
    (phone msg other : string) :
  other <> phone ->
  conversation_states (snd (chat_with_agent cfg e w phone msg)) !! other
  = conversation_states w !! other.
Proof.
  intros Hne. unfold chat_with_agent.
  destruct (is_urgent msg); cbn [snd conversation_states];
    [by rewrite lookup_insert_ne |].
  destruct (extract_patient_info e msg _) as [c|]; cbn [snd conversation_states];
    [| by rewrite lookup_insert_ne].
  destruct (r_reply _); cbn [snd conversation_states];
    destruct (r_reset _); by rewrite lookup_insert_ne.
Qed.

Lemma turn_leaves_other_sessions_witness :
  conversation_states (snd (chat_with_agent default_config up both_offered ahmed "2:30 PM"))
    !! bilal
  = conversation_states both_offered !! bilal.
Proof.
  apply (turn_leaves_other_sessions default_config up both_offered ahmed "2:30 PM" bilal).
  vm_compute. discriminate.
Defined.

(** ** The first turn of a party *)

(** The two greetings of lines 151-155. *)
Definition GREETING_WARM : string :=
  "Hello! Welcome to our clinic. It's great to hear from you! 😊"
  ++ nl ++ nl ++ "How are you doing today?".
Definition GREETING_PLAIN : string :=
  "Hello! Welcome to our clinic. How are you doing today?".

(** X3: A party without a stored session whose utterance is not urgent is
    greeted, whatever the utterance says: the reply is one of the two
    greetings, the stage becomes small talk, the history holds the two
    messages, and nothing is stored or sent. *)
Theorem first_turn_greets (cfg : config) (e : env) (w : world) (phone msg : string) :
  conversation_states w !! phone = None ->
  is_urgent msg = false ->
  let turn := chat_with_agent cfg e w phone msg in
  let state' := get_conversation_state (snd turn) phone in
  (fst turn = GREETING_WARM \/ fst turn = GREETING_PLAIN)
  /\ ctx_stage (context_of state') = Some "small_talk"
  /\ messages state' = [user_says msg; assistant_says (fst turn)]
  /\ stores_nothing (db w) (db (snd turn))
  /\ outbox (snd turn) = outbox w.
Proof.
  intros Hnew Hurgent. cbv zeta. unfold chat_with_agent.
  assert (Hstate : get_conversation_state w phone = new_session)
    by (unfold get_conversation_state; rewrite Hnew; reflexivity).
  rewrite Hurgent, Hstate.
  destruct (extract_returns e msg (context_of new_session)) as [c Hc]. rewrite Hc.
  apply extract_keeps_control in Hc as (_ & Hstage & _).
  unfold generate_response. rewrite Hstage. cbn -[Py.any_in Py.lower save_conversation].
  destruct (Py.any_in greeting_words (Py.lower msg));
    cbn -[save_conversation]; rewrite state_after_insert; cbn -[save_conversation];
    rewrite app_nil_r;
    (split; [auto |]); (split; [reflexivity |]); (split; [reflexivity |]);
    (split; [apply save_conversation_tables | reflexivity]).
Qed.

Lemma first_turn_greets_witness :
  fst (chat_with_agent default_config up initial_world ahmed "2:30 PM tomorrow")
  = GREETING_PLAIN.
Proof.
  destruct (first_turn_greets default_config up initial_world ahmed "2:30 PM tomorrow")
    as ([H | H] & _); [reflexivity | reflexivity | | exact H].
  vm_compute in H. discriminate H.
Defined.

(** ** The extractor *)

(** [extract_patient_info] never raises: [int] is only ever applied to a
    capture of one to three digits. *)
Theorem extractor_never_raises (e : env) (msg : string) (c : context) :
  exists c', extract_patient_info e msg c = Returns c'.
Proof. apply extract_returns. Qed.

(** X4: A name, age, phone number or reason that is in the context is not
    replaced by the extractor, whatever the utterance. *)
Theorem collected_fields_are_kept (e : env) (msg : string) (c c' : context) (f : field) :
  In f [FName; FAge; FPhone; FReason] ->
  is_Some (get f c) ->
  extract_patient_info e msg c = Returns c' ->
  get f c' = get f c.
Proof.
  intros Hf Hset Hext.
  apply (first_write_wins_but_for_date e msg c c' f Hext); [| exact Hset].
  intros ->. cbn in Hf. intuition discriminate.
Qed.

Lemma collected_fields_are_kept_witness :
  exists c',
    extract_patient_info up "I am 99 years old, call 0311-7654321"
      (context_of (get_conversation_state slots_offered ahmed)) = Returns c'
    /\ get FAge c' = Some (VInt 35) /\ get FPhone c' = Some (VStr "03001234567").
Proof.
  destruct (extract_returns up "I am 99 years old, call 0311-7654321"
              (context_of (get_conversation_state slots_offered ahmed))) as [c' Hc'].
  exists c'. split; [exact Hc' |].
  pose proof (collected_fields_are_kept up "I am 99 years old, call 0311-7654321"
                (context_of (get_conversation_state slots_offered ahmed)) c') as Hkept.
  split.
  - rewrite (Hkept FAge); [vm_compute; reflexivity | cbn; auto | vm_compute; eauto | exact Hc'].
  - rewrite (Hkept FPhone); [vm_compute; reflexivity | cbn; auto | vm_compute; eauto | exact Hc'].
Defined.

(** ** Stored sessions *)

(** X5: Between turns, no session of a reachable world has a time recorded, and
    its stage is absent, small talk or booking: a parsed time never outlives
    the turn that parsed it. *)
Theorem stored_sessions_have_no_time (cfg : config) (w : world) (phone : string) :
  reachable cfg w ->
  ctx_time (context_of (get_conversation_state w phone)) = None
  /\ known_stage (context_of (get_conversation_state w phone)).
Proof.
  intros Hreach. exact (state_ok w phone (reachable_sessions_ok cfg w Hreach)).
Qed.

Lemma stored_sessions_have_no_time_witness :
  ctx_time (context_of (get_conversation_state both_booked ahmed)) = None.
Proof.
  apply (stored_sessions_have_no_time default_config both_booked ahmed).
  unfold both_booked, both_offered, slots_offered.
  repeat apply converse_reachable. apply rtc_refl.
Defined.

(** ** The booking tool *)

Lemma date_eqb_refl (a : date) : date_eqb a a = true.
Proof. by apply date_eqb_eq. Qed.

Lemma time_eqb_refl (a : time) : time_eqb a a = true.
Proof. by apply time_eqb_eq. Qed.

Lemma time_eqb_sym (a b : time) : time_eqb a b = time_eqb b a.
Proof. unfold time_eqb. by rewrite (Z.eqb_sym (t_hour a)), (Z.eqb_sym (t_minute a)). Qed.

(** A slot is taken exactly when its time is among the booked times of the
    day. *)
Lemma slot_taken_booked (d : database) (day : date) (t : time) :
  slot_taken d day t = existsb (time_eqb t) (booked_times d day).
Proof.
  unfold slot_taken, booked_times.
  induction (appointments d) as [|a l IH]; [reflexivity |].
  cbn [existsb List.filter]. rewrite IH.
  destruct (date_eqb (apt_date a) day), (is_active a); cbn [andb map existsb];
    rewrite ?andb_false_r, ?andb_true_r, ?orb_false_l; try reflexivity.
  by rewrite (time_eqb_sym t).
Qed.

Lemma find_patient_new (phone : string) (ps : list Patient) (p : Patient) :
  find_patient phone ps = None -> patient_phone p = phone ->
  find_patient phone (ps ++ [p])%list = Some p.
Proof.
  unfold find_patient. intros Hnone Hp.
  induction ps as [|q ps IH]; cbn in *.
  - by rewrite Hp, String.eqb_refl.
  - destruct (String.eqb (patient_phone q) phone); [discriminate | by apply IH].
Qed.

Lemma book_appointment_commit_case (e : env) (d : database) (name phone : string) (age : Z)
    (ds ts reason : string) (day : date) (t : time) :
  is_urgent reason = false ->
  strptime_date ds = Returns day -> strptime_time ts = Returns t ->
  db_up e = true -> slot_taken d day t = false ->
  let d' := snd (book_appointment e d name phone age ds ts reason) in
  exists p,
    appointments d'
    = (appointments d
         ++ [MkAppointment (next_id (appointments d)) (patient_id p) day t reason
               "confirmed"])%list
    /\ find_patient phone (patients d') = Some p
    /\ match find_patient phone (patients d) with
       | Some stored => p = stored /\ patients d' = patients d
       | None =>
           p = MkPatient (next_id (patients d)) name phone age
           /\ patients d' = (patients d ++ [p])%list
       end.
Proof.
  intros Hu Hd Ht Hup Hfree. cbv zeta. unfold book_appointment.
  rewrite Hu, Hd, Ht, Hup. unfold patient_for.
  destruct (find_patient phone (patients d)) as [p|] eqn:Hfind;
    rewrite Hfree; cbn [snd commit_appointment appointments patients].
  - exists p. auto.
  - eexists. split; [reflexivity |]. split; [| auto].
    by apply find_patient_new.
Qed.

(** X6: When the reason is not urgent, the date and the time parse, the database
    answers and no active appointment stands at the slot, [book_appointment]
    adds exactly one appointment: confirmed, at that date and time, with the
    reason as given, for the patient that has the phone number; the patient
    row is the stored one when the phone number is known, and a new one with
    the given name and age otherwise. *)
Theorem book_appointment_commits (e : env) (d : database) (name phone : string) (age : Z)
    (ds ts reason : string) (day : date) (t : time) :
  is_urgent reason = false ->
  strptime_date ds = Returns day -> strptime_time ts = Returns t ->
  db_up e = true -> slot_taken d day t = false ->
  let d' := snd (book_appointment e d name phone age ds ts reason) in
  exists p,
    appointments d'
    = (appointments d
         ++ [MkAppointment (next_id (appointments d)) (patient_id p) day t reason
               "confirmed"])%list
    /\ find_patient phone (patients d') = Some p
    /\ match find_patient phone (patients d) with
       | Some stored => p = stored /\ patients d' = patients d
       | None =>
           p = MkPatient (next_id (patients d)) name phone age
           /\ patients d' = (patients d ++ [p])%list
       end.
Proof. exact (book_appointment_commit_case e d name phone age ds ts reason day t). Qed.

Lemma book_appointment_commits_witness :
  exists p,
    appointments (snd (book_appointment up (db slots_offered) "Bilal Ahmed" bilal 40
                         "2026-11-04" "14:30" "checkup"))
    = [MkAppointment 1 (patient_id p) (MkDate 2026 11 4) (MkTime 14 30) "checkup"
         "confirmed"].
Proof.
  destruct (book_appointment_commits up (db slots_offered) "Bilal Ahmed" bilal 40
              "2026-11-04" "14:30" "checkup" (MkDate 2026 11 4) (MkTime 14 30))
    as (p & Happ & _); try (vm_compute; reflexivity).
  exists p. exact Happ.
Defined.

Lemma book_appointment_refusal_cases (e : env) (d : database) (name phone : string) (age : Z)
    (ds ts reason : string) :
  is_urgent reason = true
  \/ strptime_date ds = Raises ValueError \/ strptime_time ts = Raises ValueError
  \/ db_up e = false
  \/ (exists day t, strptime_date ds = Returns day /\ strptime_time ts = Returns t
                    /\ slot_taken d day t = true) ->
  snd (book_appointment e d name phone age ds ts reason) = d
  /\ ((exists day t, is_urgent reason = false /\ db_up e = true
                     /\ strptime_date ds = Returns day /\ strptime_time ts = Returns t
                     /\ slot_taken d day t = true) ->
      fst (book_appointment e d name phone age ds ts reason) = slot_taken_reply ts ds).
Proof.
  intros Hcase. unfold book_appointment. split.
  - destruct (is_urgent reason); [reflexivity |].
    destruct (strptime_date ds) as [day|]; [| reflexivity].
    destruct (strptime_time ts) as [t|]; [| reflexivity].
    destruct (db_up e); [| reflexivity].
    destruct (patient_for d name phone age) as [p ps].
    destruct (slot_taken d day t) eqn:Htaken; [reflexivity |].
    destruct Hcase as [H | [H | [H | [H | (day' & t' & [= <-] & [= <-] & H)]]]];
      congruence.
  - intros (day & t & -> & -> & -> & -> & ->).
    destruct (patient_for d name phone age) as [p ps]. reflexivity.
Qed.

(** X7: In every other case (urgent reason, a date or time that does not parse,
    a database that does not answer, a slot that is taken) the database is
    left exactly as it was; for a taken slot the reply is the slot-taken
    message. *)
Theorem book_appointment_refuses (e : env) (d : database) (name phone : string) (age : Z)
    (ds ts reason : string) :
  is_urgent reason = true
  \/ strptime_date ds = Raises ValueError \/ strptime_time ts = Raises ValueError
  \/ db_up e = false
  \/ (exists day t, strptime_date ds = Returns day /\ strptime_time ts = Returns t
                    /\ slot_taken d day t = true) ->
  snd (book_appointment e d name phone age ds ts reason) = d
  /\ ((exists day t, is_urgent reason = false /\ db_up e = true
                     /\ strptime_date ds = Returns day /\ strptime_time ts = Returns t
                     /\ slot_taken d day t = true) ->
      fst (book_appointment e d name phone age ds ts reason) = slot_taken_reply ts ds).
Proof. exact (book_appointment_refusal_cases e d name phone age ds ts reason). Qed.

Lemma book_appointment_refuses_witness :
  snd (book_appointment up (db both_booked) "Bilal Ahmed" bilal 40
         "2026-11-04" "14:30" "checkup") = db both_booked
  /\ fst (book_appointment up (db both_booked) "Bilal Ahmed" bilal 40
            "2026-11-04" "14:30" "checkup")
     = slot_taken_reply "14:30" "2026-11-04".
Proof.
  destruct (book_appointment_refuses up (db both_booked) "Bilal Ahmed" bilal 40
              "2026-11-04" "14:30" "checkup") as [H1 H2].
  - right. right. right. right. exists (MkDate 2026 11 4), (MkTime 14 30).
    repeat split; vm_compute; reflexivity.
  - split; [exact H1 |]. apply H2.
    exists (MkDate 2026 11 4), (MkTime 14 30). repeat split; vm_compute; reflexivity.
Defined.

(** X8: Of two calls of [book_appointment] for the same date and time, the first
    of which succeeds, the second is refused with the slot-taken reply and
    stores nothing, whoever the second party is. *)
Theorem second_booking_is_refused (e e2 : env) (d : database)
    (name phone : string) (age : Z) (name2 phone2 : string) (age2 : Z)
    (ds ts reason reason2 : string) (day : date) (t : time) :
  is_urgent reason = false -> is_urgent reason2 = false ->
  strptime_date ds = Returns day -> strptime_time ts = Returns t ->
  db_up e = true -> db_up e2 = true -> slot_taken d day t = false ->
  let d1 := snd (book_appointment e d name phone age ds ts reason) in
  let second := book_appointment e2 d1 name2 phone2 age2 ds ts reason2 in
  fst second = slot_taken_reply ts ds /\ snd second = d1.
Proof.
  intros Hu Hu2 Hd Ht Hup Hup2 Hfree. cbv zeta.
  destruct (book_appointment_commit_case e d name phone age ds ts reason day t
              Hu Hd Ht Hup Hfree) as (p & Happ & _).
  set (d1 := snd (book_appointment e d name phone age ds ts reason)) in *.
  assert (Htaken : slot_taken d1 day t = true).
  { unfold slot_taken. rewrite Happ, existsb_app. apply orb_true_iff. right.
    cbn. by rewrite date_eqb_refl, time_eqb_refl. }
  destruct (book_appointment_refusal_cases e2 d1 name2 phone2 age2 ds ts reason2) as [H1 H2].
  - right. right. right. right. eauto.
  - split; [apply H2; eauto 10 | exact H1].
Qed.

Lemma second_booking_is_refused_witness :
  let d1 := snd (book_appointment up empty_db "Ahmed Khan" ahmed 35
                   "2026-11-04" "14:30" "fever") in
  fst (book_appointment up d1 "Bilal Ahmed" bilal 40 "2026-11-04" "14:30" "checkup")
  = slot_taken_reply "14:30" "2026-11-04".
Proof.
  cbv zeta.
  apply (second_booking_is_refused up up empty_db "Ahmed Khan" ahmed 35
           "Bilal Ahmed" bilal 40 "2026-11-04" "14:30" "fever" "checkup"
           (MkDate 2026 11 4) (MkTime 14 30)); vm_compute; reflexivity.
Defined.

(** X9: A slot that [get_available_slots] has on offer can be booked with
    [book_appointment], and once booked it is no longer on offer. *)
Theorem offered_slot_can_be_booked_once (cfg : config) (e : env) (d : database)
    (name phone : string) (age : Z) (ds ts reason : string)
    (day : date) (t : time) (grid : list time) :
  In t (available grid (booked_times d day)) ->
  is_urgent reason = false ->
  strptime_date ds = Returns day -> strptime_time ts = Returns t ->
  db_up e = true ->
  let d' := snd (book_appointment e d name phone age ds ts reason) in
  List.length (appointments d') = S (List.length (appointments d))
  /\ ~ In t (available grid (booked_times d' day)).
Proof.
  intros Hoffer Hu Hd Ht Hup. cbv zeta.
  unfold available in Hoffer. apply List.filter_In in Hoffer as [_ Hfree].
  apply negb_true_iff in Hfree. rewrite <- slot_taken_booked in Hfree.
  destruct (book_appointment_commit_case e d name phone age ds ts reason day t
              Hu Hd Ht Hup Hfree) as (p & Happ & _).
  split; [rewrite Happ, length_app; cbn; lia |].
  unfold available. rewrite List.filter_In, negb_true_iff, <- slot_taken_booked.
  intros [_ Hfree']. unfold slot_taken in Hfree'.
  rewrite Happ, existsb_app in Hfree'. apply orb_false_iff in Hfree' as [_ Hnew].
  cbn in Hnew. by rewrite date_eqb_refl, time_eqb_refl in Hnew.
Qed.

Lemma offered_slot_can_be_booked_once_witness :
  ~ In (MkTime 14 30)
      (available (match generate_time_slots default_config with
                  | Returns grid => grid
                  | Raises _ => []
                  end)
         (booked_times (snd (book_appointment up empty_db "Ahmed Khan" ahmed 35
                               "2026-11-04" "14:30" "fever"))
            (MkDate 2026 11 4))).
Proof.
  apply (offered_slot_can_be_booked_once default_config up empty_db "Ahmed Khan" ahmed 35
           "2026-11-04" "14:30" "fever" (MkDate 2026 11 4) (MkTime 14 30)).
  - vm_compute. auto 20.
  - reflexivity.
  - vm_compute. reflexivity.
  - vm_compute. reflexivity.
  - reflexivity.
Defined.

(** ** Consistency of the tables *)

(** The phone numbers of the patients are distinct, the rows of both tables
    carry the ids 1, 2, ... in insertion order, and every appointment refers
    to a patient of the table. *)
Definition tables_ok (d : database) : Prop :=
  NoDup (map patient_phone (patients d))
  /\ (forall i p, patients d !! i = Some p -> patient_id p = Z.of_nat i + 1)
  /\ (forall i a, appointments d !! i = Some a -> apt_id a = Z.of_nat i + 1)
  /\ (forall a, In a (appointments d) ->
        exists p, In p (patients d) /\ patient_id p = apt_patient_id a).

Lemma empty_db_ok : tables_ok empty_db.
Proof.
  repeat split; cbn; try constructor; try (intros ? ? H; discriminate H).
  intros a [].
Qed.

Lemma find_patient_none (phone : string) (ps : list Patient) :
  find_patient phone ps = None -> ~ In phone (map patient_phone ps).
Proof.
  unfold find_patient. intros Hnone Hin.
  apply in_map_iff in Hin as (p & Hp & Hin).
  apply (List.find_none _ _ Hnone) in Hin. rewrite Hp, String.eqb_refl in Hin. discriminate.
Qed.

Lemma ids_snoc {A : Type} (ident : A -> Z) (l : list A) (x : A) :
  (forall i a, l !! i = Some a -> ident a = Z.of_nat i + 1) ->
  ident x = next_id l ->
  forall i a, (l ++ [x])%list !! i = Some a -> ident a = Z.of_nat i + 1.
Proof.
  intros Hl Hx i a Hi. apply lookup_app_Some in Hi as [Hi | [Hge Hi]].
  - by apply Hl.
  - apply list_lookup_singleton_Some in Hi as [Hi <-].
    rewrite Hx. unfold next_id. f_equal. lia.
Qed.

(** The patient row the booking uses, and the table with it, are
    consistent with the tables before. *)
Lemma commit_ok (d : database) (name phone : string) (age : Z)
    (day : date) (t : time) (reason : string) :
  tables_ok d ->
  tables_ok (commit_appointment d (snd (patient_for d name phone age))
               (fst (patient_for d name phone age)) day t reason).
Proof.
  intros (Hphones & Hpid & Haid & Hrefs).
  pose proof (patient_for_in d name phone age) as Hin.
  unfold tables_ok, commit_appointment. cbn [patients appointments].
  assert (Hsub : forall q, In q (patients d) -> In q (snd (patient_for d name phone age))).
  { intros q Hq. unfold patient_for. destruct (find_patient phone (patients d)); cbn;
      [exact Hq | apply in_or_app; by left]. }
  split; [| split; [| split]].
  - unfold patient_for. destruct (find_patient phone (patients d)) eqn:Hfind;
      cbn [snd]; [exact Hphones |].
    rewrite map_app. apply NoDup_app. split; [exact Hphones |]. split.
    + intros x Hx Hx'. cbn in Hx'. apply list_elem_of_In in Hx, Hx'.
      destruct Hx' as [<- | []]. by apply find_patient_none in Hfind.
    + cbn. apply NoDup_singleton.
  - unfold patient_for. destruct (find_patient phone (patients d));
      cbn [snd]; [exact Hpid |].
    by apply ids_snoc.
  - by apply ids_snoc.
  - intros a Ha. apply in_app_or in Ha as [Ha | [<- | []]].
    + destruct (Hrefs a Ha) as (p & Hp & Hid). exists p. auto.
    + exists (fst (patient_for d name phone age)). auto.
Qed.

Lemma inline_booking_ok (e : env) (phone : string) (c : context) (time_str : string)
    (d : database) :
  tables_ok d -> tables_ok (snd (inline_booking e phone c time_str d)).
Proof.
  intros Hd. unfold inline_booking.
  destruct (ctx_date c) as [ds|]; [| exact Hd].
  destruct (strptime_date ds) as [day|]; [| exact Hd].
  destruct (strptime_time time_str) as [t|]; [| exact Hd].
  destruct (db_up e); [| exact Hd].
  pose proof (commit_ok d (default "Unknown" (ctx_name c)) (default phone (ctx_phone c))
                (default 0 (ctx_age c)) day t
                (default "General consultation" (ctx_reason c)) Hd) as H.
  destruct (patient_for d _ _ _) as [p ps]. exact H.
Qed.

Lemma generate_response_ok (cfg : config) (e : env) (phone msg : string) (c : context)
    (history : list message) (d : database) :
  tables_ok d -> tables_ok (r_db (generate_response cfg e phone c msg history d)).
Proof.
  intros Hd.
  assert (Hsel : forall m, tables_ok (r_db (select_time e phone c m d))).
  { intros m. unfold select_time.
    destruct (parse_time m) as [ts|]; [| exact Hd].
    pose proof (inline_booking_ok e phone (set_time ts c) ts d Hd) as H.
    destruct (inline_booking e phone (set_time ts c) ts d) as [res d'].
    destruct (ctx_date (set_time ts c)); exact H. }
  assert (Hloop : forall ps r, time_loop e phone c msg d ps = Some r -> tables_ok (r_db r)).
  { induction ps as [|p ps IH]; cbn; [discriminate |]. intros r.
    destruct (Re.search p msg); [| apply IH].
    destruct (ctx_time c); [apply IH |]. intros [= <-]. apply Hsel. }
  assert (Htime : tables_ok (r_db (time_selection e phone c msg d))).
  { unfold time_selection.
    destruct (time_loop e phone c msg d time_patterns) as [r|] eqn:Hr; [by eapply Hloop |].
    split_matches; exact Hd. }
  unfold generate_response, booking_stage. split_matches; try exact Hd; exact Htime.
Qed.

Lemma tables_ok_same (d d' : database) :
  patients d' = patients d -> appointments d' = appointments d ->
  tables_ok d -> tables_ok d'.
Proof. unfold tables_ok. intros -> ->. auto. Qed.

Lemma save_conversation_ok (e : env) (d : database) (phone text : string) :
  tables_ok d -> tables_ok (save_conversation e d phone text).
Proof.
  destruct (save_conversation_tables e d phone text) as [Ha Hp].
  by apply tables_ok_same.
Qed.

Lemma chat_ok (cfg : config) (e : env) (w : world) (phone msg : string) :
  tables_ok (db w) -> tables_ok (db (snd (chat_with_agent cfg e w phone msg))).
Proof.
  intros Hd. unfold chat_with_agent.
  destruct (is_urgent msg); cbn [snd db]; [by apply save_conversation_ok |].
  destruct (extract_patient_info e msg _) as [c|]; cbn [snd db]; [| exact Hd].
  pose proof (generate_response_ok cfg e phone msg c
                (messages (get_conversation_state w phone) ++ [user_says msg])%list
                (db w) Hd) as Hr.
  destruct (r_reply _); cbn [snd db]; [by apply save_conversation_ok | exact Hr].
Qed.

Lemma book_appointment_ok (e : env) (d : database) (name phone : string) (age : Z)
    (ds ts reason : string) :
  tables_ok d -> tables_ok (snd (book_appointment e d name phone age ds ts reason)).
Proof.
  intros Hd. unfold book_appointment.
  destruct (is_urgent reason); [exact Hd |].
  destruct (strptime_date ds) as [day|]; [| exact Hd].
  destruct (strptime_time ts) as [t|]; [| exact Hd].
  destruct (db_up e); [| exact Hd].
  pose proof (commit_ok d name phone age day t reason Hd) as H.
  destruct (patient_for d name phone age) as [p ps].
  destruct (slot_taken d day t); [exact Hd | exact H].
Qed.

Lemma lookup_map {A B : Type} (f : A -> B) (l : list A) (i : nat) :
  map f l !! i = f <$> (l !! i).
Proof.
  revert i. induction l as [|a l IH]; intros [|i]; cbn; try reflexivity. apply IH.
Qed.

Lemma update_appointment_ok (d : database) (appointment_id : Z) (status : string) :
  tables_ok d -> tables_ok (Routes.update_appointment d appointment_id status).
Proof.
  intros (Hphones & Hpid & Haid & Hrefs).
  unfold tables_ok, Routes.update_appointment. cbn [patients appointments].
  split; [exact Hphones |]. split; [exact Hpid |]. split.
  - intros i a. rewrite lookup_map.
    destruct (appointments d !! i) as [b|] eqn:Hb; [| discriminate].
    cbn. intros [= <-]. specialize (Haid i b Hb).
    destruct (apt_id b =? appointment_id); exact Haid.
  - intros a Ha. apply in_map_iff in Ha as (b & <- & Hb).
    destruct (Hrefs b Hb) as (p & Hp & Hid). exists p.
    destruct (apt_id b =? appointment_id); auto.
Qed.

Lemma reachable_tables_ok (cfg : config) (w : world) :
  reachable cfg w -> tables_ok (db w).
Proof.
  unfold reachable. intros Hr.
  apply (rtc_ind_r (R := step cfg) (fun w => tables_ok (db w)) initial_world);
    [| | exact Hr].
  - apply empty_db_ok.
  - intros y z _ Hstep Hy. destruct Hstep; cbn [db].
    + by apply chat_ok.
    + by apply book_appointment_ok.
    + by apply update_appointment_ok.
Qed.

(** X11: In every reachable world the tables are consistent: no two patients
    share a phone number (the unique constraint of the column is never put to
    the test), ids count up from 1, and the patient of every appointment
    exists. *)
Theorem reachable_tables_are_consistent (cfg : config) (w : world) :
  reachable cfg w -> tables_ok (db w).
Proof. exact (reachable_tables_ok cfg w). Qed.

Lemma reachable_tables_are_consistent_witness :
  NoDup (map patient_phone (patients (db both_booked)))
  /\ map apt_patient_id (appointments (db both_booked)) = [1; 2].
Proof.
  destruct (reachable_tables_are_consistent default_config both_booked) as (H & _).
  - unfold both_booked, both_offered, slots_offered.
    repeat apply converse_reachable. apply rtc_refl.
  - split; [exact H | vm_compute; reflexivity].
Defined.

(** ** Status updates by the staff *)

(** The row with a new status. *)
Definition with_status (status : string) (a : Appointment) : Appointment :=
  MkAppointment (apt_id a) (apt_patient_id a) (apt_date a) (apt_time a) (apt_reason a) status.

(** X12: With consistent tables, a status update of the appointment in row [i]
    rewrites that row's status and nothing else: the other rows, the patients
    and the conversations are as before. *)
Theorem update_appointment_touches_one_row (d : database) (i : nat) (a : Appointment)
    (status : string) :
  tables_ok d -> appointments d !! i = Some a ->
  Routes.update_appointment d (apt_id a) status
  = MkDatabase (patients d) (<[i := with_status status a]> (appointments d))
      (conversations d).
Proof.
  intros (_ & _ & Haid & _) Ha. unfold Routes.update_appointment. f_equal.
  apply list_eq. intros j. rewrite lookup_map.
  destruct (decide (j = i)) as [-> | Hne].
  - rewrite Ha. cbn. rewrite Z.eqb_refl.
    rewrite list_lookup_insert_eq; [reflexivity |]. by eapply lookup_lt_Some.
  - rewrite list_lookup_insert_ne by auto.
    destruct (appointments d !! j) as [b|] eqn:Hb; cbn; [| reflexivity].
    rewrite (Haid j b Hb), (Haid i a Ha).
    destruct (Z.of_nat j + 1 =? Z.of_nat i + 1) eqn:Heq; [| reflexivity].
    apply Z.eqb_eq in Heq. lia.
Qed.

Lemma update_appointment_touches_one_row_witness :
  map apt_status (appointments (Routes.update_appointment (db both_booked) 2 "cancelled"))
  = ["confirmed"; "cancelled"].
Proof.
  assert (Hok : tables_ok (db both_booked)).
  { apply (reachable_tables_ok default_config).
    unfold both_booked, both_offered, slots_offered.
    repeat apply converse_reachable. apply rtc_refl. }
  assert (Hrow : exists a, appointments (db both_booked) !! 1%nat = Some a /\ apt_id a = 2)
    by (eexists; split; vm_compute; reflexivity).
  destruct Hrow as (a & Ha & Hid).
  pose proof (update_appointment_touches_one_row (db both_booked) 1 a "cancelled" Hok Ha) as H.
  rewrite Hid in H. rewrite H. cbn [appointments].
  vm_compute in Ha. injection Ha as <-. vm_compute. reflexivity.
Defined.

(** X13: An id that no appointment carries changes nothing. *)
Theorem update_appointment_unknown_id (d : database) (appointment_id : Z) (status : string) :
  (forall a, In a (appointments d) -> apt_id a <> appointment_id) ->
  Routes.update_appointment d appointment_id status = d.
Proof.
  intros Hnone. unfold Routes.update_appointment. destruct d as [ps apts cs]. cbn in *.
  f_equal. induction apts as [|a l IH]; cbn; [reflexivity |].
  destruct (apt_id a =? appointment_id) eqn:Heq.
  - apply Z.eqb_eq in Heq. exfalso. apply (Hnone a); [by left | exact Heq].
  - f_equal. apply IH. intros b Hb. apply Hnone. by right.
Qed.

Lemma update_appointment_unknown_id_witness :
  Routes.update_appointment (db both_booked) 7 "cancelled" = db both_booked.
Proof.
  apply (update_appointment_unknown_id (db both_booked) 7 "cancelled").
  intros a Ha. vm_compute in Ha. destruct Ha as [<- | [<- | []]]; discriminate.
Defined.




(** ** The dashboard's counts for today, [app/api/routes.py] *)

Module Dashboard.

(** [db.query(Appointment).filter(...).count()] *)
Definition count (keep : Appointment -> bool) (d : database) : Z :=
  Z.of_nat (List.length (List.filter keep (appointments d))).

(** [get_today_appointments]: the pair of [total_today] and [pending_today];
    a database that does not answer makes the route fail. *)
Definition get_today_appointments (e : env) (d : database) : outcome (Z * Z) :=
  if db_up e then
    Returns
      (count (fun a => date_eqb (apt_date a) (today e)) d,
       count (fun a => date_eqb (apt_date a) (today e)
                       && String.eqb (apt_status a) "pending") d)
  else Raises OperationalError.

End Dashboard.

Lemma count_snoc (keep : Appointment -> bool) (d d' : database) (a : Appointment) :
  appointments d' = (appointments d ++ [a])%list ->
  Dashboard.count keep d' = Dashboard.count keep d + (if keep a then 1 else 0).
Proof.
  intros H. unfold Dashboard.count. rewrite H, List.filter_app, length_app. cbn.
  destruct (keep a); cbn; lia.
Qed.

(** X15: The pending count of the dashboard never exceeds the total, and a turn
    of the agent leaves the pending count as it is and raises the total by
    at most one: what the agent books is confirmed, never pending. *)
Theorem turn_keeps_pending_count (cfg : config) (e e' : env) (w : world)
    (phone msg : string) (total pending : Z) :
  Dashboard.get_today_appointments e' (db w) = Returns (total, pending) ->
  exists total',
    Dashboard.get_today_appointments e' (db (snd (chat_with_agent cfg e w phone msg)))
    = Returns (total', pending)
    /\ 0 <= pending <= total /\ total <= total' <= total + 1.
Proof.
  unfold Dashboard.get_today_appointments.
  destruct (db_up e'); [| discriminate]. intros [= <- <-].
  assert (Hle : forall d,
    0 <= Dashboard.count (fun a => date_eqb (apt_date a) (today e')
                                   && String.eqb (apt_status a) "pending") d
      <= Dashboard.count (fun a => date_eqb (apt_date a) (today e')) d).
  { intros d. unfold Dashboard.count. split; [lia |].
    induction (appointments d) as [|a l IH]; cbn; [lia |].
    destruct (date_eqb (apt_date a) (today e')); cbn; [| exact IH].
    destruct (String.eqb (apt_status a) "pending"); cbn; lia. }
  set (d' := db (snd (chat_with_agent cfg e w phone msg))).
  assert (Hcounts :
    Dashboard.count (fun a => date_eqb (apt_date a) (today e')
                              && String.eqb (apt_status a) "pending") d'
    = Dashboard.count (fun a => date_eqb (apt_date a) (today e')
                                && String.eqb (apt_status a) "pending") (db w)
    /\ Dashboard.count (fun a => date_eqb (apt_date a) (today e')) (db w)
       <= Dashboard.count (fun a => date_eqb (apt_date a) (today e')) d'
       <= Dashboard.count (fun a => date_eqb (apt_date a) (today e')) (db w) + 1).
  { destruct (turn_effect cfg e w phone msg)
      as [[Happ _] | ((a & p & Happ & Hconf & _) & _)]; fold d' in Happ.
    - unfold Dashboard.count. rewrite !Happ. lia.
    - rewrite !(count_snoc _ (db w) d' a Happ), Hconf. cbn [String.eqb Ascii.eqb].
      rewrite andb_false_r. destruct (date_eqb (apt_date a) (today e')); lia. }
  destruct Hcounts as [Hpending Htotal].
  eexists. split; [rewrite Hpending; reflexivity |]. split; [apply Hle | exact Htotal].
Qed.

Lemma turn_keeps_pending_count_witness :
  exists total',
    Dashboard.get_today_appointments (MkEnv (MkDate 2026 11 4) true)
      (db (snd (chat_with_agent default_config up slots_offered ahmed "2:30 PM")))
    = Returns (total', 0)
    /\ 0 <= total' <= 1.
Proof.
  destruct (turn_keeps_pending_count default_config up (MkEnv (MkDate 2026 11 4) true)
              slots_offered ahmed "2:30 PM" 0 0) as (total' & Heq & _ & Hle);
    [vm_compute; reflexivity |].
  exists total'. split; [exact Heq | lia].
Defined.

(** ** The slot grid *)

(** Minutes since midnight. *)
Definition minute_of_day (t : time) : Z := 60 * t_hour t + t_minute t.

Section GridShape.
Variable cfg : config.

(** A slot of the loop started at [hour:minute]. *)
Definition grid_slot (hour minute : Z) (t : time) : Prop :=
  60 * hour + minute <= minute_of_day t
  /\ t_hour t < CLINIC_END_HOUR cfg
  /\ 0 <= t_hour t <= 23
  /\ 0 <= t_minute t < 60
  /\ (Z.pos (SLOT_DURATION_MINUTES cfg) | t_minute t).

Lemma slots_loop_shape (fuel : nat) :
  forall hour minute slots,
    0 <= minute < 60 -> (Z.pos (SLOT_DURATION_MINUTES cfg) | minute) ->
    slots_loop cfg fuel hour minute = Returns slots ->
    Forall (grid_slot hour minute) slots
    /\ StronglySorted (fun a b => minute_of_day a < minute_of_day b) slots.
Proof.
  induction fuel as [|fuel IH]; intros hour minute slots Hmin Hdiv; cbn [slots_loop].
  - intros [= <-]. split; constructor.
  - destruct (hour <? CLINIC_END_HOUR cfg) eqn:Hlt;
      [| intros [= <-]; split; constructor].
    apply Z.ltb_lt in Hlt.
    unfold mk_time.
    destruct ((0 <=? hour) && (hour <=? 23) && (0 <=? minute) && (minute <=? 59)) eqn:Hvalid;
      [| discriminate].
    apply andb_true_iff in Hvalid as [Hvalid _].
    apply andb_true_iff in Hvalid as [Hvalid _].
    apply andb_true_iff in Hvalid as [H0 H23].
    apply Z.leb_le in H0, H23.
    pose proof (Pos2Z.is_pos (SLOT_DURATION_MINUTES cfg)) as Hdur.
    set (next := if minute + Z.pos (SLOT_DURATION_MINUTES cfg) >=? 60
                 then slots_loop cfg fuel (hour + 1) 0
                 else slots_loop cfg fuel hour (minute + Z.pos (SLOT_DURATION_MINUTES cfg))).
    destruct next as [rest|] eqn:Hnext; [| discriminate]. intros [= <-].
    assert (Hrest : Forall (fun t => 60 * hour + minute < minute_of_day t
                                     /\ grid_slot hour minute t) rest
                    /\ StronglySorted (fun a b => minute_of_day a < minute_of_day b) rest).
    { subst next.
      destruct (minute + Z.pos (SLOT_DURATION_MINUTES cfg) >=? 60) eqn:Hwrap.
      - apply IH in Hnext as [Hall Hsorted]; [| lia | apply Z.divide_0_r].
        split; [| exact Hsorted].
        eapply List.Forall_impl; [| exact Hall]. unfold grid_slot, minute_of_day.
        intros t (H1 & H2 & H3 & H4 & H5). repeat split; try lia; exact H5.
      - rewrite Z.geb_leb in Hwrap. apply Z.leb_gt in Hwrap.
        apply IH in Hnext as [Hall Hsorted];
          [| lia | apply Z.divide_add_r; [exact Hdiv | apply Z.divide_refl]].
        split; [| exact Hsorted].
        eapply List.Forall_impl; [| exact Hall]. unfold grid_slot, minute_of_day.
        intros t (H1 & H2 & H3 & H4 & H5). repeat split; try lia; exact H5. }
    destruct Hrest as [Hall Hsorted]. split.
    + constructor.
      * unfold grid_slot, minute_of_day. cbn. repeat split; try lia. exact Hdiv.
      * eapply List.Forall_impl; [| exact Hall]. cbn. tauto.
    + constructor; [exact Hsorted |].
      eapply List.Forall_impl; [| exact Hall]. unfold minute_of_day at 1. cbn. tauto.
Qed.

(** X16: The slots of the grid lie within the opening hours, on multiples of the
    slot duration within the hour, in strictly increasing order (so no slot
    occurs twice). *)
Theorem time_slots_are_ordered_within_hours (grid : list time) :
  generate_time_slots cfg = Returns grid ->
  Forall (fun t => CLINIC_START_HOUR cfg <= t_hour t < CLINIC_END_HOUR cfg
                   /\ 0 <= t_minute t < 60
                   /\ (Z.pos (SLOT_DURATION_MINUTES cfg) | t_minute t)) grid
  /\ StronglySorted (fun a b => minute_of_day a < minute_of_day b) grid
  /\ NoDup grid.
Proof.
  unfold generate_time_slots. intros Hgrid.
  apply slots_loop_shape in Hgrid as [Hall Hsorted]; [| lia | apply Z.divide_0_r].
  split; [| split; [exact Hsorted |]].
  - eapply List.Forall_impl; [| exact Hall]. unfold grid_slot, minute_of_day.
    intros t (H1 & H2 & H3 & H4 & H5). repeat split; try lia; exact H5.
  - clear Hall. induction Hsorted as [|a l Hsorted IH Hlt]; constructor; [| exact IH].
    intros Hin. apply list_elem_of_In in Hin.
    rewrite List.Forall_forall in Hlt. specialize (Hlt a Hin). lia.
Qed.




End GridShape.

Lemma time_slots_are_ordered_within_hours_witness :
  exists grid,
    generate_time_slots default_config = Returns grid
    /\ NoDup grid /\ List.length grid = 20%nat.
Proof.
  eexists. split; [vm_compute; reflexivity |]. split; [| reflexivity].
  eapply (time_slots_are_ordered_within_hours default_config). vm_compute. reflexivity.
Defined.

(** ** The slot loop for any settings *)







(** ** The urgency gate *)

Lemma lower_app (a b : string) : Py.lower (a ++ b) = Py.lower a ++ Py.lower b.
Proof.
  induction a as [|c a IH]; [reflexivity |].
  rewrite append_cons. cbn [Py.lower]. rewrite append_cons. by rewrite IH.
Qed.

Lemma prefix_app (k s : string) : String.prefix k (k ++ s) = true.
Proof. apply prefix_correct, substring_prefix. Qed.

Lemma contains_prefix (k s : string) : String.prefix k s = true -> Py.contains k s = true.
Proof. intros H. destruct s; cbn [Py.contains]; rewrite H; reflexivity. Qed.

Lemma contains_app (k pre post : string) : Py.contains k (pre ++ (k ++ post)) = true.
Proof.
  induction pre as [|c pre IH].
  - rewrite append_nil. apply contains_prefix, prefix_app.
  - rewrite append_cons. cbn [Py.contains]. rewrite IH. apply orb_true_r.
Qed.

(** X18: An urgency keyword anywhere in the text, in any letter case, makes the
    text urgent. *)
Theorem urgency_keyword_anywhere (keyword written pre post : string) :
  In keyword URGENCY_KEYWORDS -> Py.lower written = keyword ->
  is_urgent (pre ++ (written ++ post)) = true.
Proof.
  intros Hin Hlower. unfold is_urgent, Py.any_in.
  apply existsb_exists. exists keyword. split; [exact Hin |].
  rewrite !lower_app, Hlower. apply contains_app.
Qed.

Lemma urgency_keyword_anywhere_witness :
  is_urgent "My father has CHEST Pain since morning" = true.
Proof.
  apply (urgency_keyword_anywhere "chest pain" "CHEST Pain" "My father has "
           " since morning"); [cbn; auto | reflexivity].
Defined.

(** ** The written time and [strptime] *)

(** Whether [strptime] reads [HH:MM] back as it should: as the time of day
    when there is one, as an error otherwise. *)
Definition reads_back (h m : Z) : bool :=
  match strptime_time (clock h m) with
  | Returns t => (h <=? 23) && (m <=? 59) && time_eqb t (MkTime h m)
  | Raises ValueError => negb ((h <=? 23) && (m <=? 59))
  | Raises _ => false
  end.

Lemma reads_back_all :
  forallb (fun h => forallb (reads_back h) (seqZ 0 100)) (seqZ 0 100) = true.
Proof. vm_compute. reflexivity. Qed.

Lemma clock_reads_back (h m : Z) :
  0 <= h <= 99 -> 0 <= m <= 99 ->
  strptime_time (clock h m)
  = if (h <=? 23) && (m <=? 59) then Returns (MkTime h m) else Raises ValueError.
Proof.
  intros Hh Hm. pose proof reads_back_all as Hall.
  rewrite forallb_forall in Hall.
  assert (Hin : forall x, 0 <= x <= 99 -> In x (seqZ 0 100)).
  { intros x Hx. apply list_elem_of_In, elem_of_seqZ. lia. }
  specialize (Hall h (Hin h Hh)). rewrite forallb_forall in Hall.
  specialize (Hall m (Hin m Hm)). unfold reads_back in Hall.
  destruct (strptime_time (clock h m)) as [t | ex].
  - apply andb_true_iff in Hall as [Hvalid Heq]. rewrite Hvalid.
    apply time_eqb_eq in Heq as ->. reflexivity.
  - destruct ex; try discriminate. apply negb_true_iff in Hall. by rewrite Hall.
Qed.

(** X19: The text [HH:MM] that the slot-selection step writes for an hour and
    minutes of at most two digits is read back by [strptime] as that time of
    day when the hour is at most 23 and the minutes at most 59, and raises
    [ValueError] otherwise. *)
Theorem written_clock_reads_back (h m : Z) :
  0 <= h <= 99 -> 0 <= m <= 99 ->
  strptime_time (clock h m)
  = if (h <=? 23) && (m <=? 59) then Returns (MkTime h m) else Raises ValueError.
Proof. exact (clock_reads_back h m). Qed.

Lemma written_clock_reads_back_witness :
  strptime_time (clock 14 30) = Returns (MkTime 14 30)
  /\ strptime_time (clock 25 0) = Raises ValueError.
Proof.
  split.
  - apply (written_clock_reads_back 14 30); lia.
  - apply (written_clock_reads_back 25 0); lia.
Defined.

Lemma digit_val_bounds (a : ascii) : Py.is_digit a = true -> 0 <= Py.digit_val a <= 9.
Proof.
  unfold Py.is_digit, Py.between, Py.digit_val.
  rewrite andb_true_iff, !Nat.leb_le. lia.
Qed.

Lemma number_two_digits (w : string) :
  all_of Py.is_digit w = true -> (String.length w <= 2)%nat -> 0 <= number 0 w <= 99.
Proof.
  intros Hall Hlen. destruct w as [|a [|b [|]]]; cbn in Hlen; try lia; cbn in *.
  - lia.
  - rewrite andb_true_r in Hall. pose proof (digit_val_bounds a Hall). lia.
  - rewrite andb_true_r in Hall. apply andb_true_iff in Hall as [Ha Hb].
    pose proof (digit_val_bounds a Ha). pose proof (digit_val_bounds b Hb). lia.
Qed.

Lemma expression_bounds (te : time_expression) :
  well_formed te ->
  0 <= hour_on_24h_clock te <= 99 /\ 0 <= minutes_of te <= 99.
Proof.
  intros (Hh & Hlen & Hmm & _ & _). split.
  - pose proof (number_two_digits (te_hour te) Hh ltac:(lia)) as Hb.
    unfold hour_on_24h_clock. cbv zeta.
    destruct (te_meridiem te) as [mk|]; [| exact Hb].
    destruct (is_pm mk); [destruct (_ <? 12) eqn:H12; [apply Z.ltb_lt in H12 |]; lia |].
    destruct (is_am mk); [destruct (_ =? 12); lia | exact Hb].
  - unfold minutes_of. destruct (te_minutes te) as [mm|]; [| lia].
    destruct (Hmm mm eq_refl) as [Hd Hl]. apply number_two_digits; [exact Hd | lia].
Qed.

Lemma time_selection_of_expression (pre tail : string) (te : time_expression)
    (e : env) (phone : string) (c : context) (d : database) (ds : string) (day : date) :
  Py.has_digit pre = false -> well_formed te -> delimited te tail ->
  ctx_time c = None -> ctx_date c = Some ds -> strptime_date ds = Returns day ->
  db_up e = true ->
  let r := time_selection e phone c (pre ++ written te tail) d in
  let t := MkTime (hour_on_24h_clock te) (minutes_of te) in
  r_reset r = true
  /\ if (hour_on_24h_clock te <=? 23) && (minutes_of te <=? 59)
     then exists p,
            appointments (r_db r)
            = (appointments d
                 ++ [MkAppointment (next_id (appointments d)) (patient_id p) day t
                       (default "General consultation" (ctx_reason c)) "confirmed"])%list
            /\ find_patient (default phone (ctx_phone c)) (patients (r_db r)) = Some p
            /\ r_reply r
               = Returns (goodbye (booked_reply (default "None" (ctx_name c))
                                     (default phone (ctx_phone c)) day t))
     else r_db r = d /\ r_reply r = Returns (goodbye INLINE_BOOKING_ERROR).
Proof.
  intros Hpre Hwf Hdel Htime Hdate Hday Hup. cbv zeta.
  destruct (search_skips_non_digits pre (written te tail) Hpre 0%nat None)
    as (pos & prev & Hskip).
  destruct (time_pattern_captures te tail pos prev Hwf Hdel) as (whole & pos' & Hm).
  apply search_go_hit in Hm.
  pose proof (parse_time_of_expression te whole pos' Hwf) as Hparse.
  destruct (expression_bounds te Hwf) as [Hh Hmin].
  pose proof (clock_reads_back _ _ Hh Hmin) as Hread.
  unfold time_selection.
  change time_patterns with [time_pattern_1; Re.seq [Re.Grp 1 (Re.times Re.digit 1 2);
                                                     Re.star Re.space; Re.Grp 2 meridiems]].
  cbn [time_loop]. unfold Re.search. rewrite Hskip, Hm, Htime.
  unfold select_time. rewrite Hparse.
  unfold inline_booking. cbn [ctx_date ctx_name ctx_phone ctx_age ctx_reason set_time].
  rewrite Hdate, Hday, Hread, Hup.
  destruct ((hour_on_24h_clock te <=? 23) && (minutes_of te <=? 59)).
  - unfold patient_for.
    destruct (find_patient (default phone (ctx_phone c)) (patients d)) as [p|] eqn:Hfind;
      cbn [r_reset r_db r_reply commit_appointment appointments patients].
    + split; [reflexivity |]. exists p. auto.
    + split; [reflexivity |]. eexists. split; [reflexivity |].
      split; [by apply find_patient_new | reflexivity].
  - cbn. auto.
Qed.

(** X20: The slot-selection step on an utterance of ASCII characters that
    reads as a time expression from its first digit on, for a context with
    no time recorded and a date that parses, while the database answers.  When the expression denotes a time of day (hour at most 23,
    minutes at most 59), one confirmed appointment is stored at the date of
    the context and at exactly that time, with the reason of the context,
    and the reply is the confirmation.  Otherwise nothing is stored and the
    reply carries the booking error.  Either way the session is replaced. *)
Theorem written_time_is_the_booked_time (pre tail : string) (te : time_expression)
    (e : env) (phone : string) (c : context) (d : database) (ds : string) (day : date) :
  Py.isascii (pre ++ written te tail) = true ->
  Py.has_digit pre = false -> well_formed te -> delimited te tail ->
  ctx_time c = None -> ctx_date c = Some ds -> strptime_date ds = Returns day ->
  db_up e = true ->
  let r := time_selection e phone c (pre ++ written te tail) d in
  let t := MkTime (hour_on_24h_clock te) (minutes_of te) in
  r_reset r = true
  /\ if (hour_on_24h_clock te <=? 23) && (minutes_of te <=? 59)
     then exists p,
            appointments (r_db r)
            = (appointments d
                 ++ [MkAppointment (next_id (appointments d)) (patient_id p) day t
                       (default "General consultation" (ctx_reason c)) "confirmed"])%list
            /\ find_patient (default phone (ctx_phone c)) (patients (r_db r)) = Some p
            /\ r_reply r
               = Returns (goodbye (booked_reply (default "None" (ctx_name c))
                                     (default phone (ctx_phone c)) day t))
     else r_db r = d /\ r_reply r = Returns (goodbye INLINE_BOOKING_ERROR).
Proof. intros _. exact (time_selection_of_expression pre tail te e phone c d ds day). Qed.

Lemma written_time_is_the_booked_time_witness :
  exists p,
    appointments
      (r_db (time_selection up ahmed
               (context_of (get_conversation_state slots_offered ahmed))
               "at 2:30 PM please" (db slots_offered)))
    = [MkAppointment 1 (patient_id p) (MkDate 2026 11 4) (MkTime 14 30)
         "Fever and headache for 3 days" "confirmed"].
Proof.
  pose proof (written_time_is_the_booked_time "at " " please"
                (MkTimeExpression "2" true (Some "30") " " (Some "PM")) up ahmed
                (context_of (get_conversation_state slots_offered ahmed))
                (db slots_offered) "2026-11-04" (MkDate 2026 11 4)) as H.
  destruct H as (_ & p & Happ & _).
  - reflexivity.
  - reflexivity.
  - unfold well_formed. cbn.
    split; [reflexivity |]. split; [lia |]. split; [| split; [reflexivity |]].
    + intros ? [= <-]. split; reflexivity.
    + intros ? [= <-]. auto.
  - unfold delimited. cbn. repeat split; discriminate.
  - vm_compute. reflexivity.
  - vm_compute. reflexivity.
  - vm_compute. reflexivity.
  - reflexivity.
  - exists p. exact Happ.
Defined.

(** ** The written date and [strptime] *)

Lemma digit_char_digit (k : Z) :
  0 <= k <= 9 ->
  Py.is_digit (Py.digit_char k) = true /\ Py.digit_val (Py.digit_char k) = k.
Proof.
  intros Hk.
  assert (H : k = 0 \/ k = 1 \/ k = 2 \/ k = 3 \/ k = 4 \/ k = 5 \/ k = 6 \/ k = 7
              \/ k = 8 \/ k = 9) by lia.
  repeat (destruct H as [-> | H]; [split; reflexivity |]). subst. split; reflexivity.
Qed.

(** [str] of a number of four digits: its thousands, hundreds, tens and
    units. *)
Lemma str_four_digits (y : Z) :
  1000 <= y <= 9999 ->
  Py.zfill 4 y
  = String (Py.digit_char (y / 1000))
      (String (Py.digit_char (y / 100 mod 10))
         (String (Py.digit_char (y / 10 mod 10))
            (String (Py.digit_char (y mod 10)) EmptyString))).
Proof.
  intros Hy.
  assert (Hlog : 9 <= Z.log2 y).
  { change 9 with (Z.log2 512). apply Z.log2_le_mono. lia. }
  assert (Hstr : Py.str_nat y
                 = String (Py.digit_char (y / 1000))
                     (String (Py.digit_char (y / 100 mod 10))
                        (String (Py.digit_char (y / 10 mod 10))
                           (String (Py.digit_char (y mod 10)) EmptyString)))).
  { unfold Py.str_nat.
    destruct (Z.to_nat (Z.log2 y)) as [|[|[|fuel]]] eqn:Hfuel; try lia.
    cbn [Py.digits_go].
    replace (y <? 10) with false by (symmetry; apply Z.ltb_ge; lia).
    replace (y / 10 <? 10) with false
      by (symmetry; apply Z.ltb_ge; Z.div_mod_to_equations; lia).
    replace (y / 10 / 10 <? 10) with false
      by (symmetry; apply Z.ltb_ge; Z.div_mod_to_equations; lia).
    replace (y / 10 / 10 / 10 <? 10) with true
      by (symmetry; apply Z.ltb_lt; Z.div_mod_to_equations; lia).
    replace (y / 10 / 10 / 10 mod 10) with (y / 1000) by (Z.div_mod_to_equations; lia).
    replace (y / 10 / 10 mod 10) with (y / 100 mod 10) by (Z.div_mod_to_equations; lia).
    reflexivity. }
  unfold Py.zfill. rewrite Hstr. reflexivity.
Qed.

Lemma year_text (y : Z) :
  1000 <= y <= 9999 ->
  exists a b c d,
    Py.zfill 4 y = String a (String b (String c (String d EmptyString)))
    /\ Py.is_digit a = true /\ Py.is_digit b = true
    /\ Py.is_digit c = true /\ Py.is_digit d = true
    /\ number 0 (Py.zfill 4 y) = y.
Proof.
  intros Hy. rewrite (str_four_digits y Hy).
  destruct (digit_char_digit (y / 1000)) as [Ha Va]; [Z.div_mod_to_equations; lia |].
  destruct (digit_char_digit (y / 100 mod 10)) as [Hb Vb]; [Z.div_mod_to_equations; lia |].
  destruct (digit_char_digit (y / 10 mod 10)) as [Hc Vc]; [Z.div_mod_to_equations; lia |].
  destruct (digit_char_digit (y mod 10)) as [Hd Vd]; [Z.div_mod_to_equations; lia |].
  eexists _, _, _, _. split; [reflexivity |].
  repeat (split; [assumption |]).
  cbn [number]. rewrite Va, Vb, Vc, Vd. Z.div_mod_to_equations. lia.
Qed.

(** The expression [_strptime] builds for ["%Y-%m-%d"]. *)
Definition iso_pattern : Re.regex :=
  Re.seq [Re.Grp 1 re_Y; Re.chr "-"; Re.Grp 2 re_m; Re.chr "-"; Re.Grp 3 re_d].

Lemma year_group {A : Type} (a b c d : ascii) (rest : string) (g : Re.caps)
    (k : Re.cont (A := A)) :
  Py.is_digit a = true -> Py.is_digit b = true ->
  Py.is_digit c = true -> Py.is_digit d = true ->
  Re.rmatch (Re.Grp 1 re_Y)
    (Re.Cursor 0 None (String a (String b (String c (String d rest))))) g k
  = k (Re.Cursor 4 (Some d) rest)
      ((1%nat, String a (String b (String c (String d EmptyString)))) :: g).
Proof.
  intros Ha Hb Hc Hd. unfold re_Y, Re.digit. cbn. rewrite Ha. cbn. rewrite Hb. cbn.
  rewrite Hc. cbn. rewrite Hd. cbn. rewrite ?substring_0_0. reflexivity.
Qed.

Lemma rmatch_grp {A : Type} (i : nat) (r : Re.regex) (c : Re.cursor) (g : Re.caps)
    (k : Re.cont (A := A)) :
  Re.rmatch (Re.Grp i r) c g k
  = Re.rmatch r c g (fun c' g' =>
      k c' ((i, substring 0 (Re.c_pos c' - Re.c_pos c) (Re.c_rest c)) :: g')).
Proof. reflexivity. Qed.

(** What is left of [_strptime] on ["%Y-%m-%d"] once the year is read. *)
Definition iso_rest (a b c d : ascii) (rest : string) : outcome Re.match_obj :=
  let s := String a (String b (String c (String d rest))) in
  match
    Re.rmatch (Re.seq [Re.chr "-"; Re.Grp 2 re_m; Re.chr "-"; Re.Grp 3 re_d])
      (Re.Cursor 4 (Some d) rest)
      [(1%nat, String a (String b (String c (String d EmptyString))))]
      (fun c' g' =>
         Some (Re.MatchObj ((0%nat, substring 0 (Re.c_pos c' - 0) s) :: g') (Re.c_pos c')))
  with
  | Some m0 =>
      if (Re.m_end m0 =? String.length s)%nat then Returns m0 else Raises ValueError
  | None => Raises ValueError
  end.

Lemma strptime_groups_year (a b c d : ascii) (rest : string) :
  Py.is_digit a = true -> Py.is_digit b = true ->
  Py.is_digit c = true -> Py.is_digit d = true ->
  strptime_groups iso_pattern (String a (String b (String c (String d rest))))
  = iso_rest a b c d rest.
Proof.
  intros Ha Hb Hc Hd.
  unfold strptime_groups, Re.match_start, Re.match_at, iso_pattern.
  change (Re.seq [Re.Grp 1 re_Y; Re.chr "-"; Re.Grp 2 re_m; Re.chr "-"; Re.Grp 3 re_d])
    with (Re.Cat (Re.Grp 1 re_Y)
            (Re.seq [Re.chr "-"; Re.Grp 2 re_m; Re.chr "-"; Re.Grp 3 re_d])).
  rewrite (rmatch_grp 0), rmatch_cat.
  rewrite (year_group a b c d _ _ _ Ha Hb Hc Hd).
  reflexivity.
Qed.

(** The three groups of a match, as texts. *)
Definition fields (o : outcome Re.match_obj) : list (option string) :=
  match o with
  | Returns m => [Re.group m 1; Re.group m 2; Re.group m 3]
  | Raises _ => []
  end.

Definition month_days : list (Z * Z) := list_prod (seqZ 1 12) (seqZ 1 31).

Definition iso_tail (p : Z * Z) : string :=
  "-" ++ (Py.zfill 2 (fst p) ++ ("-" ++ Py.zfill 2 (snd p))).

Lemma iso_rest_table (a b c d : ascii) :
  map (fun p => fields (iso_rest a b c d (iso_tail p))) month_days
  = map (fun p => [Some (String a (String b (String c (String d EmptyString))));
                   Some (Py.zfill 2 (fst p)); Some (Py.zfill 2 (snd p))]) month_days.
Proof. vm_compute. reflexivity. Qed.

Lemma int_zfill_table :
  forallb (fun n => match Py.int (Py.zfill 2 n) with
                    | Returns k => k =? n
                    | Raises _ => false
                    end) (seqZ 1 31) = true.
Proof. vm_compute. reflexivity. Qed.

Lemma int_zfill (n : Z) : 1 <= n <= 31 -> Py.int (Py.zfill 2 n) = Returns n.
Proof.
  intros Hn. pose proof int_zfill_table as Hall. rewrite forallb_forall in Hall.
  assert (Hin : In n (seqZ 1 31)) by (apply list_elem_of_In, elem_of_seqZ; lia).
  specialize (Hall n Hin). destruct (Py.int (Py.zfill 2 n)) as [k|]; [| discriminate].
  apply Z.eqb_eq in Hall. by subst.
Qed.

(** [strptime] reads a four-digit year, a two-digit month and a two-digit
    day as the date, provided the calendar has it. *)
Lemma strptime_iso_text (a b c d : ascii) (m dd : Z) :
  Py.is_digit a = true -> Py.is_digit b = true ->
  Py.is_digit c = true -> Py.is_digit d = true ->
  1 <= m <= 12 -> 1 <= dd <= 31 ->
  strptime_date
    (String a (String b (String c (String d
       ("-" ++ (Py.zfill 2 m ++ ("-" ++ Py.zfill 2 dd)))))))
  = mk_date (number 0 (String a (String b (String c (String d EmptyString))))) m dd.
Proof.
  intros Ha Hb Hc Hd Hm Hdd.
  assert (Hyear : Py.int (String a (String b (String c (String d EmptyString))))
                  = Returns (number 0 (String a (String b (String c (String d EmptyString)))))).
  { apply int_number; [cbn; by rewrite Ha, Hb, Hc, Hd | cbn; lia]. }
  unfold strptime_date. fold iso_pattern.
  change ("-" ++ (Py.zfill 2 m ++ ("-" ++ Py.zfill 2 dd))) with (iso_tail (m, dd)).
  rewrite strptime_groups_year by assumption.
  pose proof (iso_rest_table a b c d) as Htable.
  rewrite map_ext_in_iff in Htable.
  assert (Hin : In (m, dd) month_days).
  { apply in_prod; apply list_elem_of_In, elem_of_seqZ; lia. }
  specialize (Htable _ Hin). cbn [fst snd] in Htable.
  destruct (iso_rest a b c d (iso_tail (m, dd))) as [mo|e]; [| discriminate].
  cbn [fields] in Htable. injection Htable as H1 H2 H3.
  unfold group_int. rewrite H1, H2, H3, Hyear.
  rewrite (int_zfill m), (int_zfill dd) by lia. reflexivity.
Qed.

(** A date of the calendar, as [date(y, m, d)] accepts it. *)
Definition valid_date (d : date) : Prop :=
  mk_date (d_year d) (d_month d) (d_day d) = Returns d.

Lemma valid_date_bounds (d : date) :
  valid_date d ->
  1 <= d_year d <= 9999 /\ 1 <= d_month d <= 12
  /\ 1 <= d_day d <= days_in_month (d_year d) (d_month d).
Proof.
  unfold valid_date, mk_date. intros H.
  destruct (_ && _) eqn:E in H; [| discriminate].
  repeat (apply andb_true_iff in E as [E ?]). lia.
Qed.

Lemma valid_date_intro (y m d : Z) :
  1 <= y <= 9999 -> 1 <= m <= 12 -> 1 <= d <= days_in_month y m ->
  valid_date (MkDate y m d).
Proof.
  intros Hy Hm Hd. unfold valid_date, mk_date. cbn [d_year d_month d_day].
  replace (_ && _) with true; [reflexivity |].
  symmetry. repeat (apply andb_true_iff; split); lia.
Qed.

Lemma days_in_month_bounds (y m : Z) : 28 <= days_in_month y m <= 31.
Proof.
  unfold days_in_month.
  destruct (m =? 2); [destruct (is_leap y); lia |].
  destruct (_ || _); lia.
Qed.

Lemma written_date_reads_back_aux (d : date) :
  valid_date d -> 1000 <= d_year d ->
  strptime_date (strftime_iso d) = Returns d.
Proof.
  intros Hv Hy. pose proof (valid_date_bounds d Hv) as (Hyear & Hm & Hd).
  pose proof (days_in_month_bounds (d_year d) (d_month d)) as Hdim.
  destruct (year_text (d_year d)) as (a & b & c & e & Htext & Ha & Hb & Hc & He & Hnum);
    [lia |].
  unfold strftime_iso. rewrite Htext in *.
  change (String a (String b (String c (String e EmptyString))) ++ ?s)
    with (String a (String b (String c (String e s)))).
  rewrite strptime_iso_text by (assumption || lia).
  rewrite Hnum. exact Hv.
Qed.

(** X21: The text [strftime("%Y-%m-%d")] writes for a date is read back by
    [strptime(..., "%Y-%m-%d").date()] as the same date, for every date of
    the calendar whose year has four digits. *)
Theorem written_date_reads_back (d : date) :
  valid_date d -> 1000 <= d_year d ->
  strptime_date (strftime_iso d) = Returns d.
Proof. exact (written_date_reads_back_aux d). Qed.

Lemma written_date_reads_back_witness :
  strptime_date (strftime_iso (MkDate 2024 2 29)) = Returns (MkDate 2024 2 29).
Proof. apply written_date_reads_back; [reflexivity | cbn; lia]. Defined.

Lemma date_ltb_spec (a b : date) :
  date_ltb a b = true
  <-> d_year a < d_year b
      \/ (d_year a = d_year b
          /\ (d_month a < d_month b
              \/ (d_month a = d_month b /\ d_day a < d_day b))).
Proof.
  unfold date_ltb.
  rewrite !orb_true_iff, !andb_true_iff, !orb_true_iff, !andb_true_iff.
  rewrite !Z.ltb_lt, !Z.eqb_eq. tauto.
Qed.

Lemma date_ltb_asym (a b : date) : date_ltb a b = true -> date_ltb b a = false.
Proof.
  intros H. apply date_ltb_spec in H.
  destruct (date_ltb b a) eqn:E; [| reflexivity].
  apply date_ltb_spec in E. lia.
Qed.

Lemma date_ltb_irrefl (a : date) : date_ltb a a = false.
Proof.
  destruct (date_ltb a a) eqn:E; [| reflexivity].
  apply date_ltb_spec in E. lia.
Qed.

(** The day after a date of the calendar is a date of the calendar and a
    later one. *)
Lemma next_day_valid (d : date) :
  valid_date d -> d_year d < 9999 ->
  valid_date (next_day d) /\ date_ltb d (next_day d) = true
  /\ d_year d <= d_year (next_day d) <= d_year d + 1.
Proof.
  intros Hv Hy. pose proof (valid_date_bounds d Hv) as (Hyear & Hm & Hd).
  destruct d as [y m dd]. cbn [d_year d_month d_day] in *.
  rewrite date_ltb_spec. unfold next_day. cbn [d_year d_month d_day].
  destruct (dd <? days_in_month y m) eqn:E1.
  - apply Z.ltb_lt in E1. cbn [d_year d_month d_day].
    split; [apply valid_date_intro; lia | lia].
  - destruct (m <? 12) eqn:E2; cbn [d_year d_month d_day].
    + apply Z.ltb_lt in E2. apply Z.ltb_ge in E1.
      pose proof (days_in_month_bounds y (m + 1)).
      split; [apply valid_date_intro; lia | lia].
    + pose proof (days_in_month_bounds (y + 1) 1).
      split; [apply valid_date_intro; lia | lia].
Qed.

(** X22: Whenever [extract_patient_info] writes a date (the message names
    today or tomorrow, in English or Urdu), the text it stores is read back
    by the slot lookup as a date that is not before the clock's day: the
    lookup answers neither with the invalid-format reply of [strptime] nor
    with the past-date reply. *)
Theorem extracted_date_is_bookable (e : env) (msg : string) (c : context) :
  valid_date (today e) -> 1000 <= d_year (today e) < 9999 ->
  Py.any_in ["tomorrow"; "kal"; "today"; "aaj"] (Py.lower msg) = true ->
  exists text d,
    ctx_date (extract_date e msg c) = Some text
    /\ strptime_date text = Returns d
    /\ date_ltb d (today e) = false.
Proof.
  intros Hv Hy Hword.
  pose proof (next_day_valid (today e) Hv ltac:(lia)) as (Hnv & Hlt & Hny).
  unfold extract_date.
  destruct (Py.contains "tomorrow" (Py.lower msg) || Py.contains "kal" (Py.lower msg))
    eqn:E1.
  - exists (strftime_iso (next_day (today e))), (next_day (today e)).
    split; [reflexivity |]. split.
    + apply written_date_reads_back_aux; [exact Hnv | lia].
    + by apply date_ltb_asym.
  - destruct (Py.contains "today" (Py.lower msg) || Py.contains "aaj" (Py.lower msg))
      eqn:E2.
    + exists (strftime_iso (today e)), (today e).
      split; [reflexivity |]. split.
      * apply written_date_reads_back_aux; [exact Hv | lia].
      * apply date_ltb_irrefl.
    + exfalso. cbn in Hword.
      apply orb_false_iff in E1 as [Ea Eb]. apply orb_false_iff in E2 as [Ec Ed].
      rewrite Ea, Eb, Ec, Ed in Hword. discriminate.
Qed.

Lemma extracted_date_is_bookable_witness :
  exists text d,
    ctx_date (extract_date up "Kal subah" empty_context) = Some text
    /\ strptime_date text = Returns d
    /\ date_ltb d (today up) = false.
Proof.
  apply (extracted_date_is_bookable up "Kal subah" empty_context);
    [reflexivity | cbn; lia | reflexivity].
Defined.

(** ** The slot texts shown to the party, typed back *)

(** The text [strftime("%I:%M %p")] writes for a time of day, as a time
    expression. *)
Definition slot_expression (t : time) : time_expression :=
  let h12 := if t_hour t mod 12 =? 0 then 12 else t_hour t mod 12 in
  MkTimeExpression (Py.zfill 2 h12) true (Some (Py.zfill 2 (t_minute t))) " "
    (Some (if t_hour t <? 12 then "AM" else "PM")).

Definition slot_expression_ok (t : time) : bool :=
  let te := slot_expression t in
  String.eqb (written te EmptyString) (strftime_12h t)
  && all_of Py.is_digit (te_hour te)
  && (String.length (te_hour te) =? 2)%nat
  && all_of Py.is_digit (Py.zfill 2 (t_minute t))
  && (String.length (Py.zfill 2 (t_minute t)) =? 2)%nat
  && (hour_on_24h_clock te =? t_hour t)
  && (minutes_of te =? t_minute t).

Lemma slot_expression_all :
  forallb (fun h => forallb (fun m => slot_expression_ok (MkTime h m)) (seqZ 0 60))
    (seqZ 0 24) = true.
Proof. vm_compute. reflexivity. Qed.

Lemma slot_expression_spec (t : time) :
  0 <= t_hour t <= 23 -> 0 <= t_minute t <= 59 ->
  written (slot_expression t) EmptyString = strftime_12h t
  /\ well_formed (slot_expression t)
  /\ delimited (slot_expression t) EmptyString
  /\ hour_on_24h_clock (slot_expression t) = t_hour t
  /\ minutes_of (slot_expression t) = t_minute t.
Proof.
  intros Hh Hm. destruct t as [h m]. cbn [t_hour t_minute] in Hh, Hm.
  pose proof slot_expression_all as Hall. rewrite forallb_forall in Hall.
  assert (Hinh : In h (seqZ 0 24)) by (apply list_elem_of_In, elem_of_seqZ; lia).
  assert (Hinm : In m (seqZ 0 60)) by (apply list_elem_of_In, elem_of_seqZ; lia).
  specialize (Hall h Hinh). rewrite forallb_forall in Hall. specialize (Hall m Hinm).
  unfold slot_expression_ok in Hall. cbv zeta in Hall.
  repeat (apply andb_true_iff in Hall as [Hall ?]).
  apply String.eqb_eq in Hall.
  repeat match goal with
         | H : (_ =? _)%nat = true |- _ => apply Nat.eqb_eq in H
         | H : (_ =? _) = true |- _ => apply Z.eqb_eq in H
         end.
  split; [exact Hall |]. split; [| split; [| split; assumption]].
  - unfold well_formed. split; [assumption |]. split; [lia |].
    split; [| split; [reflexivity |]].
    + intros mm [= <-]. cbn [t_minute]. split; assumption.
    + intros mk [= <-]. unfold meridiem_markers. cbn [t_hour].
      destruct (h <? 12); cbn; auto.
  - unfold delimited. split; [| split; [| split]]; intros Hx; try discriminate Hx.
    match goal with
    | Hl : String.length _ = 2%nat |- _ => rewrite Hl in Hx
    end.
    discriminate Hx.
Qed.

(** X23: Every text the slot list shows for a time of day ([%I:%M %p], as in
    ["02:30 PM"]), sent back as it stands by a party whose context has a
    date and no time, books exactly that time on the date of the context:
    one confirmed appointment is stored, and the session is replaced. *)
Theorem slot_text_books_that_slot (t : time) (e : env) (phone : string) (c : context)
    (d : database) (ds : string) (day : date) :
  0 <= t_hour t <= 23 -> 0 <= t_minute t <= 59 ->
  ctx_time c = None -> ctx_date c = Some ds -> strptime_date ds = Returns day ->
  db_up e = true ->
  let r := time_selection e phone c (strftime_12h t) d in
  r_reset r = true
  /\ exists p,
       appointments (r_db r)
       = (appointments d
            ++ [MkAppointment (next_id (appointments d)) (patient_id p) day t
                  (default "General consultation" (ctx_reason c)) "confirmed"])%list
       /\ find_patient (default phone (ctx_phone c)) (patients (r_db r)) = Some p.
Proof.
  intros Hh Hm Htime Hdate Hday Hup. cbv zeta.
  destruct (slot_expression_spec t Hh Hm) as (Htext & Hwf & Hdel & Hhour & Hmin).
  pose proof (time_selection_of_expression EmptyString EmptyString (slot_expression t)
                e phone c d ds day eq_refl Hwf Hdel Htime Hdate Hday Hup) as H.
  cbv zeta in H. rewrite Hhour, Hmin in H.
  change (EmptyString ++ written (slot_expression t) EmptyString)
    with (written (slot_expression t) EmptyString) in H.
  rewrite Htext in H. destruct H as [Hreset H]. split; [exact Hreset |].
  replace ((t_hour t <=? 23) && (t_minute t <=? 59)) with true in H
    by (symmetry; apply andb_true_iff; split; apply Z.leb_le; lia).
  destruct H as (p & Happ & Hfind & _). exists p.
  destruct t as [h m]. auto.
Qed.

Lemma slot_text_books_that_slot_witness :
  exists p,
    appointments
      (r_db (time_selection up ahmed
               (context_of (get_conversation_state slots_offered ahmed))
               "02:30 PM" (db slots_offered)))
    = [MkAppointment 1 (patient_id p) (MkDate 2026 11 4) (MkTime 14 30)
         "Fever and headache for 3 days" "confirmed"].
Proof.
  destruct (slot_text_books_that_slot (MkTime 14 30) up ahmed
              (context_of (get_conversation_state slots_offered ahmed))
              (db slots_offered) "2026-11-04" (MkDate 2026 11 4))
    as (_ & p & Happ & _).
  - cbn; lia.
  - cbn; lia.
  - vm_compute. reflexivity.
  - vm_compute. reflexivity.
  - vm_compute. reflexivity.
  - reflexivity.
  - exists p. exact Happ.
Defined.

(** ** The time in the doctor's notification *)

(** [s.split(sep)] for a one-character separator. *)
Fixpoint split_on_go (sep : ascii) (cur : string) (s : string) : list string :=
  match s with
  | EmptyString => [String.rev cur]
  | String a s' =>
      if Ascii.eqb a sep then String.rev cur :: split_on_go sep EmptyString s'
      else split_on_go sep (String a cur) s'
  end.
Definition split_on (sep : ascii) : string -> list string := split_on_go sep EmptyString.

(** Lines 335-346 of [send_doctor_notification]: the time of the
    notification on the 12-hour clock; the text is passed on as it is when
    it has no colon or a part that is not a number. *)
Definition friendly_time (appointment_time : string) : string :=
  match split_on ":" appointment_time with
  | part0 :: part1 :: _ =>
      match Py.int part0, Py.int part1 with
      | Returns hour, Returns minute =>
          let period := if hour <? 12 then "AM" else "PM" in
          let hour_12 := if hour <=? 12 then hour else hour - 12 in
          let hour_12 := if hour_12 =? 0 then 12 else hour_12 in
          Py.str_int hour_12 ++ ":" ++ Py.zfill 2 minute ++ " " ++ period
      | _, _ => appointment_time
      end
  | _ => appointment_time
  end.

Definition friendly_time_ok (h m : Z) : bool :=
  let shown := strftime_12h (MkTime h m) in
  let told := friendly_time (clock h m) in
  String.eqb shown told
  || (String.eqb shown (String "0" told) && negb (starts_with "0" told)).

Lemma friendly_time_all :
  forallb (fun h => forallb (friendly_time_ok h) (seqZ 0 60)) (seqZ 0 24) = true.
Proof. vm_compute. reflexivity. Qed.

(** X24: For every time of day that the slot-selection step can record, the time
    the doctor's notification shows is the text the slot list shows to the
    party for that time ([%I:%M %p]), but for the zero that pads a
    one-digit hour: the two hand-written conversions to the 12-hour clock
    agree, at midnight and noon as well. *)
Theorem doctor_is_told_the_slot_text (h m : Z) :
  0 <= h <= 23 -> 0 <= m <= 59 ->
  let shown := strftime_12h (MkTime h m) in
  let told := friendly_time (clock h m) in
  shown = told \/ (shown = String "0" told /\ starts_with "0" told = false).
Proof.
  intros Hh Hm. cbv zeta.
  pose proof friendly_time_all as Hall. rewrite forallb_forall in Hall.
  assert (Hinh : In h (seqZ 0 24)) by (apply list_elem_of_In, elem_of_seqZ; lia).
  assert (Hinm : In m (seqZ 0 60)) by (apply list_elem_of_In, elem_of_seqZ; lia).
  specialize (Hall h Hinh). rewrite forallb_forall in Hall. specialize (Hall m Hinm).
  unfold friendly_time_ok in Hall. cbv zeta in Hall.
  apply orb_true_iff in Hall as [Heq | Hpad].
  - left. by apply String.eqb_eq.
  - right. apply andb_true_iff in Hpad as [Heq Hz].
    apply String.eqb_eq in Heq. apply negb_true_iff in Hz. auto.
Qed.

Lemma doctor_is_told_the_slot_text_witness :
  friendly_time (clock 0 5) = "12:05 AM"
  /\ strftime_12h (MkTime 14 30) = String "0" (friendly_time (clock 14 30)).
Proof.
  split.
  - destruct (doctor_is_told_the_slot_text 0 5) as [H | [H _]]; try lia.
    + rewrite <- H. reflexivity.
    + exfalso. revert H. vm_compute. discriminate.
  - destruct (doctor_is_told_the_slot_text 14 30) as [H | [H _]]; try lia.
    + exfalso. revert H. vm_compute. discriminate.
    + exact H.
Defined.

(** ** What the extractor stores: the phone number and the age *)

Section BoundedRepetition.
Context {A : Type}.

(** A bounded repetition runs at most as often as its bound. *)
Lemma rep_loop_sound_bounded (m : Re.cursor -> Re.caps -> Re.cont (A := A) -> option A)
    (one : Re.cursor -> Re.caps -> Re.cursor -> Re.caps -> Prop) :
  sound m one ->
  forall n lo c g k a,
    Re.rep_loop m lo n c g k = Some a ->
    exists j c' g', (lo <= j <= n)%nat /\ iter_run one j c g c' g' /\ k c' g' = Some a.
Proof.
  intros Hm. induction n as [|n IH]; intros lo c g k a; cbn.
  - destruct lo; [| discriminate]. intros Hk. exists 0%nat, c, g. cbn. auto.
  - destruct (m c g _) as [a'|] eqn:Hstep.
    + intros [= ->]. apply Hm in Hstep as (c1 & g1 & Hone & Hrest).
      apply IH in Hrest as (j & c' & g' & Hj & Hiter & Hk).
      exists (S j), c', g'. split; [lia |]. split; [| exact Hk].
      cbn. eauto.
    + destruct lo; [| discriminate]. intros Hk. exists 0%nat, c, g. cbn.
      split; [lia | auto].
Qed.

(** A match of [[class]{lo,hi}] takes between [lo] and [hi] characters of
    the class and goes on after them. *)
Lemma rep_class_bounded (p : ascii -> bool) (lo hi : nat) (c : Re.cursor) (g : Re.caps)
    (k : Re.cont (A := A)) (a : A) :
  Re.rmatch (Re.Rep (Re.Sym p) lo (Some hi)) c g k = Some a ->
  exists w c',
    Re.c_rest c = w ++ Re.c_rest c'
    /\ Re.c_pos c' = (Re.c_pos c + String.length w)%nat
    /\ (lo <= String.length w <= hi)%nat /\ all_of p w = true
    /\ k c' g = Some a.
Proof.
  intros H. change (Re.rep_loop (Re.rmatch (Re.Sym p)) lo hi c g k = Some a) in H.
  apply (rep_loop_sound_bounded _ (run (Re.Sym p)) (rmatch_sound (Re.Sym p))) in H
    as (j & c' & g' & Hj & Hiter & Hk).
  apply iter_sym in Hiter as (-> & w & Hrest & Hpos & Hlen & Hall).
  exists w, c'. repeat split; auto; lia.
Qed.

(** A match of one character of a class. *)
Lemma sym_taken (p : ascii -> bool) (c : Re.cursor) (g : Re.caps)
    (k : Re.cont (A := A)) (a : A) :
  Re.rmatch (Re.Sym p) c g k = Some a ->
  exists x c',
    Re.c_rest c = String x (Re.c_rest c') /\ Re.c_pos c' = S (Re.c_pos c)
    /\ p x = true /\ k c' g = Some a.
Proof.
  cbn. destruct (Re.c_rest c) as [|x s] eqn:Hrest; [discriminate |].
  destruct (p x) eqn:Hp; [| discriminate]. intros Hk.
  exists x, (Re.advance c). unfold Re.advance in *. rewrite Hrest in *. cbn. auto.
Qed.

End BoundedRepetition.

Lemma search_go_somewhere (r : Re.regex) (s : string) :
  forall pos prev m,
    Re.search_go r pos prev s = Some m -> exists c, Re.match_at r c = Some m.
Proof.
  induction s as [|ch s IH]; intros pos prev m; cbn [Re.search_go].
  - destruct (Re.match_at r _) as [m'|] eqn:Hm; [| discriminate].
    intros [= ->]. eauto.
  - destruct (Re.match_at r _) as [m'|] eqn:Hm; [intros [= ->]; eauto | apply IH].
Qed.

(** A mobile number as the agent keeps it: eleven digits that begin with
    03. *)
Definition mobile_number (p : string) : Prop :=
  String.length p = 11%nat /\ all_of Py.is_digit p = true /\ starts_with "03" p = true.

Definition separator (c : ascii) : bool := Ascii.eqb c "-" || Ascii.eqb c " ".

Lemma append_assoc (u v w : string) : (u ++ v) ++ w = u ++ (v ++ w).
Proof.
  induction u as [|a u IH]; [reflexivity |].
  rewrite !append_cons. by rewrite IH.
Qed.

Lemma all_of_app (p : ascii -> bool) (u v : string) :
  all_of p (u ++ v) = all_of p u && all_of p v.
Proof.
  induction u as [|a u IH]; [reflexivity |].
  rewrite append_cons. cbn [all_of]. by rewrite IH, andb_assoc.
Qed.

Lemma remove_char_app (x : ascii) (u v : string) :
  Py.remove_char x (u ++ v) = Py.remove_char x u ++ Py.remove_char x v.
Proof.
  induction u as [|a u IH]; [reflexivity |].
  rewrite append_cons. cbn [Py.remove_char]. rewrite IH.
  destruct (Ascii.eqb a x); reflexivity.
Qed.

Lemma digit_not_separator (a : ascii) :
  Py.is_digit a = true -> Ascii.eqb a " " = false /\ Ascii.eqb a "-" = false.
Proof.
  intros Ha. split.
  - destruct (Ascii.eqb_spec a " ") as [-> |]; [discriminate Ha | reflexivity].
  - destruct (Ascii.eqb_spec a "-") as [-> |]; [discriminate Ha | reflexivity].
Qed.

Lemma remove_char_digits (x : ascii) (w : string) :
  Py.is_digit x = false -> all_of Py.is_digit w = true -> Py.remove_char x w = w.
Proof.
  intros Hx. induction w as [|a w IH]; [reflexivity |].
  cbn. intros H. apply andb_true_iff in H as [Ha Hw].
  destruct (Ascii.eqb_spec a x) as [-> |]; [congruence |]. by rewrite IH.
Qed.

Lemma remove_separator (sep : string) :
  (String.length sep <= 1)%nat -> all_of separator sep = true ->
  Py.remove_char "-" (Py.remove_char " " sep) = EmptyString.
Proof.
  destruct sep as [|a [|b sep]]; cbn; [reflexivity | | lia].
  intros _ H. rewrite andb_true_r in H. unfold separator in H.
  apply orb_true_iff in H as [H | H]; apply Ascii.eqb_eq in H as ->; reflexivity.
Qed.

(** What a match of the phone expression captures: 03, two digits, at most
    one dash or space, seven digits. *)
Lemma phone_match_shape (c : Re.cursor) (m : Re.match_obj) :
  Re.match_at phone_pattern c = Some m ->
  exists w1 sep w2,
    Re.group m 0 = Some ("03" ++ (w1 ++ (sep ++ w2)))
    /\ String.length w1 = 2%nat /\ all_of Py.is_digit w1 = true
    /\ (String.length sep <= 1)%nat /\ all_of separator sep = true
    /\ String.length w2 = 7%nat /\ all_of Py.is_digit w2 = true.
Proof.
  unfold Re.match_at. rewrite rmatch_grp.
  change phone_pattern
    with (Re.Cat (Re.Cat (Re.Sym (Ascii.eqb "0")) (Re.Sym (Ascii.eqb "3")))
            (Re.Cat (Re.Rep (Re.Sym Py.is_digit) 2 (Some 2%nat))
               (Re.Cat (Re.Rep (Re.Sym separator) 0 (Some 1%nat))
                  (Re.Rep (Re.Sym Py.is_digit) 7 (Some 7%nat))))).
  rewrite !rmatch_cat. intros H.
  apply sym_taken in H as (x0 & c1 & Hr0 & Hp0 & Hx0 & H).
  apply sym_taken in H as (x1 & c2 & Hr1 & Hp1 & Hx1 & H).
  apply rep_class_bounded in H as (w1 & c3 & Hr2 & Hp2 & Hl2 & Hd2 & H).
  apply rep_class_bounded in H as (sep & c4 & Hr3 & Hp3 & Hl3 & Hd3 & H).
  apply rep_class_bounded in H as (w2 & c5 & Hr4 & Hp4 & Hl4 & Hd4 & H).
  injection H as <-.
  apply Ascii.eqb_eq in Hx0 as <-. apply Ascii.eqb_eq in Hx1 as <-.
  exists w1, sep, w2. unfold Re.group. cbn [Re.m_caps Re.lookup_cap Nat.eqb].
  repeat split; try assumption; try lia.
  f_equal. rewrite Hr0, Hr1, Hr2, Hr3, Hr4.
  set (T := "03" ++ (w1 ++ (sep ++ w2))).
  assert (Htext : String "0" (String "3" (w1 ++ (sep ++ (w2 ++ Re.c_rest c5))))
                  = T ++ Re.c_rest c5).
  { unfold T. rewrite !append_assoc, !append_cons, append_nil. reflexivity. }
  assert (Hlen : (Re.c_pos c5 - Re.c_pos c)%nat = String.length T).
  { unfold T. rewrite !append_cons, append_nil. cbn [String.length].
    rewrite !app_length. lia. }
  rewrite Htext, Hlen. apply substring_prefix.
Qed.

(** The captured digits of the two age expressions: one to three of them. *)
Lemma age_match_shape (c : Re.cursor) (m : Re.match_obj) :
  Re.match_at age_pattern c = Some m ->
  exists w, Re.group m 1 = Some w
            /\ (1 <= String.length w <= 3)%nat /\ all_of Py.is_digit w = true.
Proof.
  unfold Re.match_at. rewrite rmatch_grp.
  change age_pattern
    with (Re.Cat (Re.Grp 1 (Re.Rep (Re.Sym Py.is_digit) 1 (Some 3%nat)))
            (Re.seq [Re.star Re.space;
                     Re.alts [Re.Cat (Re.lit "year") (Re.opt (Re.chr "s"));
                              Re.lit "saal"; Re.lit "sal"; Re.lit "old"]])).
  rewrite rmatch_cat, rmatch_grp. intros H.
  apply rep_class_bounded in H as (w & c1 & Hrest & Hpos & Hlen & Hdig & H).
  apply rmatch_sound in H as (c2 & g2 & Hrun & H).
  apply run_no_group in Hrun as ->; [| reflexivity].
  injection H as <-. exists w. unfold Re.group.
  cbn [Re.m_caps Re.lookup_cap Nat.eqb].
  rewrite Hrest, Hpos.
  replace (Re.c_pos c + String.length w - Re.c_pos c)%nat with (String.length w) by lia.
  rewrite substring_prefix. auto.
Qed.

Lemma number_match_shape (c : Re.cursor) (m : Re.match_obj) :
  Re.match_at number_pattern c = Some m ->
  exists w, Re.group m 1 = Some w
            /\ (1 <= String.length w <= 3)%nat /\ all_of Py.is_digit w = true.
Proof.
  unfold Re.match_at. rewrite rmatch_grp.
  change number_pattern
    with (Re.Cat Re.WordB
            (Re.Cat (Re.Grp 1 (Re.Rep (Re.Sym Py.is_digit) 1 (Some 3%nat))) Re.WordB)).
  rewrite rmatch_cat. intros H.
  apply (rmatch_sound Re.WordB) in H as (c0 & g0 & [-> ->] & H).
  rewrite rmatch_cat, rmatch_grp in H.
  apply rep_class_bounded in H as (w & c1 & Hrest & Hpos & Hlen & Hdig & H).
  apply (rmatch_sound Re.WordB) in H as (c2 & g2 & [-> ->] & H).
  injection H as <-. exists w. unfold Re.group.
  cbn [Re.m_caps Re.lookup_cap Nat.eqb].
  rewrite Hrest, Hpos.
  replace (Re.c_pos c + String.length w - Re.c_pos c)%nat with (String.length w) by lia.
  rewrite substring_prefix. auto.
Qed.

Lemma number_three_digits (w : string) :
  all_of Py.is_digit w = true -> (String.length w <= 3)%nat -> 0 <= number 0 w <= 999.
Proof.
  intros Hall Hlen.
  destruct w as [|a [|b [|c [|]]]]; cbn in Hlen; try lia; cbn in Hall |- *;
    repeat match goal with
           | H : _ && _ = true |- _ => apply andb_true_iff in H as [? ?]
           end;
    repeat match goal with
           | H : Py.is_digit ?x = true |- _ => apply digit_val_bounds in H
           end; lia.
Qed.

Lemma group_int_age (m : Re.match_obj) (w : string) :
  Re.group m 1 = Some w -> (1 <= String.length w <= 3)%nat ->
  all_of Py.is_digit w = true ->
  exists v, group_int m 1 = Returns v /\ 0 <= v <= 999.
Proof.
  intros Hg Hlen Hdig. unfold group_int. rewrite Hg.
  rewrite (int_number w Hdig) by lia. eexists. split; [reflexivity |].
  apply number_three_digits; [exact Hdig | lia].
Qed.

(** What a context holds of the party: the phone number is a mobile number,
    the age has at most three digits. *)
Definition party_data_ok (c : context) : Prop :=
  (forall p, ctx_phone c = Some p -> mobile_number p)
  /\ (forall a, ctx_age c = Some a -> 0 <= a <= 999).

Lemma empty_context_data_ok : party_data_ok empty_context.
Proof. split; discriminate. Qed.

Lemma extract_age_data (msg : string) (c c' : context) :
  extract_age msg c = Returns c' -> party_data_ok c -> party_data_ok c'.
Proof.
  unfold extract_age. intros H [Hphone Hage].
  destruct (Re.search age_pattern (Py.lower msg)) as [m|] eqn:Hm.
  - destruct (ctx_age c) as [v|] eqn:Hv.
    + destruct (ctx_name c); [destruct (Re.search number_pattern msg) |];
        injection H as <-; split; [exact Hphone | by rewrite Hv | exact Hphone
                                   | by rewrite Hv | exact Hphone | by rewrite Hv].
    + unfold Re.search in Hm. apply search_go_somewhere in Hm as [cur Hcur].
      apply age_match_shape in Hcur as (w & Hg & Hlen & Hdig).
      destruct (group_int_age m w Hg Hlen Hdig) as (v & Hint & Hb).
      rewrite Hint in H. injection H as <-. split; [exact Hphone |].
      cbn. intros a [= <-]. exact Hb.
  - destruct (ctx_age c) as [v|] eqn:Hv.
    + injection H as <-. split; [exact Hphone | by rewrite Hv].
    + destruct (ctx_name c); [| injection H as <-; split; [exact Hphone | by rewrite Hv]].
      destruct (Re.search number_pattern msg) as [m|] eqn:Hnum;
        [| injection H as <-; split; [exact Hphone | by rewrite Hv]].
      unfold Re.search in Hnum. apply search_go_somewhere in Hnum as [cur Hcur].
      apply number_match_shape in Hcur as (w & Hg & Hlen & Hdig).
      destruct (group_int_age m w Hg Hlen Hdig) as (v & Hint & Hb).
      rewrite Hint in H.
      destruct ((1 <=? v) && (v <=? 120)); injection H as <-;
        [| split; [exact Hphone | by rewrite Hv]].
      split; [exact Hphone |]. cbn. intros a [= <-]. exact Hb.
Qed.

Lemma extract_phone_data (msg : string) (c : context) :
  party_data_ok c -> party_data_ok (extract_phone msg c).
Proof.
  unfold extract_phone. intros [Hphone Hage].
  destruct (Re.search phone_pattern msg) as [m|] eqn:Hm; [| split; assumption].
  destruct (ctx_phone c) eqn:Hp; [split; [by rewrite Hp | assumption] |].
  unfold Re.search in Hm. apply search_go_somewhere in Hm as [cur Hcur].
  apply phone_match_shape in Hcur as (w1 & sep & w2 & Hg & Hl1 & Hd1 & Hls & Hds & Hl2 & Hd2).
  split; [| exact Hage]. cbn. intros p [= <-]. rewrite Hg. cbn [from_option id].
  rewrite !remove_char_app, (remove_separator sep) by assumption.
  rewrite !(remove_char_digits " "), !(remove_char_digits "-") by (assumption || reflexivity).
  rewrite append_nil. unfold mobile_number.
  rewrite !append_cons, append_nil. cbn [String.length all_of starts_with].
  rewrite app_length, all_of_app, Hl1, Hl2, Hd1, Hd2. auto.
Qed.

Lemma later_steps_keep_data (e : env) (msg : string) (c : context) :
  party_data_ok c ->
  party_data_ok (extract_date e msg (extract_reason msg (extract_name msg c))).
Proof.
  intros H.
  assert (Hsame : forall c1 : context,
             ctx_phone (extract_date e msg (extract_reason msg (extract_name msg c1)))
             = ctx_phone c1
             /\ ctx_age (extract_date e msg (extract_reason msg (extract_name msg c1)))
                = ctx_age c1).
  { intros c1. unfold extract_date, extract_reason, extract_name.
    split_matches; split; reflexivity. }
  destruct (Hsame c) as [Hp Ha]. unfold party_data_ok. rewrite Hp, Ha. exact H.
Qed.

Lemma extract_data (e : env) (msg : string) (c c' : context) :
  extract_patient_info e msg c = Returns c' -> party_data_ok c -> party_data_ok c'.
Proof.
  unfold extract_patient_info.
  destruct (extract_age msg c) as [c1|] eqn:Hage; [| discriminate].
  intros [= <-] H. apply later_steps_keep_data, extract_phone_data.
  eapply extract_age_data; eassumption.
Qed.

(** The phone number and the age of two contexts agree. *)
Definition same_party (c c' : context) : Prop :=
  ctx_phone c' = ctx_phone c /\ ctx_age c' = ctx_age c.

Lemma select_time_party (e : env) (phone : string) (c : context) (m : Re.match_obj)
    (d : database) :
  same_party c (r_context (select_time e phone c m d)).
Proof.
  unfold select_time.
  destruct (parse_time m) as [time_str|]; [| split; reflexivity].
  destruct (inline_booking e phone (set_time time_str c) time_str d) as [res d'].
  destruct (ctx_date (set_time time_str c)); split; reflexivity.
Qed.

Lemma time_loop_party (e : env) (phone msg : string) (c : context) (d : database)
    (patterns : list Re.regex) (r : response) :
  time_loop e phone c msg d patterns = Some r -> same_party c (r_context r).
Proof.
  induction patterns as [|p ps IH]; cbn; [discriminate |].
  destruct (Re.search p msg) as [m|]; [| exact IH].
  destruct (ctx_time c); [exact IH |].
  intros [= <-]. apply select_time_party.
Qed.

Lemma time_selection_party (e : env) (phone msg : string) (c : context) (d : database) :
  same_party c (r_context (time_selection e phone c msg d)).
Proof.
  unfold time_selection.
  destruct (time_loop e phone c msg d time_patterns) as [r|] eqn:Hloop.
  - eapply time_loop_party; eassumption.
  - split_matches; split; reflexivity.
Qed.

Lemma generate_response_party (cfg : config) (e : env) (phone msg : string)
    (c : context) (history : list message) (d : database) :
  same_party c (r_context (generate_response cfg e phone c msg history d)).
Proof.
  pose proof (time_selection_party e phone msg c d) as Hts.
  unfold generate_response, booking_stage.
  split_matches; try exact Hts; split; reflexivity.
Qed.

Lemma chat_keeps_party_data (cfg : config) (e : env) (w : world) (phone msg : string) :
  map_Forall (fun _ s => party_data_ok (context_of s)) (conversation_states w) ->
  map_Forall (fun _ s => party_data_ok (context_of s))
    (conversation_states (snd (chat_with_agent cfg e w phone msg))).
Proof.
  intros Hw.
  assert (Hstate : party_data_ok (context_of (get_conversation_state w phone))).
  { unfold get_conversation_state.
    destruct (conversation_states w !! phone) as [s|] eqn:Hs; cbn.
    - exact (Hw phone s Hs).
    - apply empty_context_data_ok. }
  unfold chat_with_agent.
  destruct (is_urgent msg); cbn [snd conversation_states].
  { apply map_Forall_insert_2; [exact Hstate | exact Hw]. }
  destruct (extract_patient_info e msg _) as [c|] eqn:Hext; cbn [snd conversation_states].
  2: { apply map_Forall_insert_2; [exact Hstate | exact Hw]. }
  pose proof (extract_data e msg _ c Hext Hstate) as Hc.
  pose proof (generate_response_party cfg e phone msg c
                (messages (get_conversation_state w phone) ++ [user_says msg])%list (db w))
    as [Hp Ha].
  assert (Hr : party_data_ok
                 (r_context (generate_response cfg e phone c msg
                    (messages (get_conversation_state w phone) ++ [user_says msg])%list
                    (db w)))).
  { unfold party_data_ok. rewrite Hp, Ha. exact Hc. }
  destruct (r_reply _); cbn [snd conversation_states];
    (destruct (r_reset _);
     [apply map_Forall_insert_2; [apply empty_context_data_ok | exact Hw]
     | apply map_Forall_insert_2; [exact Hr | exact Hw]]).
Qed.

Lemma reachable_party_data (cfg : config) (w : world) (party : string) :
  reachable cfg w -> party_data_ok (context_of (get_conversation_state w party)).
Proof.
  unfold reachable. intros Hr.
  assert (Hall : map_Forall (fun _ s => party_data_ok (context_of s))
                   (conversation_states w)).
  { apply (rtc_ind_r (R := step cfg)
             (fun w => map_Forall (fun _ s => party_data_ok (context_of s))
                         (conversation_states w)) initial_world); [| | exact Hr].
    - cbn. apply map_Forall_empty.
    - intros y z _ Hstep Hy. destruct Hstep; cbn [conversation_states];
        [by apply chat_keeps_party_data | exact Hy | exact Hy]. }
  unfold get_conversation_state.
  destruct (conversation_states w !! party) as [s|] eqn:Hs; cbn.
  - exact (Hall party s Hs).
  - apply empty_context_data_ok.
Qed.

(** X25: In every reachable world, a phone number kept in a session has eleven
    characters, all of them digits, and begins with 03: the dash or the
    space the party may have written after the fourth digit is removed
    before the number is stored. *)
Theorem stored_phone_is_a_mobile_number (cfg : config) (w : world) (party p : string) :
  reachable cfg w ->
  ctx_phone (context_of (get_conversation_state w party)) = Some p ->
  String.length p = 11%nat /\ all_of Py.is_digit p = true /\ starts_with "03" p = true.
Proof.
  intros Hr Hp. destruct (reachable_party_data cfg w party Hr) as [Hphone _].
  exact (Hphone p Hp).
Qed.

Lemma stored_phone_is_a_mobile_number_witness :
  ctx_phone (context_of (get_conversation_state slots_offered ahmed)) = Some "03001234567"
  /\ String.length "03001234567" = 11%nat.
Proof.
  assert (Hp : ctx_phone (context_of (get_conversation_state slots_offered ahmed))
               = Some "03001234567") by (vm_compute; reflexivity).
  split; [exact Hp |].
  apply (stored_phone_is_a_mobile_number default_config slots_offered ahmed _).
  - unfold slots_offered. apply converse_reachable. apply rtc_refl.
  - exact Hp.
Defined.

(** X26: In every reachable world, an age kept in a session lies between 0 and
    999: the extractor reads at most three digits, and checks the range
    1..120 only for a number that stands alone, not for one followed by
    "years", "saal", "sal" or "old". *)
Theorem stored_age_has_three_digits (cfg : config) (w : world) (party : string) (a : Z) :
  reachable cfg w ->
  ctx_age (context_of (get_conversation_state w party)) = Some a ->
  0 <= a <= 999.
Proof.
  intros Hr Ha. destruct (reachable_party_data cfg w party Hr) as [_ Hage].
  exact (Hage a Ha).
Qed.

Lemma stored_age_has_three_digits_witness :
  let w := converse default_config up initial_world ahmed
             ["Hello"; "Fine"; "I am 999 years old"] in
  ctx_age (context_of (get_conversation_state w ahmed)) = Some 999
  /\ 0 <= 999 <= 999.
Proof.
  cbv zeta.
  assert (Ha : ctx_age (context_of (get_conversation_state
                 (converse default_config up initial_world ahmed
                    ["Hello"; "Fine"; "I am 999 years old"]) ahmed)) = Some 999)
    by (vm_compute; reflexivity).
  split; [exact Ha |].
  apply (stored_age_has_three_digits default_config
           (converse default_config up initial_world ahmed
              ["Hello"; "Fine"; "I am 999 years old"]) ahmed 999).
  - apply converse_reachable. apply rtc_refl.
  - exact Ha.
Defined.
